(** * mail_gun: the mail-merge campaign runner of [main.py]

    A shallow embedding of the address parser, the template engine, the
    send step and the campaign loop of [main.py], of the set-up of its
    working directory, and of the earlier script [email_sender.py],
    followed by the properties that are established on it.

    Conventions of the embedding.
    - Text is a Rocq [string] standing for ASCII text; a character above
      127 is opaque (neither whitespace nor a letter).
    - A spreadsheet cell is either text or the missing-value marker NaN
      that pandas produces for an empty cell.
    - Everything the program reads from its environment (credentials, the
      clock, the file system, the answer of the SMTP server) is supplied by
      a [World]; the effects it performs (previews, SMTP sessions, sleeps)
      are recorded in a trace. *)

From Stdlib Require Import String Ascii List ZArith Bool Arith Lia.
From Stdlib Require Import Numbers.DecimalString.
From Stdlib Require Import Sorting.Sorted.
Import ListNotations.
Local Open Scope list_scope.
Local Open Scope string_scope.

(** ** Python's [str] methods used by the program *)

Module PyStr.

(** [c.isspace()] on ASCII: TAB..CR, FS..US and the blank. *)
Definition isspace (c : ascii) : bool :=
  let n := nat_of_ascii c in
  ((9 <=? n)%nat && (n <=? 13)%nat) || ((28 <=? n)%nat && (n <=? 32)%nat).

Fixpoint lstrip (s : string) : string :=
  match s with
  | "" => ""
  | String c s' => if isspace c then lstrip s' else s
  end.

Fixpoint rstrip (s : string) : string :=
  match s with
  | "" => ""
  | String c s' =>
      match rstrip s' with
      | "" => if isspace c then "" else String c ""
      | r => String c r
      end
  end.

(** [s.strip()] *)
Definition strip (s : string) : string := rstrip (lstrip s).

(** [s.split(sep)] for a one-character separator. *)
Fixpoint split (sep : ascii) (s : string) : list string :=
  match s with
  | "" => [""]
  | String c s' =>
      if Ascii.eqb c sep then "" :: split sep s'
      else match split sep s' with
           | [] => [String c ""]
           | w :: ws => String c w :: ws
           end
  end.

(** [sep.join(l)] *)
Definition join (sep : string) (l : list string) : string := String.concat sep l.

Definition upper_char (c : ascii) : ascii :=
  let n := nat_of_ascii c in
  if (97 <=? n)%nat && (n <=? 122)%nat then ascii_of_nat (n - 32) else c.

(** [s.upper()] *)
Fixpoint upper (s : string) : string :=
  match s with
  | "" => ""
  | String c s' => String (upper_char c) (upper s')
  end.

(** Left-to-right scan of [s.replace(old, new)] for a non-empty [old]:
    [skip] counts the characters of a match that are still to be
    consumed. *)
Fixpoint replace_from (old new : string) (skip : nat) (s : string) : string :=
  match s with
  | "" => ""
  | String c s' =>
      match skip with
      | S k => replace_from old new k s'
      | O =>
          if prefix old s
          then new ++ replace_from old new (String.length old - 1) s'
          else String c (replace_from old new 0 s')
      end
  end.

Fixpoint intersperse (new s : string) : string :=
  match s with
  | "" => new
  | String c s' => new ++ String c (intersperse new s')
  end.

(** [s.replace(old, new)]: every non-overlapping occurrence, leftmost
    first; an empty [old] matches between any two characters. *)
Definition replace (old new s : string) : string :=
  match old with
  | "" => intersperse new s
  | _ => replace_from old new 0 s
  end.

(** [bool(s)] *)
Definition truthy (s : string) : bool :=
  match s with "" => false | _ => true end.

(** Every character of [s] satisfies [p]. *)
Fixpoint all (p : ascii -> bool) (s : string) : bool :=
  match s with
  | "" => true
  | String c s' => p c && all p s'
  end.

(** [c in s] for a character. *)
Fixpoint mem (c : ascii) (s : string) : bool :=
  match s with
  | "" => false
  | String d s' => Ascii.eqb c d || mem c s'
  end.

End PyStr.

(** ** Regular expressions, as far as [validate_email] needs them *)

Module Re.

Inductive regex : Type :=
| Void
| Eps
| Cls (p : ascii -> bool)
| Cat (r1 r2 : regex)
| Alt (r1 r2 : regex)
| Star (r : regex).

Definition Chr (c : ascii) : regex := Cls (Ascii.eqb c).
(** [r+] *)
Definition Plus (r : regex) : regex := Cat r (Star r).
(** [r{2,}] *)
Definition AtLeast2 (r : regex) : regex := Cat r (Cat r (Star r)).
(** [$] outside MULTILINE mode: the end of the text, or just before a
    newline that ends the text. *)
Definition Dollar : regex := Alt Eps (Chr "010"%char).

Fixpoint nullable (r : regex) : bool :=
  match r with
  | Void => false
  | Eps => true
  | Cls _ => false
  | Cat r1 r2 => nullable r1 && nullable r2
  | Alt r1 r2 => nullable r1 || nullable r2
  | Star _ => true
  end.

Fixpoint deriv (c : ascii) (r : regex) : regex :=
  match r with
  | Void => Void
  | Eps => Void
  | Cls p => if p c then Eps else Void
  | Cat r1 r2 =>
      if nullable r1
      then Alt (Cat (deriv c r1) r2) (deriv c r2)
      else Cat (deriv c r1) r2
  | Alt r1 r2 => Alt (deriv c r1) (deriv c r2)
  | Star r1 => Cat (deriv c r1) (Star r1)
  end.

(** The whole of [s] is in the language of [r]. *)
Fixpoint fullmatch (r : regex) (s : string) : bool :=
  match s with
  | "" => nullable r
  | String c s' => fullmatch (deriv c r) s'
  end.

(** The language of a regular expression. *)
Inductive Lang : regex -> string -> Prop :=
| LEps : Lang Eps ""
| LCls p c : p c = true -> Lang (Cls p) (String c "")
| LCat r1 r2 s1 s2 : Lang r1 s1 -> Lang r2 s2 -> Lang (Cat r1 r2) (s1 ++ s2)
| LAltL r1 r2 s : Lang r1 s -> Lang (Alt r1 r2) s
| LAltR r1 r2 s : Lang r2 s -> Lang (Alt r1 r2) s
| LStar0 r : Lang (Star r) ""
| LStarS r s1 s2 : Lang r s1 -> Lang (Star r) s2 -> Lang (Star r) (s1 ++ s2).

Definition in_range (lo hi : ascii) (c : ascii) : bool :=
  (nat_of_ascii lo <=? nat_of_ascii c)%nat && (nat_of_ascii c <=? nat_of_ascii hi)%nat.

End Re.

(** ** Cells and rows *)

(** A cell of the table: text, or pandas' missing value. *)
Inductive cell : Type :=
| NaN
| Str (s : string).

(** [pd.isna(v)] *)
Definition isna (v : cell) : bool :=
  match v with NaN => true | Str _ => false end.

(** [str(v)] *)
Definition str (v : cell) : string :=
  match v with NaN => "nan" | Str s => s end.

(** [bool(v)]: NaN is a non-zero float, hence true. *)
Definition cell_truthy (v : cell) : bool :=
  match v with NaN => true | Str s => PyStr.truthy s end.

(** A row handed out by [df.iterrows()]: column label and value, in column
    order. *)
Definition Series : Type := list (string * cell).

(** [row.get(key, default)] *)
Fixpoint series_get (row : Series) (key : string) (default : cell) : cell :=
  match row with
  | [] => default
  | (k, v) :: rest => if String.eqb k key then v else series_get rest key default
  end.

(** [row[key]]; [None] stands for [KeyError]. *)
Fixpoint series_getitem (row : Series) (key : string) : option cell :=
  match row with
  | [] => None
  | (k, v) :: rest => if String.eqb k key then Some v else series_getitem rest key
  end.

(** ** [validate_email] and [parse_email_list] *)

Definition letter (c : ascii) : bool :=
  Re.in_range "a" "z" c || Re.in_range "A" "Z" c.

Definition alnum (c : ascii) : bool :=
  letter c || Re.in_range "0" "9" c.

(** [[a-zA-Z0-9._%+-]] *)
Definition local_char (c : ascii) : bool := alnum c || PyStr.mem c "._%+-".

(** [[a-zA-Z0-9.-]] *)
Definition domain_char (c : ascii) : bool := alnum c || PyStr.mem c ".-".

(** The pattern between [^] and [$]:
    [[a-zA-Z0-9._%+-]+@[a-zA-Z0-9.-]+\.[a-zA-Z]{2,}]. *)
Definition email_body : Re.regex :=
  Re.Cat (Re.Plus (Re.Cls local_char))
    (Re.Cat (Re.Chr "@")
       (Re.Cat (Re.Plus (Re.Cls domain_char))
          (Re.Cat (Re.Chr ".") (Re.AtLeast2 (Re.Cls letter))))).

(** [re.match(r'^...$', s) is not None] *)
Definition email_pattern : Re.regex := Re.Cat email_body Re.Dollar.

Definition validate_email (email : string) : bool :=
  Re.fullmatch email_pattern (PyStr.strip email).

(** One turn of the [for email in emails] loop: the valid and the invalid
    addresses collected so far. *)
Definition classify_email (acc : list string * list string) (email : string)
  : list string * list string :=
  let '(valid_emails, invalid_emails) := acc in
  if PyStr.truthy email && validate_email email
  then ((valid_emails ++ [email])%list, invalid_emails)
  else if PyStr.truthy email
       then (valid_emails, (invalid_emails ++ [email])%list)
       else (valid_emails, invalid_emails).

(** [parse_email_list]: the list it returns, and the addresses named in
    the warning it prints (none: no warning). *)
Definition parse_email_list (email_string : cell) : list string * list string :=
  if isna email_string || negb (PyStr.truthy (PyStr.strip (str email_string)))
  then ([], [])
  else
    let emails := map PyStr.strip (PyStr.split "," (str email_string)) in
    fold_left classify_email emails ([], []).

(** ** The clock *)

(** A reading of [datetime.now()]; [month] is 1..12. *)
Record datetime : Type := {
  year : nat;
  month : nat;
  day : nat;
  hour : nat;
  minute : nat;
  second : nat
}.

Definition decimal (n : nat) : string :=
  NilEmpty.string_of_uint (Nat.to_uint n).

(** [%d], [%m], [%H], [%M], [%S]: two digits, zero padded. *)
Definition pad2 (n : nat) : string :=
  if (n <? 10)%nat then "0" ++ decimal n else decimal n.

(** [%B] in the C locale. *)
Definition month_name (m : nat) : string :=
  nth (m - 1)
    ["January"; "February"; "March"; "April"; "May"; "June"; "July";
     "August"; "September"; "October"; "November"; "December"] "".

(** [d.strftime("%B %d, %Y")] *)
Definition strftime_date (d : datetime) : string :=
  month_name (month d) ++ " " ++ pad2 (day d) ++ ", " ++ decimal (year d).

(** [d.strftime("%Y-%m-%d %H:%M:%S")] *)
Definition strftime_timestamp (d : datetime) : string :=
  decimal (year d) ++ "-" ++ pad2 (month d) ++ "-" ++ pad2 (day d) ++ " "
  ++ pad2 (hour d) ++ ":" ++ pad2 (minute d) ++ ":" ++ pad2 (second d).

(** ** [personalize_content] *)

(** The [replacements] dict: placeholder and value, in insertion order. *)
Definition Replacements : Type := list (string * string).

(** [replacements.get(placeholder)] *)
Fixpoint lookup (placeholder : string) (replacements : Replacements) : option string :=
  match replacements with
  | [] => None
  | (p, v) :: rest => if String.eqb p placeholder then Some v else lookup placeholder rest
  end.

(** ['{{' + key.upper().replace(' ', '_') + '}}'] *)
Definition placeholder_of (key : string) : string :=
  "{{" ++ PyStr.replace " " "_" (PyStr.upper key) ++ "}}".

(** The four standard replacements; [today] is the reading of the clock. *)
Definition standard_replacements (today : datetime) (row_data : Series) : Replacements :=
  [ ("{{NAME}}", str (series_get row_data "First Name" (Str "")));
    ("{{DATE}}", strftime_date today);
    ("{{COMPANY}}", str (series_get row_data "Company" (Str "")));
    ("{{EMAIL}}", str (series_get row_data "To" (Str ""))) ].

(** One turn of [for key, value in row_data.items()]. *)
Definition add_column (replacements : Replacements) (item : string * cell) : Replacements :=
  let '(key, value) := item in
  let placeholder := placeholder_of key in
  match lookup placeholder replacements with
  | Some _ => replacements
  | None =>
      (replacements ++ [(placeholder, if negb (isna value) then str value else "")])%list
  end.

Definition replacements_of (today : datetime) (row_data : Series) : Replacements :=
  fold_left add_column row_data (standard_replacements today row_data).

(** One turn of [for placeholder, value in replacements.items()]. *)
Definition replace_one (content : string) (item : string * string) : string :=
  PyStr.replace (fst item) (snd item) content.

Definition personalize_content (today : datetime) (template : string) (row_data : Series)
  : string :=
  fold_left replace_one (replacements_of today row_data) template.

(** ** Configuration, environment, messages *)

(** [config.COLUMNS] *)
Record Columns : Type := {
  col_name : string;
  col_to : string;
  col_cc : string;
  col_bcc : string;
  col_status : string;
  col_timestamp : string;
  col_attachments : string;
  col_custom_subject : string
}.

Record EmailConfig : Type := {
  EXCEL_FILE : string;
  EMAIL_SUBJECT : string;
  TEMPLATE_FILE : string;
  ATTACHMENTS_FOLDER : string;
  DELAY_BETWEEN_EMAILS : Z;
  MAX_EMAILS_PER_RUN : Z;
  TEST_MODE : bool;
  TEST_EMAIL : string;
  COLUMNS : Columns
}.

(** [EmailConfig()] *)
Definition default_columns : Columns := {|
  col_name := "First Name";
  col_to := "To";
  col_cc := "CC";
  col_bcc := "BCC";
  col_status := "Email Status";
  col_timestamp := "Sent Timestamp";
  col_attachments := "Attachments";
  col_custom_subject := "Custom Subject"
|}.

Definition default_config : EmailConfig := {|
  EXCEL_FILE := "aarushi_main.xlsx";
  EMAIL_SUBJECT := "Invitation: Q2 Vertex AI Search for Media Product Roadmap Quarterly";
  TEMPLATE_FILE := "email_template.html";
  ATTACHMENTS_FOLDER := "attachments";
  DELAY_BETWEEN_EMAILS := 2;
  MAX_EMAILS_PER_RUN := 100;
  TEST_MODE := false;
  TEST_EMAIL := "test@example.com";
  COLUMNS := default_columns
|}.

(** The MIME message, as far as the program determines it. *)
Record Message : Type := {
  msg_from : string;
  msg_to : string;
  msg_cc : option string;
  msg_subject : string;
  msg_body : string;
  msg_attachments : list string
}.

(** What the program reads from outside: the environment variables
    ([None]: not set), the clock (its n-th reading), the file system
    ([listdir] gives [None] when [os.listdir] raises, [readable] tells
    whether a file can be opened and read), what the SMTP session
    opened at clock reading [n] with a server and a port does: [None] when
    it goes through, [Some e] when it raises an exception whose text is
    [e]; and what the system clock does with a sleep of a length that is
    not negative: [None] when it sleeps, [Some e] when it refuses the
    length, as it does one too long for it to count. *)
Record World : Type := {
  EMAIL_SENDER : option string;
  EMAIL_PASSWORD : option string;
  SMTP_SERVER : option string;
  SMTP_PORT : option string;
  now : nat -> datetime;
  path_exists : string -> bool;
  listdir : string -> option (list string);
  isfile : string -> bool;
  readable : string -> bool;
  smtp : nat -> string -> Z -> string -> list string -> Message -> option string;
  sleep_error : Z -> option string
}.

(** What the program does to the outside. *)
Inductive Event : Type :=
| Preview (m : Message)
| SmtpSession (sender : string) (recipients : list string) (m : Message)
| Sleep (seconds : Z).

(** The two variants of the delivery channel: the dry-run preview and the
    SMTP session. *)
Definition is_delivery (e : Event) : bool :=
  match e with
  | Preview _ | SmtpSession _ _ _ => true
  | Sleep _ => false
  end.

Definition is_smtp (e : Event) : bool :=
  match e with
  | SmtpSession _ _ _ => true
  | _ => false
  end.

(** [not v] for the result of [os.getenv]. *)
Definition env_unset (v : option string) : bool :=
  match v with
  | None => true
  | Some s => negb (PyStr.truthy s)
  end.

Definition env_value (v : option string) : string :=
  match v with None => "" | Some s => s end.

Fixpoint ends_with_slash (s : string) : bool :=
  match s with
  | "" => false
  | String c "" => Ascii.eqb c "/"
  | String _ s' => ends_with_slash s'
  end.

(** [os.path.join(a, b)] for a relative [b]. *)
Definition path_join (a b : string) : string :=
  match a with
  | "" => b
  | _ => if ends_with_slash a then a ++ b else a ++ "/" ++ b
  end.

(** [os.path.basename(p)] *)
Fixpoint basename (p : string) : string :=
  match p with
  | "" => ""
  | String c p' =>
      if PyStr.mem "/" p' then basename p'
      else if Ascii.eqb c "/" then p' else p
  end.

(** [attach_files]: the names of the files that were attached. *)
Definition attach_files (w : World) (attachment_paths : list string) : list string :=
  map basename
    (filter (fun file_path => path_exists w file_path && readable w file_path)
       attachment_paths).

(** ** [send_personalized_email] *)

Definition digit_value (c : ascii) : option Z :=
  let n := nat_of_ascii c in
  if (48 <=? n)%nat && (n <=? 57)%nat then Some (Z.of_nat (n - 48)) else None.

(** The digits of a decimal literal, single underscores allowed between
    two digits; [after_digit] tells whether the last character read was a
    digit. *)
Fixpoint int_digits (acc : Z) (after_digit : bool) (s : string) : option Z :=
  match s with
  | "" => if after_digit then Some acc else None
  | String c s' =>
      match digit_value c with
      | Some d => int_digits (10 * acc + d) true s'
      | None =>
          if Ascii.eqb c "_" && after_digit then int_digits acc false s' else None
      end
  end.

(** The blanks that [int] skips around a literal: TAB..CR and the blank,
    and not FS..US, which [strip] drops as well. *)
Definition int_space (c : ascii) : bool :=
  let n := nat_of_ascii c in
  ((9 <=? n)%nat && (n <=? 13)%nat) || (n =? 32)%nat.

Fixpoint int_lstrip (s : string) : string :=
  match s with
  | "" => ""
  | String c s' => if int_space c then int_lstrip s' else s
  end.

Fixpoint int_rstrip (s : string) : string :=
  match s with
  | "" => ""
  | String c s' =>
      match int_rstrip s' with
      | "" => if int_space c then "" else String c ""
      | r => String c r
      end
  end.

(** The number of decimal digits of a text. *)
Fixpoint count_digits (s : string) : nat :=
  match s with
  | "" => 0
  | String c s' =>
      match digit_value c with
      | Some _ => S (count_digits s')
      | None => count_digits s'
      end
  end.

(** [sys.get_int_max_str_digits()], as the interpreter sets it when it
    starts. *)
Definition int_max_str_digits : nat := 4300.

(** The digits after the sign: a literal of more digits than the
    interpreter converts is refused. *)
Definition int_unsigned (digits : string) : option Z :=
  if (int_max_str_digits <? count_digits digits)%nat then None
  else int_digits 0 false digits.

(** [int(s)] for a text; [None] stands for [ValueError]. *)
Definition py_int (s : string) : option Z :=
  match int_rstrip (int_lstrip s) with
  | String "-" digits => option_map Z.opp (int_unsigned digits)
  | String "+" digits => int_unsigned digits
  | digits => int_unsigned digits
  end.

(** [os.getenv('SMTP_SERVER', 'smtp.gmail.com')] *)
Definition smtp_server (w : World) : string :=
  match SMTP_SERVER w with Some s => s | None => "smtp.gmail.com" end.

(** [int(os.getenv('SMTP_PORT', 587))]; [None] when [int] raises. *)
Definition smtp_port (w : World) : option Z :=
  match SMTP_PORT w with Some s => py_int s | None => Some 587%Z end.

(** The tuple the function returns: two components in test mode and when
    there is no recipient, three after an SMTP session. *)
Inductive SendResult : Type :=
| Result2 (success : bool) (status_message : string)
| Result3 (success : bool) (status_message : string) (timestamp : string).

Inductive SendOutcome : Type :=
| Raise (error : string)
| Return (result : SendResult).

(** The files of the attachments folder; [None] when listing the folder
    raises. *)
Definition global_attachments (w : World) (config : EmailConfig) : option (list string) :=
  if path_exists w (ATTACHMENTS_FOLDER config)
  then match listdir w (ATTACHMENTS_FOLDER config) with
       | Some names =>
           Some (filter (isfile w) (map (path_join (ATTACHMENTS_FOLDER config)) names))
       | None => None
       end
  else Some [].

Definition specific_attachments (config : EmailConfig) (row_data : Series) : list string :=
  let v := series_get row_data (col_attachments (COLUMNS config)) (Str "") in
  if cell_truthy v && negb (isna v)
  then map PyStr.strip (PyStr.split "," (str v))
  else [].

(** The subject template: the row's custom subject when it is present and
    not blank, the campaign subject otherwise. *)
Definition subject_template (config : EmailConfig) (row_data : Series) : string :=
  let custom_subject := series_get row_data (col_custom_subject (COLUMNS config)) (Str "") in
  if cell_truthy custom_subject && negb (isna custom_subject)
     && PyStr.truthy (PyStr.strip (str custom_subject))
  then str custom_subject
  else EMAIL_SUBJECT config.

(** The message built for a row whose TO list is [to_emails]; the subject
    is rendered at clock reading [clk], the body at [clk + 1]. *)
Definition build_message (w : World) (config : EmailConfig) (template : string)
    (row_data : Series) (to_emails cc_emails : list string) (clk : nat)
    (global : list string) : Message := {|
  msg_from := env_value (EMAIL_SENDER w);
  msg_to := PyStr.join ", " to_emails;
  msg_cc := match cc_emails with [] => None | _ => Some (PyStr.join ", " cc_emails) end;
  msg_subject := personalize_content (now w clk) (subject_template config row_data) row_data;
  msg_body := personalize_content (now w (clk + 1)) template row_data;
  msg_attachments :=
    (attach_files w global
       ++ attach_files w (specific_attachments config row_data))%list
|}.

(** [send_personalized_email(row_data, config, template, test_mode)],
    started at clock reading [clk]: what it returns or raises, what it does
    to the outside, and the clock reading it ends at. *)
Definition send_personalized_email (w : World) (config : EmailConfig) (template : string)
    (test_mode : bool) (row_data : Series) (clk : nat)
  : SendOutcome * list Event * nat :=
  match smtp_port w with
  | None => (Raise "invalid literal for int() with base 10", [], clk)
  | Some port =>
      if env_unset (EMAIL_SENDER w) || env_unset (EMAIL_PASSWORD w)
      then (Raise "Email credentials not found. Please set EMAIL_SENDER and EMAIL_PASSWORD in .env file",
            [], clk)
      else
        let to_emails := fst (parse_email_list (series_get row_data (col_to (COLUMNS config)) (Str ""))) in
        let cc_emails := fst (parse_email_list (series_get row_data (col_cc (COLUMNS config)) (Str ""))) in
        let bcc_emails := fst (parse_email_list (series_get row_data (col_bcc (COLUMNS config)) (Str ""))) in
        match to_emails with
        | [] => (Return (Result2 false "No valid TO email addresses"), [], clk)
        | _ =>
            match global_attachments w config with
            | None => (Raise "OSError", [], clk + 2)
            | Some global =>
                let msg :=
                  build_message w config template row_data to_emails cc_emails clk global in
                let all_recipients := (to_emails ++ cc_emails ++ bcc_emails)%list in
                if test_mode
                then (Return (Result2 true "Test mode - not sent"), [Preview msg], clk + 2)
                else
                  let sender_email := env_value (EMAIL_SENDER w) in
                  match smtp w (clk + 2) (smtp_server w) port sender_email all_recipients msg with
                  | None =>
                      let timestamp := strftime_timestamp (now w (clk + 3)) in
                      (Return (Result3 true "Sent successfully" timestamp),
                       [SmtpSession sender_email all_recipients msg], clk + 4)
                  | Some e =>
                      (Return (Result3 false ("Failed: " ++ e) ""),
                       [SmtpSession sender_email all_recipients msg], clk + 3)
                  end
            end
        end
  end.

(** ** The table *)

(** A [DataFrame] with the default integer index: its column labels in
    order, its number of rows, and the cell at a row position and column
    label. *)
Record DataFrame : Type := {
  columns : list string;
  nrows : nat;
  cells : nat -> string -> cell
}.

(** [label in df.columns] *)
Definition has_column (df : DataFrame) (label : string) : bool :=
  existsb (String.eqb label) (columns df).

(** [df.columns] after a write to column [label]. *)
Definition with_column (df : DataFrame) (label : string) : list string :=
  if has_column df label then columns df else (columns df ++ [label])%list.

(** [df[label] = v]: the whole column is set, and added when new. *)
Definition set_column (df : DataFrame) (label : string) (v : cell) : DataFrame := {|
  columns := with_column df label;
  nrows := nrows df;
  cells := fun i c => if String.eqb c label then v else cells df i c
|}.

(** [df.at[index, label] = v]; writing to a label that is not a column
    adds the column, with NaN in the other rows. *)
Definition at_set (df : DataFrame) (index : nat) (label : string) (v : cell) : DataFrame := {|
  columns := with_column df label;
  nrows := nrows df;
  cells := fun i c =>
    if String.eqb c label
    then if (i =? index)%nat then v
         else if has_column df label then cells df i c else NaN
    else cells df i c
|}.

(** The row at position [index], as [df.iterrows()] yields it. *)
Definition row_at (df : DataFrame) (index : nat) : Series :=
  map (fun c => (c, cells df index c)) (columns df).

(** [df.iterrows()]: the rows of the table as it stands when the loop
    starts. A turn of the loop writes to the row it was handed only, so
    every row is handed out as it was loaded. *)
Definition iterrows (df : DataFrame) : list (nat * Series) :=
  map (fun index => (index, row_at df index)) (seq 0 (nrows df)).

(** The table with the given header and rows of cells. *)
Definition frame (header : list string) (body : list (list cell)) : DataFrame := {|
  columns := header;
  nrows := List.length body;
  cells := fun i c => series_get (combine header (nth i body [])) c NaN
|}.

(** ** The campaign loop of [main] *)

(** The variables of [main] that the loop updates, the clock reading, and
    what has been done to the outside so far, each effect with the
    position of the row it was done for. *)
Record LoopState : Type := {
  df : DataFrame;
  successful_emails : nat;
  failed_emails : nat;
  emails_sent_this_run : nat;
  clk : nat;
  trace : list (nat * Event)
}.

(** How a turn of the loop ends: it goes on to the next row, leaves the loop
    ([break]), or raises. *)
Inductive Flow : Type :=
| Next
| Break
| Raised (error : string).

(** [success, status_message, timestamp] after the [len(result) == 3]
    test. *)
Definition unpack (result : SendResult) : bool * string * string :=
  match result with
  | Result3 success status_message timestamp => (success, status_message, timestamp)
  | Result2 success status_message => (success, status_message, "")
  end.

(** [time.sleep(seconds)]: [None] when it sleeps, [Some e] when it raises.
    A negative length is refused with a [ValueError]. *)
Definition time_sleep (w : World) (seconds : Z) : option string :=
  if (seconds <? 0)%Z then Some "sleep length must be non-negative"
  else sleep_error w seconds.

(** [emails_sent_this_run < config.MAX_EMAILS_PER_RUN and index < len(df) - 1] *)
Definition sleep_due (config : EmailConfig) (sent index : nat) (d : DataFrame) : bool :=
  (Z.of_nat sent <? MAX_EMAILS_PER_RUN config)%Z
  && (Z.of_nat index <? Z.of_nat (nrows d) - 1)%Z.

(** The delay after the row at position [index], the [sent]-th of the
    run: how the turn ends, and the sleep it adds to the effects. *)
Definition delay_step (w : World) (config : EmailConfig) (sent index : nat) (d : DataFrame)
  : Flow * list (nat * Event) :=
  if sleep_due config sent index d
  then match time_sleep w (DELAY_BETWEEN_EMAILS config) with
       | Some e => (Raised e, [])
       | None => (Next, [(index, Sleep (DELAY_BETWEEN_EMAILS config))])
       end
  else (Next, []).

(** The turn of the loop for a row that is neither skipped nor beyond the
    cap: send, update the table and the counters, sleep. The sleep comes
    last, so that a sleep that raises leaves the table and the counters
    updated. *)
Definition process_row (w : World) (config : EmailConfig) (email_template : string)
    (index : nat) (row : Series) (st : LoopState) : Flow * LoopState :=
  match send_personalized_email w config email_template (TEST_MODE config) row (clk st) with
  | (Raise e, events, clk') =>
      (Raised e,
       {| df := df st;
          successful_emails := successful_emails st;
          failed_emails := failed_emails st;
          emails_sent_this_run := emails_sent_this_run st;
          clk := clk';
          trace := (trace st ++ map (pair index) events)%list |})
  | (Return result, events, clk') =>
      let '(success, status_message, timestamp) := unpack result in
      let df1 := at_set (df st) index (col_status (COLUMNS config)) (Str status_message) in
      let df2 :=
        if PyStr.truthy timestamp
        then at_set df1 index (col_timestamp (COLUMNS config)) (Str timestamp)
        else df1 in
      let sent := S (emails_sent_this_run st) in
      let '(flow, delay) := delay_step w config sent index df2 in
      (flow,
       {| df := df2;
          successful_emails := if success then S (successful_emails st) else successful_emails st;
          failed_emails := if success then failed_emails st else S (failed_emails st);
          emails_sent_this_run := sent;
          clk := clk';
          trace := (trace st ++ map (pair index) events ++ delay)%list |})
  end.

(** The row counts as already sent: its status is present and not blank. *)
Definition already_sent (current_status : cell) : bool :=
  negb (isna current_status) && PyStr.truthy (PyStr.strip (str current_status)).

(** One turn of [for index, row in df.iterrows()]. *)
Definition loop_body (w : World) (config : EmailConfig) (email_template : string)
    (item : nat * Series) (st : LoopState) : Flow * LoopState :=
  let '(index, row) := item in
  match series_getitem row (col_status (COLUMNS config)) with
  | None => (Raised "KeyError", st)
  | Some current_status =>
      if already_sent current_status then (Next, st)
      else if (MAX_EMAILS_PER_RUN config <=? Z.of_nat (emails_sent_this_run st))%Z
           then (Break, st)
           else process_row w config email_template index row st
  end.

(** The [for] loop over the rows that [df.iterrows()] handed out. *)
Fixpoint for_rows (w : World) (config : EmailConfig) (email_template : string)
    (rows : list (nat * Series)) (st : LoopState) : Flow * LoopState :=
  match rows with
  | [] => (Next, st)
  | item :: rest =>
      match loop_body w config email_template item st with
      | (Next, st') => for_rows w config email_template rest st'
      | stopped => stopped
      end
  end.

(** ** [main], from the loaded table to the table written back *)

(** What a run leaves behind: the table written over the input file
    ([None]: the file is not rewritten) and what was done to the outside. *)
Record Outcome : Type := {
  saved : option DataFrame;
  effects : list (nat * Event)
}.

(** [config.COLUMNS.values()] *)
Definition column_values (c : Columns) : list string :=
  [col_name c; col_to c; col_cc c; col_bcc c; col_status c; col_timestamp c;
   col_attachments c; col_custom_subject c].

Definition missing_columns (config : EmailConfig) (d : DataFrame) : list string :=
  filter
    (fun col_name =>
       negb (has_column d col_name) && negb (String.eqb col_name "BCC")
       && negb (String.eqb col_name "Attachments")
       && negb (String.eqb col_name "Custom Subject"))
    (column_values (COLUMNS config)).

(** [config.COLUMNS.get(col.lower(), col)] for the four labels of the
    optional columns: only ['bcc'] and ['attachments'] are keys. *)
Definition optional_columns (config : EmailConfig) : list string :=
  [col_bcc (COLUMNS config); col_attachments (COLUMNS config);
   "Custom Subject"; "Sent Timestamp"].

Definition add_optional_column (d : DataFrame) (label : string) : DataFrame :=
  if has_column d label then d else set_column d label (Str "").

(** The rows that [main] reports as pending: status missing or equal to
    the empty text. *)
Definition pending_emails (config : EmailConfig) (d : DataFrame) : nat :=
  List.length
    (filter
       (fun i =>
          let v := cells d i (col_status (COLUMNS config)) in
          isna v || match v with Str "" => true | _ => false end)
       (seq 0 (nrows d))).

(** [input().lower().startswith('y')] *)
Definition says_yes (answer : string) : bool :=
  match answer with
  | String c _ => Ascii.eqb c "y" || Ascii.eqb c "Y"
  | "" => false
  end.

Definition initial_state (d : DataFrame) : LoopState := {|
  df := d;
  successful_emails := 0;
  failed_emails := 0;
  emails_sent_this_run := 0;
  clk := 0;
  trace := []
|}.

Definition nothing_done : Outcome := {| saved := None; effects := [] |}.

(** The table after [for col in ['BCC', 'Attachments', 'Custom Subject',
    'Sent Timestamp']] has added the optional columns it lacks. *)
Definition prepared (config : EmailConfig) (loaded : DataFrame) : DataFrame :=
  fold_left add_optional_column (optional_columns config) loaded.

(** [main] once the table [loaded] has been read from [config.EXCEL_FILE];
    [answer] is what the operator types at the confirmation prompt. *)
Definition main (w : World) (config : EmailConfig) (email_template : string)
    (loaded : DataFrame) (answer : string) : Outcome :=
  match missing_columns config loaded with
  | _ :: _ => nothing_done
  | [] =>
      let d := prepared config loaded in
      if negb (has_column d (col_status (COLUMNS config))) then nothing_done
      else if (pending_emails config d =? 0)%nat then nothing_done
      else if negb (TEST_MODE config) && negb (says_yes answer) then nothing_done
      else
        match for_rows w config email_template (iterrows d) (initial_state d) with
        | (Raised _, st) => {| saved := None; effects := trace st |}
        | (_, st) => {| saved := Some (df st); effects := trace st |}
        end
  end.

(** The effects of a run that went through the delivery channel, and
    those done for the row at position [index]. *)
Definition deliveries (t : list (nat * Event)) : list (nat * Event) :=
  filter (fun e => is_delivery (snd e)) t.

Definition deliveries_for (index : nat) (t : list (nat * Event)) : list (nat * Event) :=
  filter (fun e => (fst e =? index)%nat) (deliveries t).

(** ** The addresses the specification accepts *)

(** The address format in the words of the specification: a non-empty
    local part of characters [[A-Za-z0-9._%+-]], an [@], a domain that
    contains a dot with something before it, and after its last dot a
    top-level domain of at least two letters of either case. The
    specification does not name the characters of the domain; they are
    those of the pattern: letters, digits, dot and hyphen. *)
Definition rfc5322_light (e : string) : Prop :=
  exists loc dom tld : string,
    e = loc ++ "@" ++ dom ++ "." ++ tld
    /\ loc <> "" /\ PyStr.all local_char loc = true
    /\ dom <> "" /\ PyStr.all domain_char dom = true
    /\ (2 <= String.length tld)%nat /\ PyStr.all letter tld = true.

(** The trimmed entries of a comma-separated cell. *)
Definition entries_of (email_string : cell) : list string :=
  map PyStr.strip (PyStr.split "," (str email_string)).

(** An entry of a comma-separated cell as it is written between two
    commas: blanks, a text, blanks. *)
Record Entry : Type := {
  blanks_before : string;
  entry_text : string;
  blanks_after : string
}.

Definition entry_source (e : Entry) : string :=
  blanks_before e ++ entry_text e ++ blanks_after e.

Definition starts_blank (s : string) : bool :=
  match s with
  | String c _ => PyStr.isspace c
  | "" => false
  end.

Fixpoint ends_blank (s : string) : bool :=
  match s with
  | "" => false
  | String c s' =>
      match s' with
      | "" => PyStr.isspace c
      | _ => ends_blank s'
      end
  end.

(** The blanks of the entry are blanks, and its text, which holds no
    comma, neither starts nor ends with one: the text is the trimmed
    entry. *)
Definition entry_ok (e : Entry) : bool :=
  PyStr.all PyStr.isspace (blanks_before e)
  && PyStr.all PyStr.isspace (blanks_after e)
  && negb (PyStr.mem "," (entry_text e))
  && negb (starts_blank (entry_text e))
  && negb (ends_blank (entry_text e)).

(** The text of the cell whose entries are [entries]: the entries as they
    are written, with a comma between any two. *)
Definition cell_of_entries (entries : list Entry) : string :=
  String.concat "," (map entry_source entries).

(** [kept] holds the texts of [l] that satisfy [P], in their order, and
    no other. *)
Inductive Kept (P : string -> Prop) : list string -> list string -> Prop :=
| Kept_nil : Kept P [] []
| Kept_keep e l kept : P e -> Kept P l kept -> Kept P (e :: l) (e :: kept)
| Kept_drop e l kept : ~ P e -> Kept P l kept -> Kept P (e :: l) kept.

(** The five ways [send_personalized_email] ends, with what it then did to
    the outside. *)
Inductive SendCase : SendOutcome -> list Event -> Prop :=
| Raises e : SendCase (Raise e) []
| NoRecipient : SendCase (Return (Result2 false "No valid TO email addresses")) []
| Previewed m : SendCase (Return (Result2 true "Test mode - not sent")) [Preview m]
| Delivered s r m d :
    SendCase (Return (Result3 true "Sent successfully" (strftime_timestamp d)))
      [SmtpSession s r m]
| Failed s r m e :
    SendCase (Return (Result3 false ("Failed: " ++ e) "")) [SmtpSession s r m].

(** The validated TO list of a row. *)
Definition to_emails_of (config : EmailConfig) (row_data : Series) : list string :=
  fst (parse_email_list (series_get row_data (col_to (COLUMNS config)) (Str ""))).

(** The environment lets the send step get to the row: the port is a
    number and both credentials are set. *)
Definition environment_ok (w : World) : bool :=
  match smtp_port w with Some _ => true | None => false end
  && negb (env_unset (EMAIL_SENDER w) || env_unset (EMAIL_PASSWORD w)).

(** The attachments folder is absent, or can be listed. *)
Definition folder_ok (w : World) (config : EmailConfig) : bool :=
  match global_attachments w config with Some _ => true | None => false end.

Definition status_of (config : EmailConfig) (d : DataFrame) (index : nat) : cell :=
  cells d index (col_status (COLUMNS config)).

Definition timestamp_of (config : EmailConfig) (d : DataFrame) (index : nat) : cell :=
  cells d index (col_timestamp (COLUMNS config)).

(** The loop invariant of the cap: the deliveries never outnumber the
    processed rows, and the processed rows never outnumber the cap. *)
Definition within_cap (config : EmailConfig) (st : LoopState) : Prop :=
  List.length (deliveries (trace st)) <= emails_sent_this_run st
  /\ (Z.of_nat (emails_sent_this_run st) <= Z.max 0 (MAX_EMAILS_PER_RUN config))%Z.

(** The frame of a row [k] of the table [d] that the loop passes over: no
    delivery for it, and its existing cells as they were. *)
Definition passed_over (d : DataFrame) (k : nat) (st : LoopState) : Prop :=
  deliveries_for k (trace st) = []
  /\ forall c, has_column d c = true ->
       has_column (df st) c = true /\ cells (df st) k c = cells d k c.

(** ** Sample worlds and tables *)

Definition may_14 : datetime :=
  {| year := 2024; month := 5; day := 14; hour := 11; minute := 0; second := 7 |}.

Definition may_14_evening : datetime :=
  {| year := 2024; month := 5; day := 14; hour := 23; minute := 59; second := 59 |}.

Definition may_15 : datetime :=
  {| year := 2024; month := 5; day := 15; hour := 0; minute := 0; second := 1 |}.

(** Credentials set, no attachment on disk, every SMTP session goes
    through. *)
Definition world_ok : World := {|
  EMAIL_SENDER := Some "sender@example.com";
  EMAIL_PASSWORD := Some "app-password";
  SMTP_SERVER := None;
  SMTP_PORT := Some "587";
  now := fun _ => may_14;
  path_exists := fun _ => false;
  listdir := fun _ => None;
  isfile := fun _ => false;
  readable := fun _ => false;
  smtp := fun _ _ _ _ _ _ => None;
  sleep_error := fun _ => None
|}.

Definition sample_header : list string :=
  ["First Name"; "To"; "CC"; "Email Status"; "Sent Timestamp"].

(** Two rows still to send, one sent in an earlier run. *)
Definition sample_table : DataFrame :=
  frame sample_header
    [ [Str "Ann"; Str "ann@example.com"; NaN; NaN; NaN];
      [Str "Bob"; Str "bob@example.com,bad-email"; Str ""; Str ""; Str ""];
      [Str "Cy"; Str "cy@example.org"; NaN; Str "Sent successfully";
       Str "2024-01-01 09:30:00"] ].

(** Two rows still to send, the first without any address. *)
Definition no_recipient_table : DataFrame :=
  frame sample_header
    [ [Str "Ann"; Str ""; NaN; NaN; NaN];
      [Str "Bob"; Str "bob@example.com"; NaN; NaN; NaN] ].

Definition cap_of_one : EmailConfig := {|
  EXCEL_FILE := EXCEL_FILE default_config;
  EMAIL_SUBJECT := EMAIL_SUBJECT default_config;
  TEMPLATE_FILE := TEMPLATE_FILE default_config;
  ATTACHMENTS_FOLDER := ATTACHMENTS_FOLDER default_config;
  DELAY_BETWEEN_EMAILS := DELAY_BETWEEN_EMAILS default_config;
  MAX_EMAILS_PER_RUN := 1;
  TEST_MODE := false;
  TEST_EMAIL := TEST_EMAIL default_config;
  COLUMNS := default_columns
|}.

Definition dry_run : EmailConfig := {|
  EXCEL_FILE := EXCEL_FILE default_config;
  EMAIL_SUBJECT := EMAIL_SUBJECT default_config;
  TEMPLATE_FILE := TEMPLATE_FILE default_config;
  ATTACHMENTS_FOLDER := ATTACHMENTS_FOLDER default_config;
  DELAY_BETWEEN_EMAILS := DELAY_BETWEEN_EMAILS default_config;
  MAX_EMAILS_PER_RUN := MAX_EMAILS_PER_RUN default_config;
  TEST_MODE := true;
  TEST_EMAIL := TEST_EMAIL default_config;
  COLUMNS := default_columns
|}.

Definition negative_delay : EmailConfig := {|
  EXCEL_FILE := EXCEL_FILE default_config;
  EMAIL_SUBJECT := EMAIL_SUBJECT default_config;
  TEMPLATE_FILE := TEMPLATE_FILE default_config;
  ATTACHMENTS_FOLDER := ATTACHMENTS_FOLDER default_config;
  DELAY_BETWEEN_EMAILS := -1;
  MAX_EMAILS_PER_RUN := MAX_EMAILS_PER_RUN default_config;
  TEST_MODE := false;
  TEST_EMAIL := TEST_EMAIL default_config;
  COLUMNS := default_columns
|}.

Definition sample_template : string := "<p>Dear {{NAME}},</p><p>Sent to {{TO}} on {{DATE}}</p>".


(** A row whose name, company and address cells are empty in the
    spreadsheet. *)
Definition absent_row : Series :=
  [("First Name", NaN); ("Company", NaN); ("To", NaN)].

(** A row with two addresses in its TO cell. *)
Definition two_recipients_row : Series :=
  [("First Name", Str "Jane"); ("To", Str "jane@example.com,jane2@example.com")].

(** ** Further views of a run *)

(** The SMTP sessions among the effects of a run, and the sleeps. *)
Definition smtp_sessions (t : list (nat * Event)) : list (nat * Event) :=
  filter (fun e => is_smtp (snd e)) t.

Definition is_sleep (e : Event) : bool :=
  match e with
  | Sleep _ => true
  | _ => false
  end.

Definition sleeps (t : list (nat * Event)) : list (nat * Event) :=
  filter (fun e => is_sleep (snd e)) t.

(** The row at position [index] of the table [d] is still to send, as the
    loop sees it. *)
Definition to_send (config : EmailConfig) (d : DataFrame) (index : nat) : bool :=
  negb (already_sent (status_of config d index)).

(** The number of rows before position [k] that are still to send. *)
Definition pending_before (config : EmailConfig) (d : DataFrame) (k : nat) : nat :=
  List.length (filter (to_send config d) (seq 0 k)).

(** The loop invariant of the sleeps: each after a row that is not the
    last of the table [d], for the configured delay, never more than the
    processed rows and, when there is one, fewer than the cap. *)
Definition sleeps_in_order (config : EmailConfig) (d : DataFrame) (st : LoopState) : Prop :=
  nrows (df st) = nrows d
  /\ (forall i e, In (i, e) (sleeps (trace st)) ->
        e = Sleep (DELAY_BETWEEN_EMAILS config) /\ i + 1 < nrows d)
  /\ List.length (sleeps (trace st)) <= emails_sent_this_run st
  /\ (sleeps (trace st) = []
      \/ (Z.of_nat (List.length (sleeps (trace st))) < MAX_EMAILS_PER_RUN config)%Z).

(** The table that the sample run writes back. *)
Definition sample_written : DataFrame :=
  match saved (main world_ok default_config sample_template sample_table "yes") with
  | Some written => written
  | None => sample_table
  end.

(** The password is not set. *)
Definition world_without_password : World := {|
  EMAIL_SENDER := Some "sender@example.com";
  EMAIL_PASSWORD := None;
  SMTP_SERVER := None;
  SMTP_PORT := None;
  now := fun _ => may_14;
  path_exists := fun _ => false;
  listdir := fun _ => None;
  isfile := fun _ => false;
  readable := fun _ => false;
  smtp := fun _ _ _ _ _ _ => None;
  sleep_error := fun _ => None
|}.

(** A table without the status column. *)
Definition table_without_status : DataFrame :=
  frame ["First Name"; "To"; "CC"; "Sent Timestamp"]
    [ [Str "Ann"; Str "ann@example.com"; NaN; NaN] ].

(** ** Further views of the address parser and the template engine *)

(** The characters of the address pattern: letters, digits and
    [. _ % + - @]. *)
Definition address_char (c : ascii) : bool :=
  local_char c || domain_char c || Ascii.eqb c "@".

(** The value of the first column of a row whose placeholder is [p]. *)
Fixpoint first_column (p : string) (row_data : Series) : option cell :=
  match row_data with
  | [] => None
  | (key, value) :: rest =>
      if String.eqb (placeholder_of key) p then Some value else first_column p rest
  end.

(** [str(value) if not pd.isna(value) else ''] *)
Definition render_value (value : cell) : string :=
  if negb (isna value) then str value else "".

(** A lower-case ASCII letter. *)
Definition lower_letter (c : ascii) : bool := Re.in_range "a" "z" c.

(** A row with a column named like a built-in placeholder and two columns
    that share a placeholder. *)
Definition crowded_row : Series :=
  [("First Name", Str "Jane"); ("Name", Str "Doe"); ("Order Id", NaN);
   ("order_id", Str "A-17"); ("To", Str "jane@example.com")].

(** ** Further views of the messages *)

(** The text holds no line break. *)
Definition one_line (s : string) : bool :=
  negb (PyStr.mem "010" s) && negb (PyStr.mem "013" s).

(** The To and Cc headers of the message of a delivery hold no line
    break. *)
Definition headers_on_one_line (e : Event) : bool :=
  match e with
  | Preview m | SmtpSession _ _ m =>
      one_line (msg_to m)
      && match msg_cc m with Some cc => one_line cc | None => true end
  | Sleep _ => true
  end.

(** The envelope of an SMTP session names at least one recipient, and
    only addresses made of the characters of the address pattern. *)
Definition envelope_is_valid (e : Event) : bool :=
  match e with
  | SmtpSession _ recipients _ =>
      match recipients with [] => false | _ :: _ => true end
      && forallb (PyStr.all address_char) recipients
  | _ => true
  end.

(** ** The files of the working directory *)

(** What a path of the working directory names: a file with the text it
    holds, a directory, or a file that cannot be read as text (it does not
    hold UTF-8, or may not be opened). *)
Inductive Node : Type :=
| File (content : string)
| Dir
| Unreadable.

(** The working directory: what each path names, [None] when nothing.
    Paths are plain names, their components separated by single slashes,
    one path for each file; line ends are written as they are, as on Linux
    and macOS. *)
Definition FileSystem : Type := string -> option Node.

(** [os.path.exists(path)] *)
Definition exists_on (fs : FileSystem) (path : string) : bool :=
  match fs path with Some _ => true | None => false end.

(** [open(path, 'w')] followed by [write(content)]. *)
Definition write_file (fs : FileSystem) (path content : string) : FileSystem :=
  fun p => if String.eqb p path then Some (File content) else fs p.

(** [os.makedirs(path)] for a path of one component. *)
Definition makedirs (fs : FileSystem) (path : string) : FileSystem :=
  fun p => if String.eqb p path then Some Dir else fs p.

Definition double_quote : string := String "034" "".

Definition newline : string := String "010" "".

(** The text of [default_template] in [read_email_template], line by
    line. *)
Definition default_template : string :=
  String.concat newline
    ["<!DOCTYPE html>";
     "<html>";
     "<head>";
     ("    <meta charset=" ++ double_quote ++ "UTF-8" ++ double_quote ++ ">");
     "    <style>";
     "        body {";
     "            font-family: Arial, sans-serif;";
     "            line-height: 1.6;";
     "            color: #333;";
     "        }";
     "        .container {";
     "            max-width: 600px;";
     "            margin: 0 auto;";
     "            padding: 20px;";
     "        }";
     "        .header {";
     "            background-color: #f8f9fa;";
     "            padding: 20px;";
     "            text-align: center;";
     "            border-radius: 5px;";
     "        }";
     "        .content {";
     "            padding: 20px 0;";
     "        }";
     "        .footer {";
     "            margin-top: 30px;";
     "            padding-top: 20px;";
     "            border-top: 1px solid #eee;";
     "            font-size: 14px;";
     "            color: #666;";
     "        }";
     "        .button {";
     "            display: inline-block;";
     "            padding: 10px 20px;";
     "            background-color: #007bff;";
     "            color: white;";
     "            text-decoration: none;";
     "            border-radius: 5px;";
     "            margin: 10px 0;";
     "        }";
     "    </style>";
     "</head>";
     "<body>";
     ("    <div class=" ++ double_quote ++ "container" ++ double_quote ++ ">");
     ("        <div class=" ++ double_quote ++ "header" ++ double_quote ++ ">");
     "            <h2>Welcome {{NAME}}!</h2>";
     "        </div>";
     "        ";
     ("        <div class=" ++ double_quote ++ "content" ++ double_quote ++ ">");
     "            <p>Dear {{NAME}},</p>";
     "            ";
     "            <p>This is your email template. You can edit this HTML file to change the email content.</p>";
     "            ";
     "            <p><strong>Available placeholders you can use:</strong></p>";
     "            <ul>";
     "                <li><code>{{NAME}}</code> - Recipient's first name</li>";
     "                <li><code>{{DATE}}</code> - Current date</li>";
     "                <li><code>{{TO}}</code> - Recipient's email</li>";
     "                <li><code>{{COMPANY}}</code> - Company name (if column exists)</li>";
     "                <li><code>{{ANY_COLUMN_NAME}}</code> - Any column from your Excel file (in UPPERCASE)</li>";
     "            </ul>";
     "            ";
     "            <p>You can add images, links, buttons, and any HTML content:</p>";
     "            ";
     ("            <a href=" ++ double_quote ++ "https://example.com" ++ double_quote ++ " class=" ++ double_quote ++ "button" ++ double_quote ++ ">Click Here</a>");
     "            ";
     "            <p>Edit this file with any text editor or HTML editor!</p>";
     "        </div>";
     "        ";
     ("        <div class=" ++ double_quote ++ "footer" ++ double_quote ++ ">");
     "            <p>Best regards,<br>";
     "            Your Name</p>";
     "            ";
     "            <p><small>This email was sent to {{TO}} on {{DATE}}</small></p>";
     "        </div>";
     "    </div>";
     "</body>";
     "</html>"].

(** The folder of a path: the text before its last slash, empty for a
    path without one. *)
Fixpoint folder_of (path : string) : string :=
  match path with
  | "" => ""
  | String c path' => if PyStr.mem "/" path' then String c (folder_of path') else ""
  end.

(** [open(path, 'w')] can create the file: the path names a file, and
    its folder is the working directory itself, the root, or a directory
    that exists. *)
Definition can_create (fs : FileSystem) (path : string) : bool :=
  PyStr.truthy (basename path)
  && match folder_of path with
     | "" => true
     | folder => match fs folder with Some Dir => true | _ => false end
     end.

(** What reading in text mode makes of the text of a file: each line end,
    be it CR LF or a lone CR, becomes LF. *)
Fixpoint universal_newlines (s : string) : string :=
  match s with
  | "" => ""
  | String c s' =>
      if Ascii.eqb c "013"
      then match s' with
           | String "010" _ => universal_newlines s'
           | _ => String "010" (universal_newlines s')
           end
      else String c (universal_newlines s')
  end.

(** [read_email_template(template_path)]: the template, and the working
    directory it leaves; [None] when [open] raises: the path names a
    directory or a file that cannot be read as text, or names nothing and
    the file cannot be created. *)
Definition read_email_template (template_path : string) (fs : FileSystem)
  : option string * FileSystem :=
  match fs template_path with
  | Some (File content) => (Some (universal_newlines content), fs)
  | Some _ => (None, fs)
  | None =>
      if can_create fs template_path
      then (Some default_template, write_file fs template_path default_template)
      else (None, fs)
  end.

(** The text written to [.env], line by line. *)
Definition sample_env : string :=
  String.concat newline
    ["# Email Configuration";
     "EMAIL_SENDER=your_email@gmail.com";
     "EMAIL_PASSWORD=your_app_password";
     "SMTP_SERVER=smtp.gmail.com";
     "SMTP_PORT=587";
     "";
     "# For Gmail, use App Password instead of regular password";
     "# Go to: https://myaccount.google.com/apppasswords";
     ""].

(** [json.dump(sample_config, f, indent=4)], line by line. *)
Definition sample_config_json : string :=
  String.concat newline
    ["{";
     ("    " ++ double_quote ++ "EXCEL_FILE" ++ double_quote ++ ": " ++ double_quote ++ "aarushi_main.xlsx" ++ double_quote ++ ",");
     ("    " ++ double_quote ++ "EMAIL_SUBJECT" ++ double_quote ++ ": " ++ double_quote ++ "Your Email Subject Here - Can use {{NAME}} placeholders" ++ double_quote ++ ",");
     ("    " ++ double_quote ++ "TEMPLATE_FILE" ++ double_quote ++ ": " ++ double_quote ++ "email_template.html" ++ double_quote ++ ",");
     ("    " ++ double_quote ++ "ATTACHMENTS_FOLDER" ++ double_quote ++ ": " ++ double_quote ++ "attachments" ++ double_quote ++ ",");
     ("    " ++ double_quote ++ "DELAY_BETWEEN_EMAILS" ++ double_quote ++ ": 2,");
     ("    " ++ double_quote ++ "MAX_EMAILS_PER_RUN" ++ double_quote ++ ": 100,");
     ("    " ++ double_quote ++ "TEST_MODE" ++ double_quote ++ ": true,");
     ("    " ++ double_quote ++ "_comment" ++ double_quote ++ ": " ++ double_quote ++ "Set TEST_MODE to false when ready to send real emails" ++ double_quote ++ "");
     "}"].

Definition sample_readme : string :=
  "Place any files here that you want to attach to ALL emails." ++ newline
  ++ "For specific attachments per recipient, use the 'Attachments' column in Excel."
  ++ newline.

(** [create_sample_files()]: each of the three steps leaves alone what
    already exists. *)
Definition create_sample_files (fs : FileSystem) : FileSystem :=
  let fs1 := if negb (exists_on fs ".env") then write_file fs ".env" sample_env else fs in
  let fs2 :=
    if negb (exists_on fs1 "email_config.json")
    then write_file fs1 "email_config.json" sample_config_json
    else fs1 in
  if negb (exists_on fs2 "attachments")
  then write_file (makedirs fs2 "attachments") "attachments/README.txt" sample_readme
  else fs2.

(** A working directory that holds a template and nothing else. *)
Definition directory_with_template : FileSystem :=
  fun p => if String.eqb p "email_template.html" then Some (File "<p>Hi {{NAME}}</p>") else None.

(** ** The earlier script, [email_sender.py] *)

Module Legacy.

(** [email_subject] and [file_path] in [main]. *)
Definition email_subject : string :=
"Invitation: Q2 Vertex AI Search for Media Product Roadmap Quarterly".

Definition file_path : string := "aarushi_main.xlsx".

(** [cc_email and not pd.isna(cc_email) and cc_email.strip()] *)
Definition cc_given (cc_email : cell) : bool :=
cell_truthy cc_email && negb (isna cc_email) && PyStr.truthy (PyStr.strip (str cc_email)).

(** The message built for a recipient whose name is the text [name]. *)
Definition build_message (w : World) (recipient_email cc_email : cell) (name : string)
  (subject template : string) : Message := {|
msg_from := env_value (EMAIL_SENDER w);
msg_to := str recipient_email;
msg_cc := if cc_given cc_email then Some (str cc_email) else None;
msg_subject := subject;
msg_body := PyStr.replace "{{NAME}}" name template;
msg_attachments := []
|}.

(** [send_personalized_email(recipient_email, cc_email, recipient_name,
  subject, template)], started at clock reading [clk]. A name that is
  not text makes [template.replace] raise. *)
Definition send_personalized_email (w : World)
  (recipient_email cc_email recipient_name : cell) (subject template : string) (clk : nat)
: SendOutcome * list Event * nat :=
match smtp_port w with
| None => (Raise "invalid literal for int() with base 10", [], clk)
| Some port =>
    if env_unset (EMAIL_PASSWORD w)
    then (Raise "Email password not found. Please set EMAIL_PASSWORD in .env file", [], clk)
    else
      match recipient_name with
      | NaN => (Raise "replace() argument 2 must be str, not float", [], clk)
      | Str name =>
          let msg := build_message w recipient_email cc_email name subject template in
          let recipients :=
            str recipient_email :: (if cc_given cc_email then [str cc_email] else []) in
          let sender_email := env_value (EMAIL_SENDER w) in
          match smtp w clk (smtp_server w) port sender_email recipients msg with
          | None =>
              let timestamp := strftime_timestamp (now w (clk + 1)) in
              (Return (Result2 true ("Sent on " ++ timestamp)),
               [SmtpSession sender_email recipients msg], clk + 2)
          | Some e =>
              (Return (Result2 false ("Failed: " ++ e)),
               [SmtpSession sender_email recipients msg], clk + 1)
          end
      end
end.

(** The variables of [main] that the loop updates, the clock reading and
  the effects so far. *)
Record State : Type := {
df : DataFrame;
successful_emails : nat;
clk : nat;
trace : list (nat * Event)
}.

(** The row has no recipient: the cell is missing or blank. *)
Definition no_recipient (recipient_email : cell) : bool :=
isna recipient_email || negb (PyStr.truthy (PyStr.strip (str recipient_email))).

(** One turn of [for index, row in df.iterrows()]. The sleep at its end
  is one of two seconds, which [time.sleep] never refuses. *)
Definition loop_body (w : World) (email_template : string)
  (item : nat * Series) (st : State) : Flow * State :=
let '(index, row) := item in
match series_getitem row "First Name", series_getitem row "Recipient",
      series_getitem row "CC", series_getitem row "Email Sent status" with
| Some name, Some recipient_email, Some cc_email, Some current_status =>
    if no_recipient recipient_email then (Next, st)
    else if already_sent current_status then (Next, st)
    else
      match send_personalized_email w recipient_email cc_email name email_subject
              email_template (clk st) with
      | (Raise e, events, clk') =>
          (Raised e,
           {| df := df st;
              successful_emails := successful_emails st;
              clk := clk';
              trace := (trace st ++ map (pair index) events)%list |})
      | (Return result, events, clk') =>
          let '(success, status_message, _) := unpack result in
          (Next,
           {| df := at_set (df st) index "Email Sent status" (Str status_message);
              successful_emails :=
                if success then S (successful_emails st) else successful_emails st;
              clk := clk';
              trace := (trace st ++ map (pair index) events ++ [(index, Sleep 2)])%list |})
      end
| _, _, _, _ => (Raised "KeyError", st)
end.

Fixpoint for_rows (w : World) (email_template : string)
  (rows : list (nat * Series)) (st : State) : Flow * State :=
match rows with
| [] => (Next, st)
| item :: rest =>
    match loop_body w email_template item st with
    | (Next, st') => for_rows w email_template rest st'
    | stopped => stopped
    end
end.

Definition required_columns : list string :=
["First Name"; "Recipient"; "CC"; "Email Sent status"].

Definition initial_state (d : DataFrame) : State :=
{| df := d; successful_emails := 0; clk := 0; trace := [] |}.

(** [main] once the table [loaded] has been read from [file_path]; the
  HTML template that [main] holds is the argument [email_template]. *)
Definition main (w : World) (email_template : string) (loaded : DataFrame) : Outcome :=
match filter (fun col => negb (has_column loaded col)) required_columns with
| _ :: _ => nothing_done
| [] =>
    match for_rows w email_template (iterrows loaded) (initial_state loaded) with
    | (Raised _, st) => {| saved := None; effects := trace st |}
    | (_, st) => {| saved := Some (df st); effects := trace st |}
    end
end.

(** The row at position [k] is one the loop sends to: it has a recipient
  and no status yet. *)
Definition due (d : DataFrame) (k : nat) : bool :=
negb (no_recipient (cells d k "Recipient"))
&& negb (already_sent (cells d k "Email Sent status")).

(** The table has the four columns that [main] requires. *)
Definition well_formed (d : DataFrame) : bool :=
forallb (has_column d) required_columns.

(** What the loop over the rows from position [a] on has done, for a table
  [d]: the effects it added are for rows that were due, one SMTP session
  and one sleep for each; the rows that were not due are as they were;
  and if it ended without raising, every due row has a status and none
  of them has a missing name. *)
Definition loop_done (d : DataFrame) (a n : nat) (st : State) (flow : Flow) (st' : State)
: Prop :=
has_column (df st') "Email Sent status" = true
/\ (exists new,
      trace st' = (trace st ++ new)%list
      /\ Forall (fun x => a <= fst x < a + n /\ due d (fst x) = true) new
      /\ List.length (smtp_sessions new) <= List.length (filter (due d) (seq a n))
      /\ (flow = Next ->
          List.length (smtp_sessions new) = List.length (filter (due d) (seq a n))
          /\ List.length (sleeps new) = List.length (filter (due d) (seq a n))))
/\ (forall k c, due d k = false \/ k < a \/ a + n <= k ->
      cells (df st') k c = cells (df st) k c)
/\ (forall k c, c <> "Email Sent status" -> cells (df st') k c = cells (df st) k c)
/\ (flow = Next ->
    forall k, a <= k < a + n -> due d k = true ->
      already_sent (cells (df st') k "Email Sent status") = true
      /\ isna (cells d k "First Name") = false)
/\ flow <> Break.

(** The effects of a run that opened the SMTP sessions [sessions], each
  with the position of its row: every session is followed by the sleep
  of two seconds for the same row. *)
Definition with_sleeps (sessions : list (nat * Event)) : list (nat * Event) :=
flat_map (fun x => [x; (fst x, Sleep 2)]) sessions.

(** A table for the earlier script, and one whose second row has no
  name. *)
Definition sample_table : DataFrame :=
frame required_columns
  [ [Str "Ann"; Str "ann@example.com"; NaN; NaN];
    [Str "Bob"; NaN; NaN; NaN];
    [Str "Cy"; Str "cy@example.org"; Str "boss@example.org"; Str "Sent on 2024-01-01 09:30:00"];
    [Str "Dee"; Str "dee@example.org"; Str " "; Str ""] ].

Definition nameless_table : DataFrame :=
frame required_columns
  [ [Str "Ann"; Str "ann@example.com"; NaN; NaN];
    [NaN; Str "bob@example.com"; NaN; NaN] ].

Definition sample_written : DataFrame :=
match saved (main world_ok "<p>Dear {{NAME}},</p>" sample_table) with
| Some written => written
| None => sample_table
end.

End Legacy.

(** * Properties *)

(** ** Text *)

Section StringFacts.

Lemma append_nil_r (s : string) : s ++ "" = s.
Proof. induction s as [|c s IH]; simpl; [reflexivity | now rewrite IH]. Qed.

Lemma append_eq_nil (a b : string) : a ++ b = "" -> a = "" /\ b = "".
Proof. destruct a; simpl; [auto | discriminate]. Qed.

Lemma all_append (p : ascii -> bool) (a b : string) :
  PyStr.all p (a ++ b) = PyStr.all p a && PyStr.all p b.
Proof.
  induction a as [|x a IH]; simpl; [reflexivity|].
  now rewrite IH, andb_assoc.
Qed.

End StringFacts.

(** ** Regular expressions: the matcher decides the language *)

Module ReFacts.
Import Re.

Lemma Lang_nil_nullable r s : Lang r s -> s = "" -> nullable r = true.
Proof.
  induction 1; intros E; simpl; try reflexivity; try discriminate.
  - apply append_eq_nil in E as [E1 E2]. now rewrite IHLang1, IHLang2.
  - now rewrite IHLang.
  - rewrite IHLang by assumption. apply orb_true_r.
Qed.

Lemma nullable_Lang r : nullable r = true -> Lang r "".
Proof.
  induction r; simpl; intros E; try discriminate.
  - constructor.
  - apply andb_true_iff in E as [E1 E2].
    change "" with ("" ++ ""). constructor; auto.
  - apply orb_true_iff in E as [E|E]; [apply LAltL | apply LAltR]; auto.
  - constructor.
Qed.

Lemma Lang_Void s : ~ Lang Void s.
Proof. intros H; inversion H. Qed.

Lemma Lang_Eps s : Lang Eps s <-> s = "".
Proof. split; [intros H; now inversion H | intros ->; constructor]. Qed.

Lemma Lang_Cls p s : Lang (Cls p) s <-> exists c, s = String c "" /\ p c = true.
Proof.
  split.
  - intros H; inversion H; subst; eauto.
  - intros (c & -> & H). now constructor.
Qed.

Lemma Lang_Cat r1 r2 s :
  Lang (Cat r1 r2) s <-> exists s1 s2, s = s1 ++ s2 /\ Lang r1 s1 /\ Lang r2 s2.
Proof.
  split.
  - intros H; inversion H; subst; eauto.
  - intros (s1 & s2 & -> & H1 & H2). now constructor.
Qed.

Lemma Lang_Alt r1 r2 s : Lang (Alt r1 r2) s <-> Lang r1 s \/ Lang r2 s.
Proof.
  split.
  - intros H; inversion H; subst; auto.
  - intros [H|H]; [apply LAltL | apply LAltR]; exact H.
Qed.

Lemma deriv_sound c r : forall s, Lang (deriv c r) s -> Lang r (String c s).
Proof.
  induction r as [| |p|r1 IH1 r2 IH2|r1 IH1 r2 IH2|r IH]; simpl; intros s H.
  - now apply Lang_Void in H.
  - now apply Lang_Void in H.
  - destruct (p c) eqn:E; [|now apply Lang_Void in H].
    apply Lang_Eps in H. subst. now constructor.
  - assert (K : forall t, Lang (Cat (deriv c r1) r2) t -> Lang (Cat r1 r2) (String c t)).
    { intros t Ht. apply Lang_Cat in Ht as (s1 & s2 & -> & H1 & H2).
      change (String c (s1 ++ s2)) with (String c s1 ++ s2).
      constructor; auto. }
    destruct (nullable r1) eqn:N; [|now apply K].
    apply Lang_Alt in H as [H|H]; [now apply K|].
    change (String c s) with ("" ++ String c s).
    constructor; auto using nullable_Lang.
  - apply Lang_Alt in H as [H|H]; [apply LAltL | apply LAltR]; auto.
  - apply Lang_Cat in H as (s1 & s2 & -> & H1 & H2).
    change (String c (s1 ++ s2)) with (String c s1 ++ s2).
    constructor; auto.
Qed.

Lemma deriv_complete c r s0 :
  Lang r s0 -> forall s, s0 = String c s -> Lang (deriv c r) s.
Proof.
  induction 1; intros t E; simpl.
  - discriminate.
  - inversion E; subst. rewrite H. constructor.
  - destruct s1 as [|x s1]; simpl in E.
    + rewrite (Lang_nil_nullable _ _ H eq_refl).
      apply LAltR. auto.
    + inversion E; subst.
      assert (L : Lang (Cat (deriv c r1) r2) (s1 ++ s2))
        by (constructor; auto).
      destruct (nullable r1); [apply LAltL|]; exact L.
  - apply LAltL; auto.
  - apply LAltR; auto.
  - discriminate.
  - destruct s1 as [|x s1]; simpl in E.
    + apply IHLang2 in E. exact E.
    + inversion E; subst. constructor; auto.
Qed.

Lemma fullmatch_Lang r s : fullmatch r s = true <-> Lang r s.
Proof.
  revert r. induction s as [|c s IH]; intros r; simpl.
  - split; [apply nullable_Lang | intros H; eapply Lang_nil_nullable; eauto].
  - rewrite IH. split; [apply deriv_sound|].
    intros H. eapply deriv_complete; eauto.
Qed.

Lemma Lang_Chr c s : Lang (Chr c) s <-> s = String c "".
Proof.
  unfold Chr. rewrite Lang_Cls. split.
  - intros (x & -> & E). apply Ascii.eqb_eq in E. now subst.
  - intros ->. exists c. split; [reflexivity | apply Ascii.eqb_refl].
Qed.

Lemma Lang_Star_Cls_all p r s : Lang r s -> r = Star (Cls p) -> PyStr.all p s = true.
Proof.
  induction 1; intros E; try discriminate; [reflexivity|].
  inversion E; subst.
  rewrite all_append, IHLang2 by reflexivity.
  apply Lang_Cls in H as (c & -> & Hc). simpl. now rewrite Hc.
Qed.

Lemma Lang_Star_Cls p s : Lang (Star (Cls p)) s <-> PyStr.all p s = true.
Proof.
  split; [intros H; eapply Lang_Star_Cls_all; eauto|].
  induction s as [|c s IH]; simpl; intros H; [constructor|].
  apply andb_true_iff in H as [Hc Hs].
  change (String c s) with (String c "" ++ s).
  constructor; [now constructor | auto].
Qed.

Lemma Lang_Plus_Cls p s :
  Lang (Plus (Cls p)) s <-> s <> "" /\ PyStr.all p s = true.
Proof.
  unfold Plus. rewrite Lang_Cat. split.
  - intros (s1 & s2 & -> & H1 & H2).
    apply Lang_Cls in H1 as (c & -> & Hc). apply Lang_Star_Cls in H2.
    simpl. rewrite Hc, H2. split; [discriminate | reflexivity].
  - intros [Hne H]. destruct s as [|c s]; [congruence|].
    simpl in H. apply andb_true_iff in H as [Hc Hs].
    exists (String c ""), s. repeat split.
    + apply Lang_Cls; eauto.
    + now apply Lang_Star_Cls.
Qed.

Lemma Lang_AtLeast2_Cls p s :
  Lang (AtLeast2 (Cls p)) s <-> (2 <= String.length s)%nat /\ PyStr.all p s = true.
Proof.
  unfold AtLeast2. rewrite Lang_Cat. split.
  - intros (s1 & s2 & -> & H1 & H2).
    apply Lang_Cls in H1 as (c & -> & Hc).
    apply Lang_Cat in H2 as (s3 & s4 & -> & H3 & H4).
    apply Lang_Cls in H3 as (d & -> & Hd). apply Lang_Star_Cls in H4.
    simpl. rewrite Hc, Hd, H4. split; [lia | reflexivity].
  - intros [Hlen H]. destruct s as [|c [|d s]]; simpl in Hlen; try lia.
    simpl in H. apply andb_true_iff in H as [Hc H].
    apply andb_true_iff in H as [Hd Hs].
    exists (String c ""), (String d s). repeat split.
    + apply Lang_Cls; eauto.
    + apply Lang_Cat. exists (String d ""), s. repeat split.
      * apply Lang_Cls; eauto.
      * now apply Lang_Star_Cls.
Qed.

End ReFacts.

(** ** Trimming *)

Section StripFacts.
Import PyStr.

Lemma rstrip_keeps_head c s :
  isspace c = false -> rstrip (String c s) = String c (rstrip s).
Proof. intros H. simpl. rewrite H. now destruct (rstrip s). Qed.

Lemma rstrip_idem s : rstrip (rstrip s) = rstrip s.
Proof.
  induction s as [|c s IH]; simpl; [reflexivity|].
  destruct (rstrip s) as [|b t] eqn:E.
  - destruct (isspace c) eqn:Hc; simpl; [reflexivity | now rewrite Hc].
  - remember (String b t) as r. simpl. rewrite IH. now subst r.
Qed.

Lemma rstrip_last s : forall r c, rstrip s = r ++ String c "" -> isspace c = false.
Proof.
  induction s as [|a s IH]; simpl; intros r c E.
  - destruct r; discriminate.
  - destruct (rstrip s) as [|b t] eqn:Es.
    + destruct (isspace a) eqn:Ha; [destruct r; discriminate|].
      destruct r as [|x [|y r]]; simpl in E; inversion E; now subst.
    + destruct r as [|x r]; simpl in E; [discriminate|].
      inversion E; subst. eapply IH; eauto.
Qed.

Lemma lstrip_head s :
  lstrip s = "" \/ exists c t, lstrip s = String c t /\ isspace c = false.
Proof.
  induction s as [|c s IH]; simpl; [now left|].
  destruct (isspace c) eqn:Hc; [exact IH | right; eauto].
Qed.

Lemma lstrip_nil_all s : lstrip s = "" -> all isspace s = true.
Proof.
  induction s as [|c s IH]; simpl; [reflexivity|].
  destruct (isspace c); [auto | discriminate].
Qed.

Lemma strip_idem s : strip (strip s) = strip s.
Proof.
  unfold strip. destruct (lstrip_head s) as [E | (c & t & E & Hc)]; rewrite E.
  - reflexivity.
  - rewrite (rstrip_keeps_head _ _ Hc). simpl lstrip. rewrite Hc.
    rewrite <- (rstrip_keeps_head _ _ Hc). apply rstrip_idem.
Qed.

Lemma strip_nil_all s : strip s = "" -> all isspace s = true.
Proof.
  unfold strip. intros E. apply lstrip_nil_all.
  destruct (lstrip_head s) as [E' | (c & t & E' & Hc)]; [exact E'|].
  rewrite E', (rstrip_keeps_head _ _ Hc) in E. discriminate.
Qed.

Lemma strip_last s r c : strip s = r ++ String c "" -> isspace c = false.
Proof. unfold strip. apply rstrip_last. Qed.

Lemma split_blank s : all isspace s = true -> split "," s = [s].
Proof.
  induction s as [|c s IH]; simpl; [reflexivity|]. intros H.
  apply andb_true_iff in H as [Hc Hs].
  destruct (Ascii.eqb c ",") eqn:E.
  - apply Ascii.eqb_eq in E. subst. discriminate.
  - now rewrite (IH Hs).
Qed.

Lemma In_entries_stripped v e : In e (entries_of v) -> strip e = e.
Proof.
  unfold entries_of. intros H. apply in_map_iff in H as (x & <- & _).
  apply strip_idem.
Qed.

End StripFacts.

(** ** The address pattern *)

Section PatternFacts.
Import Re ReFacts.

Lemma Lang_email_body e : Lang email_body e <-> rfc5322_light e.
Proof.
  unfold email_body, rfc5322_light. split.
  - intros H.
    apply Lang_Cat in H as (loc & r1 & -> & Hloc & H).
    apply Lang_Cat in H as (at_ & r2 & -> & Hat & H).
    apply Lang_Cat in H as (dom & r3 & -> & Hdom & H).
    apply Lang_Cat in H as (dot & tld & -> & Hdot & Htld).
    apply Lang_Chr in Hat. apply Lang_Chr in Hdot. subst.
    apply Lang_Plus_Cls in Hloc as [? ?]. apply Lang_Plus_Cls in Hdom as [? ?].
    apply Lang_AtLeast2_Cls in Htld as [? ?].
    exists loc, dom, tld. repeat split; assumption.
  - intros (loc & dom & tld & -> & ? & ? & ? & ? & ? & ?).
    apply Lang_Cat. exists loc, ("@" ++ dom ++ "." ++ tld). repeat split.
    { now apply Lang_Plus_Cls. }
    apply Lang_Cat. exists "@", (dom ++ "." ++ tld). repeat split.
    { now apply Lang_Chr. }
    apply Lang_Cat. exists dom, ("." ++ tld). repeat split.
    { now apply Lang_Plus_Cls. }
    apply Lang_Cat. exists ".", tld. repeat split.
    { now apply Lang_Chr. }
    now apply Lang_AtLeast2_Cls.
Qed.

Lemma Lang_email_pattern e :
  Lang email_pattern e <->
  rfc5322_light e \/ exists e', e = e' ++ String "010" "" /\ rfc5322_light e'.
Proof.
  unfold email_pattern, Dollar. rewrite Lang_Cat. split.
  - intros (s1 & s2 & -> & H1 & H2). apply Lang_email_body in H1.
    apply Lang_Alt in H2 as [H2|H2].
    + apply Lang_Eps in H2. subst. rewrite append_nil_r. now left.
    + apply Lang_Chr in H2. subst. right. eauto.
  - intros [H | (e' & -> & H)].
    + exists e, "". rewrite append_nil_r. repeat split.
      * now apply Lang_email_body.
      * apply Lang_Alt. left. now apply Lang_Eps.
    + exists e', (String "010" ""). repeat split.
      * now apply Lang_email_body.
      * apply Lang_Alt. right. now apply Lang_Chr.
Qed.

(** [validate_email] accepts exactly the texts that, once trimmed, have
    the format of the specification. *)
Lemma validate_email_spec e :
  validate_email e = true <-> rfc5322_light (PyStr.strip e).
Proof.
  unfold validate_email. rewrite fullmatch_Lang, Lang_email_pattern.
  split; [|now left].
  intros [H | (e' & E & _)]; [exact H|].
  apply strip_last in E. discriminate.
Qed.

Lemma rfc5322_light_nonempty e : rfc5322_light e -> e <> "".
Proof.
  intros (loc & dom & tld & -> & Hloc & _) E.
  apply append_eq_nil in E as [E _]. contradiction.
Qed.

Lemma validate_email_truthy e : validate_email e = true -> PyStr.truthy e = true.
Proof.
  intros H. apply validate_email_spec, rfc5322_light_nonempty in H.
  destruct e; [|reflexivity]. now contradiction H.
Qed.

End PatternFacts.

(** ** [parse_email_list] *)

Section ParseFacts.

Lemma fold_classify (l : list string) : forall valid invalid,
  fold_left classify_email l (valid, invalid) =
  ((valid ++ filter validate_email l)%list,
   (invalid ++ filter (fun e => PyStr.truthy e && negb (validate_email e)) l)%list).
Proof.
  induction l as [|e l IH]; intros valid invalid; simpl.
  - now rewrite !app_nil_r.
  - destruct (validate_email e) eqn:V.
    + rewrite (validate_email_truthy _ V). simpl.
      rewrite IH, <- app_assoc. reflexivity.
    + rewrite andb_false_r, andb_true_r.
      destruct (PyStr.truthy e); rewrite IH; [now rewrite <- app_assoc | reflexivity].
Qed.

Lemma parse_email_list_present v :
  isna v || negb (PyStr.truthy (PyStr.strip (str v))) = false ->
  parse_email_list v =
  (filter validate_email (entries_of v),
   filter (fun e => PyStr.truthy e && negb (validate_email e)) (entries_of v)).
Proof.
  intros H. unfold parse_email_list. rewrite H.
  unfold entries_of. now rewrite fold_classify.
Qed.

Lemma parse_email_list_absent v :
  isna v || negb (PyStr.truthy (PyStr.strip (str v))) = true ->
  parse_email_list v = ([], []) /\ filter validate_email (entries_of v) = [].
Proof.
  intros H. unfold parse_email_list. rewrite H. split; [reflexivity|].
  destruct v as [|s]; [reflexivity|]. simpl in H.
  destruct (PyStr.strip s) as [|c t] eqn:E; [|discriminate].
  unfold entries_of. simpl str.
  rewrite (split_blank s (strip_nil_all s E)). simpl. now rewrite E.
Qed.

Lemma parse_email_list_valid v :
  fst (parse_email_list v) = filter validate_email (entries_of v).
Proof.
  destruct (isna v || negb (PyStr.truthy (PyStr.strip (str v)))) eqn:H.
  - destruct (parse_email_list_absent v H) as [-> ->]. reflexivity.
  - now rewrite (parse_email_list_present v H).
Qed.

End ParseFacts.


(** ** The table *)

Section FrameFacts.

Lemma has_column_with_column d label c :
  has_column d c = true -> existsb (String.eqb c) (with_column d label) = true.
Proof.
  unfold with_column, has_column. intros H.
  destruct (existsb (String.eqb label) (columns d)); [exact H|].
  rewrite existsb_app, H. reflexivity.
Qed.

Lemma has_column_at_set d i label v c :
  has_column d c = true -> has_column (at_set d i label v) c = true.
Proof. apply has_column_with_column. Qed.

Lemma has_column_set_column d label v c :
  has_column d c = true -> has_column (set_column d label v) c = true.
Proof. apply has_column_with_column. Qed.

(** A write to a row leaves the columns that exist alone in the other
    rows. *)
Lemma cells_at_set_other_row d i label v j c :
  j <> i -> has_column d c = true ->
  cells (at_set d i label v) j c = cells d j c.
Proof.
  intros Hj Hc. simpl. destruct (String.eqb_spec c label) as [->|]; [|reflexivity].
  apply Nat.eqb_neq in Hj. now rewrite Hj, Hc.
Qed.

Lemma cells_at_set_same d i label v : cells (at_set d i label v) i label = v.
Proof. simpl. now rewrite String.eqb_refl, Nat.eqb_refl. Qed.

Lemma cells_at_set_other_column d i label v j c :
  c <> label -> cells (at_set d i label v) j c = cells d j c.
Proof. intros H. simpl. apply String.eqb_neq in H. now rewrite H. Qed.

Lemma add_optional_column_keeps d label c :
  has_column d c = true ->
  has_column (add_optional_column d label) c = true
  /\ forall i, cells (add_optional_column d label) i c = cells d i c.
Proof.
  intros H. unfold add_optional_column.
  destruct (has_column d label) eqn:E; [auto|]. split.
  - now apply has_column_set_column.
  - intros i. simpl. destruct (String.eqb_spec c label) as [->|]; [congruence | reflexivity].
Qed.

Lemma fold_add_optional_keeps labels : forall d c,
  has_column d c = true ->
  has_column (fold_left add_optional_column labels d) c = true
  /\ forall i, cells (fold_left add_optional_column labels d) i c = cells d i c.
Proof.
  induction labels as [|l labels IH]; intros d c H; simpl; [auto|].
  destruct (add_optional_column_keeps d l c H) as [H1 H2].
  destruct (IH _ c H1) as [H3 H4]. split; [exact H3|].
  intros i. now rewrite H4, H2.
Qed.

Lemma nrows_fold_add_optional labels : forall d,
  nrows (fold_left add_optional_column labels d) = nrows d.
Proof.
  induction labels as [|l labels IH]; intros d; simpl; [reflexivity|].
  rewrite IH. unfold add_optional_column. now destruct (has_column d l).
Qed.

Lemma prepared_keeps config loaded c :
  has_column loaded c = true ->
  has_column (prepared config loaded) c = true
  /\ forall i, cells (prepared config loaded) i c = cells loaded i c.
Proof. apply fold_add_optional_keeps. Qed.

Lemma nrows_prepared config loaded : nrows (prepared config loaded) = nrows loaded.
Proof. apply nrows_fold_add_optional. Qed.

Lemma series_getitem_map (f : string -> cell) c (l : list string) :
  series_getitem (map (fun k => (k, f k)) l) c =
  if existsb (String.eqb c) l then Some (f c) else None.
Proof.
  induction l as [|k l IH]; simpl; [reflexivity|].
  rewrite (String.eqb_sym c k).
  destruct (String.eqb_spec k c) as [->|]; simpl; [reflexivity | exact IH].
Qed.

Lemma series_getitem_row_at d i c :
  has_column d c = true -> series_getitem (row_at d i) c = Some (cells d i c).
Proof.
  intros H. unfold row_at. rewrite series_getitem_map.
  unfold has_column in H. now rewrite H.
Qed.

Lemma iterrows_split d i :
  i < nrows d ->
  iterrows d =
  (map (fun k => (k, row_at d k)) (seq 0 i)
     ++ (i, row_at d i) :: map (fun k => (k, row_at d k)) (seq (S i) (nrows d - S i)))%list.
Proof.
  intros H. unfold iterrows.
  replace (nrows d) with (i + S (nrows d - S i)) at 1 by lia.
  rewrite seq_app, map_app. reflexivity.
Qed.

Lemma In_iterrows d index row :
  In (index, row) (iterrows d) -> row = row_at d index /\ index < nrows d.
Proof.
  unfold iterrows. intros H. apply in_map_iff in H as (k & E & Hk).
  inversion E; subst. apply in_seq in Hk. split; [reflexivity | lia].
Qed.

End FrameFacts.

(** ** The send step *)

(** Case analysis on what the SMTP session does. *)
Ltac case_smtp :=
  match goal with
  | |- context [smtp ?w ?n ?h ?p ?s ?r ?m] => destruct (smtp w n h p s r m)
  end.

(** Case analysis on how the delay after a row goes. *)
Ltac case_delay :=
  match goal with
  | |- context [delay_step ?w ?c ?s ?i ?d] =>
      destruct (delay_step w c s i d) as [? ?] eqn:?
  end.

Section SendFacts.
Variables (w : World) (config : EmailConfig) (template : string).

Lemma timestamp_truthy d : PyStr.truthy (strftime_timestamp d) = true.
Proof. unfold strftime_timestamp. now destruct (decimal (year d)). Qed.

Lemma send_case test_mode row clk0 :
  SendCase (fst (fst (send_personalized_email w config template test_mode row clk0)))
           (snd (fst (send_personalized_email w config template test_mode row clk0))).
Proof.
  unfold send_personalized_email.
  destruct (smtp_port w); [|constructor].
  destruct (env_unset (EMAIL_SENDER w) || env_unset (EMAIL_PASSWORD w)); [constructor|].
  destruct (fst (parse_email_list (series_get row (col_to (COLUMNS config)) (Str ""))));
    [constructor|].
  destruct (global_attachments w config); [|constructor].
  destruct test_mode; [constructor|].
  case_smtp; constructor.
Qed.

Lemma SendCase_deliveries out events :
  SendCase out events -> List.length (filter is_delivery events) <= 1.
Proof. destruct 1; simpl; lia. Qed.

(** In an environment that is not in order the step raises before it
    looks at the row. *)
Lemma send_without_environment test_mode row clk0 :
  environment_ok w = false ->
  exists e, send_personalized_email w config template test_mode row clk0 = (Raise e, [], clk0).
Proof.
  unfold environment_ok, send_personalized_email. intros H.
  destruct (smtp_port w); [|eauto]. simpl in H.
  apply negb_false_iff in H. rewrite H. eauto.
Qed.

Lemma environment_ok_inv :
  environment_ok w = true ->
  exists port, smtp_port w = Some port
               /\ env_unset (EMAIL_SENDER w) || env_unset (EMAIL_PASSWORD w) = false.
Proof.
  unfold environment_ok. destruct (smtp_port w) as [port|]; [|discriminate].
  simpl. intros H. apply negb_true_iff in H. eauto.
Qed.

Lemma send_no_recipient test_mode row clk0 :
  environment_ok w = true -> to_emails_of config row = [] ->
  send_personalized_email w config template test_mode row clk0
  = (Return (Result2 false "No valid TO email addresses"), [], clk0).
Proof.
  intros H E. apply environment_ok_inv in H as (port & P & C).
  unfold to_emails_of in E. unfold send_personalized_email. now rewrite P, C, E.
Qed.

Lemma send_test_mode row clk0 :
  environment_ok w = true -> folder_ok w config = true ->
  to_emails_of config row <> [] ->
  exists m, send_personalized_email w config template true row clk0
            = (Return (Result2 true "Test mode - not sent"), [Preview m], clk0 + 2).
Proof.
  intros H F E. apply environment_ok_inv in H as (port & P & C).
  unfold to_emails_of in E. unfold folder_ok in F.
  unfold send_personalized_email. rewrite P, C.
  destruct (fst (parse_email_list (series_get row (col_to (COLUMNS config)) (Str ""))));
    [congruence|].
  destruct (global_attachments w config); [eauto | discriminate].
Qed.

End SendFacts.

(** ** One turn of the loop *)

Section TurnFacts.
Variables (w : World) (config : EmailConfig) (template : string).

Lemma deliveries_app a b : deliveries (a ++ b) = (deliveries a ++ deliveries b)%list.
Proof. apply filter_app. Qed.

Lemma deliveries_for_app k a b :
  deliveries_for k (a ++ b) = (deliveries_for k a ++ deliveries_for k b)%list.
Proof. unfold deliveries_for. now rewrite deliveries_app, filter_app. Qed.

Lemma deliveries_tagged index events :
  List.length (deliveries (map (pair index) events))
  = List.length (filter is_delivery events).
Proof.
  unfold deliveries. induction events as [|e events IH]; simpl; [reflexivity|].
  destruct (is_delivery e); simpl; now rewrite IH.
Qed.

Lemma deliveries_for_other k index (l : list (nat * Event)) :
  Forall (fun x => fst x = index) l -> k <> index -> deliveries_for k l = [].
Proof.
  intros H Hk. unfold deliveries_for, deliveries.
  induction H as [|x l Hx _ IH]; simpl; [reflexivity|].
  destruct (is_delivery (snd x)); simpl; [|exact IH].
  rewrite Hx. apply Nat.eqb_neq in Hk. rewrite Nat.eqb_sym in Hk. now rewrite Hk.
Qed.

(** The three ways the delay after a row goes: no sleep is due, the
    sleep is done, the sleep is refused. *)
Lemma delay_step_cases sent index d flow delay :
  delay_step w config sent index d = (flow, delay) ->
  (flow = Next /\ delay = [] /\ sleep_due config sent index d = false)
  \/ (flow = Next /\ delay = [(index, Sleep (DELAY_BETWEEN_EMAILS config))]
      /\ sleep_due config sent index d = true
      /\ time_sleep w (DELAY_BETWEEN_EMAILS config) = None)
  \/ (exists e, flow = Raised e /\ delay = []
                /\ sleep_due config sent index d = true
                /\ time_sleep w (DELAY_BETWEEN_EMAILS config) = Some e).
Proof.
  unfold delay_step. destruct (sleep_due config sent index d).
  - destruct (time_sleep w (DELAY_BETWEEN_EMAILS config)) as [e|];
      intros E; inversion E; subst; [right; right; eauto | right; left; auto].
  - intros E; inversion E; subst. now left.
Qed.

Lemma delay_step_delay sent index d flow delay :
  delay_step w config sent index d = (flow, delay) ->
  deliveries delay = [] /\ Forall (fun x : nat * Event => fst x = index) delay.
Proof.
  intros E.
  destruct (delay_step_cases _ _ _ _ _ E)
    as [(_ & -> & _) | [(_ & -> & _) | (e & _ & -> & _)]];
    simpl; repeat constructor.
Qed.

(** What a processed row adds to the trace: effects for that row, at most
    one of them a delivery. *)
Lemma process_row_trace index row st flow st' :
  process_row w config template index row st = (flow, st') ->
  exists new,
    trace st' = (trace st ++ new)%list
    /\ Forall (fun x => fst x = index) new
    /\ List.length (deliveries new) <= 1
    /\ List.length (deliveries new)
       = List.length
           (filter is_delivery
              (snd (fst (send_personalized_email w config template (TEST_MODE config)
                           row (clk st))))).
Proof.
  unfold process_row.
  pose proof (send_case w config template (TEST_MODE config) row (clk st)) as C.
  destruct (send_personalized_email w config template (TEST_MODE config) row (clk st))
    as [[out events] clk'].
  simpl in C. apply SendCase_deliveries in C.
  assert (T : Forall (fun x : nat * Event => fst x = index) (map (pair index) events))
    by (apply Forall_forall; intros x Hx; apply in_map_iff in Hx as (e & <- & _);
        reflexivity).
  destruct out as [e|result].
  - intros E; inversion E; subst; simpl.
    exists (map (pair index) events). rewrite deliveries_tagged. auto.
  - destruct (unpack result) as [[success status_message] timestamp].
    match goal with |- context [delay_step ?a ?b ?c ?d ?e] =>
      destruct (delay_step a b c d e) as [flow0 delay] eqn:DS
    end.
    destruct (delay_step_delay _ _ _ _ _ DS) as [D1 D2].
    intros E; inversion E; subst; simpl.
    exists (map (pair index) events ++ delay)%list.
    rewrite deliveries_app, D1, app_nil_r, deliveries_tagged.
    repeat split; auto. now apply Forall_app.
Qed.

(** How a processed row ends: it is counted and the loop goes on; or the
    send step raised, and nothing has changed; or the row is counted and
    the sleep after it, due below the cap, was refused. *)
Lemma process_row_counters index row st flow st' :
  process_row w config template index row st = (flow, st') ->
  (flow = Next /\ emails_sent_this_run st' = S (emails_sent_this_run st))
  \/ (exists e, flow = Raised e /\ emails_sent_this_run st' = emails_sent_this_run st
                /\ df st' = df st /\ trace st' = trace st)
  \/ (exists e, flow = Raised e
                /\ emails_sent_this_run st' = S (emails_sent_this_run st)
                /\ (Z.of_nat (S (emails_sent_this_run st)) < MAX_EMAILS_PER_RUN config)%Z
                /\ time_sleep w (DELAY_BETWEEN_EMAILS config) = Some e).
Proof.
  unfold process_row.
  pose proof (send_case w config template (TEST_MODE config) row (clk st)) as C.
  destruct (send_personalized_email w config template (TEST_MODE config) row (clk st))
    as [[[e|result] events] clk'].
  - simpl in C. inversion C; subst.
    intros E; inversion E; subst; simpl. right. left. exists e.
    now rewrite app_nil_r.
  - destruct (unpack result) as [[success status_message] timestamp].
    match goal with |- context [delay_step ?a ?b ?c ?d ?e] =>
      destruct (delay_step a b c d e) as [flow0 delay] eqn:DS
    end.
    intros E; inversion E; subst; simpl.
    destruct (delay_step_cases _ _ _ _ _ DS)
      as [(-> & _) | [(-> & _) | (e & -> & _ & Due & Sl)]]; [now left | now left |].
    right. right. exists e. repeat split; [|exact Sl].
    unfold sleep_due in Due. apply andb_true_iff in Due as [Due _].
    now apply Z.ltb_lt in Due.
Qed.

(** A processed row leaves the existing columns of the other rows, and
    the list of columns that exist, alone. *)
Lemma process_row_frame index row st flow st' :
  process_row w config template index row st = (flow, st') ->
  forall c, has_column (df st) c = true ->
    has_column (df st') c = true
    /\ forall j, j <> index -> cells (df st') j c = cells (df st) j c.
Proof.
  unfold process_row.
  destruct (send_personalized_email w config template (TEST_MODE config) row (clk st))
    as [[[e|result] events] clk'].
  - intros E; inversion E; subst; simpl. auto.
  - destruct (unpack result) as [[success status_message] timestamp].
    match goal with |- context [delay_step ?a ?b ?c ?d ?e] =>
      destruct (delay_step a b c d e) as [flow0 delay]
    end.
    intros E c Hc; inversion E; subst; simpl. clear E.
    pose proof (has_column_at_set (df st) index (col_status (COLUMNS config))
                  (Str status_message) c Hc) as H1.
    destruct (PyStr.truthy timestamp).
    + split; [now apply has_column_at_set|].
      intros j Hj.
      rewrite cells_at_set_other_row by assumption.
      now apply cells_at_set_other_row.
    + split; [exact H1|]. intros j Hj. now apply cells_at_set_other_row.
Qed.

(** The four ways a turn of the loop goes. *)
Lemma loop_body_cases index row st :
  (series_getitem row (col_status (COLUMNS config)) = None
   /\ loop_body w config template (index, row) st = (Raised "KeyError", st))
  \/ (exists v, series_getitem row (col_status (COLUMNS config)) = Some v
        /\ already_sent v = true
        /\ loop_body w config template (index, row) st = (Next, st))
  \/ (exists v, series_getitem row (col_status (COLUMNS config)) = Some v
        /\ already_sent v = false
        /\ (MAX_EMAILS_PER_RUN config <= Z.of_nat (emails_sent_this_run st))%Z
        /\ loop_body w config template (index, row) st = (Break, st))
  \/ (exists v, series_getitem row (col_status (COLUMNS config)) = Some v
        /\ already_sent v = false
        /\ (Z.of_nat (emails_sent_this_run st) < MAX_EMAILS_PER_RUN config)%Z
        /\ loop_body w config template (index, row) st
           = process_row w config template index row st).
Proof.
  unfold loop_body.
  destruct (series_getitem row (col_status (COLUMNS config))) as [v|]; [|now left].
  right. destruct (already_sent v) eqn:A; [left; eauto|].
  right. destruct (Z.leb_spec (MAX_EMAILS_PER_RUN config) (Z.of_nat (emails_sent_this_run st)));
    [left | right]; eauto.
Qed.

End TurnFacts.

(** ** The loop *)

Section LoopFacts.
Variables (w : World) (config : EmailConfig) (template : string).

(** A property of the loop state that every turn preserves holds when
    the loop ends, however it ends. *)
Lemma for_rows_invariant (P : LoopState -> Prop) rows :
  (forall item st flow st', In item rows -> P st -> loop_body w config template item st = (flow, st') -> P st') ->
  forall st flow st', P st -> for_rows w config template rows st = (flow, st') -> P st'.
Proof.
  induction rows as [|item rows IH]; intros Hstep st flow st' HP E.
  - simpl in E. now inversion E; subst.
  - simpl in E.
    destruct (loop_body w config template item st) as [f st1] eqn:B.
    assert (P1 : P st1) by (eapply Hstep; [now left | exact HP | exact B]).
    destruct f; try (inversion E; subst; exact P1).
    eapply IH; [|exact P1|exact E].
    intros item' s f s' Hin. apply Hstep. now right.
Qed.

Lemma for_rows_app rows1 rows2 st :
  for_rows w config template (rows1 ++ rows2) st =
  match for_rows w config template rows1 st with
  | (Next, st1) => for_rows w config template rows2 st1
  | stopped => stopped
  end.
Proof.
  revert st. induction rows1 as [|item rows1 IH]; intros st; simpl.
  - reflexivity.
  - destruct (loop_body w config template item st) as [[| |e] st1]; auto.
Qed.

(** Rows that are already sent are passed over without a trace. *)
Lemma for_rows_already_sent (d : DataFrame) (indices : list nat) st :
  has_column d (col_status (COLUMNS config)) = true ->
  (forall k, In k indices -> already_sent (status_of config d k) = true) ->
  for_rows w config template (map (fun k => (k, row_at d k)) indices) st = (Next, st).
Proof.
  intros Hc. induction indices as [|k indices IH]; intros H; simpl.
  - reflexivity.
  - rewrite (series_getitem_row_at d k _ Hc).
    unfold status_of in H. rewrite (H k (or_introl eq_refl)).
    apply IH. intros k' Hk'. apply H. now right.
Qed.

(** Once the cap is reached nothing changes any more. *)
Lemma for_rows_capped rows : forall st flow st',
  (MAX_EMAILS_PER_RUN config <= Z.of_nat (emails_sent_this_run st))%Z ->
  for_rows w config template rows st = (flow, st') -> st' = st.
Proof.
  induction rows as [|[index row] rows IH]; intros st flow st' Hcap E.
  - simpl in E. now inversion E.
  - cbn [for_rows] in E.
    destruct (loop_body_cases w config template index row st)
      as [[_ B] | [(v & _ & _ & B) | [(v & _ & _ & _ & B) | (v & _ & _ & Hlt & _)]]];
      try lia; rewrite B in E.
    + now inversion E.
    + eapply IH; eauto.
    + now inversion E.
Qed.

Lemma loop_body_within_cap item st flow st' :
  within_cap config st -> loop_body w config template item st = (flow, st') -> within_cap config st'.
Proof.
  destruct item as [index row]. intros [H1 H2] E.
  destruct (loop_body_cases w config template index row st)
    as [[_ B] | [(v & _ & _ & B) | [(v & _ & _ & _ & B) | (v & _ & _ & Hlt & B)]]];
    rewrite B in E; try (inversion E; subst; now split).
  destruct (process_row_trace w config template _ _ _ _ _ E) as (new & T & _ & D & _).
  destruct (process_row_counters w config template _ _ _ _ _ E)
    as [[_ S1] | [(e & _ & S1 & _ & T') | (e & _ & S1 & _)]].
  - unfold within_cap. rewrite T, deliveries_app, length_app, S1. split; lia.
  - unfold within_cap. rewrite T', S1. now split.
  - unfold within_cap. rewrite T, deliveries_app, length_app, S1. split; lia.
Qed.

Lemma for_rows_within_cap rows st flow st' :
  within_cap config st -> for_rows w config template rows st = (flow, st') -> within_cap config st'.
Proof.
  apply (for_rows_invariant (within_cap config)).
  intros item s f s' _. apply loop_body_within_cap.
Qed.

Lemma loop_body_passed_over d k item st flow st' :
  has_column d (col_status (COLUMNS config)) = true ->
  already_sent (status_of config d k) = true ->
  In item (iterrows d) ->
  passed_over d k st -> loop_body w config template item st = (flow, st') -> passed_over d k st'.
Proof.
  destruct item as [index row]. intros Hc Hk Hin [P1 P2] E.
  apply In_iterrows in Hin as [-> _].
  destruct (loop_body_cases w config template index (row_at d index) st)
    as [[_ B] | [(v & _ & _ & B) | [(v & _ & _ & _ & B) | (v & G & A & _ & B)]]];
    rewrite B in E; try (inversion E; subst; now split).
  assert (Hne : k <> index).
  { intros ->. rewrite (series_getitem_row_at d index _ Hc) in G.
    inversion G; subst. unfold status_of in Hk. congruence. }
  destruct (process_row_trace w config template _ _ _ _ _ E) as (new & T & F & _).
  split.
  - rewrite T, deliveries_for_app, P1. simpl.
    now apply (deliveries_for_other k index).
  - intros c Hd. destruct (P2 c Hd) as [Q1 Q2].
    destruct (process_row_frame w config template _ _ _ _ _ E c Q1) as [R1 R2].
    split; [exact R1|]. now rewrite R2.
Qed.

Lemma for_rows_passed_over d k st flow st' :
  has_column d (col_status (COLUMNS config)) = true ->
  already_sent (status_of config d k) = true ->
  passed_over d k st -> for_rows w config template (iterrows d) st = (flow, st') -> passed_over d k st'.
Proof.
  intros Hc Hk. apply (for_rows_invariant (passed_over d k)).
  intros item s f s' Hin. now apply loop_body_passed_over.
Qed.

End LoopFacts.

(** ** The run *)

Section RunFacts.
Variables (w : World) (config : EmailConfig) (template : string).

(** A run either stops before the loop and does nothing, or goes through
    the loop over the prepared table and, unless the loop raised, writes
    the table back. *)
Lemma main_cases loaded answer :
  main w config template loaded answer = nothing_done
  \/ (has_column (prepared config loaded) (col_status (COLUMNS config)) = true
      /\ exists flow st,
           for_rows w config template (iterrows (prepared config loaded))
             (initial_state (prepared config loaded)) = (flow, st)
           /\ effects (main w config template loaded answer) = trace st
           /\ ((exists e, flow = Raised e)
               /\ saved (main w config template loaded answer) = None
               \/ (forall e, flow <> Raised e)
                  /\ saved (main w config template loaded answer) = Some (df st))).
Proof.
  unfold main.
  destruct (missing_columns config loaded); [|now left].
  destruct (has_column (prepared config loaded) (col_status (COLUMNS config))) eqn:Hc;
    [|now left].
  simpl negb. cbv iota.
  destruct (pending_emails config (prepared config loaded) =? 0)%nat; [now left|].
  destruct (negb (TEST_MODE config) && negb (says_yes answer)); [now left|].
  right. split; [reflexivity|].
  destruct (for_rows w config template (iterrows (prepared config loaded))
              (initial_state (prepared config loaded))) as [flow st].
  exists flow, st. split; [reflexivity|].
  destruct flow; simpl; split; try reflexivity.
  - right. split; [discriminate | reflexivity].
  - right. split; [discriminate | reflexivity].
  - left. split; [eauto | reflexivity].
Qed.

Lemma within_cap_initial d : within_cap config (initial_state d).
Proof. unfold within_cap. simpl. lia. Qed.

Lemma passed_over_initial d k : passed_over d k (initial_state d).
Proof. split; [reflexivity | auto]. Qed.

End RunFacts.

(** C2: whatever the table, the environment and the configuration, a run
    goes through the delivery channel (preview or SMTP session) at most
    [MAX_EMAILS_PER_RUN] times; the cap is a count, hence not negative. *)
Theorem deliveries_within_cap :
  forall (w : World) (config : EmailConfig) (template : string)
         (loaded : DataFrame) (answer : string),
    (0 <= MAX_EMAILS_PER_RUN config)%Z ->
    (Z.of_nat (List.length (deliveries (effects (main w config template loaded answer))))
     <= MAX_EMAILS_PER_RUN config)%Z.
Proof.
  intros w config template loaded answer Hcap.
  destruct (main_cases w config template loaded answer)
    as [-> | (_ & flow & st & L & -> & _)]; [simpl; lia|].
  apply for_rows_within_cap in L; [|apply within_cap_initial].
  destruct L as [L1 L2]. lia.
Qed.

Lemma deliveries_within_cap_witness :
  (Z.of_nat (List.length
     (deliveries (effects (main world_ok cap_of_one sample_template sample_table "yes"))))
   <= MAX_EMAILS_PER_RUN cap_of_one)%Z.
Proof.
  apply (deliveries_within_cap world_ok cap_of_one sample_template sample_table "yes").
  simpl. lia.
Defined.

(** With a negative cap the loop stops at the first row that is still to
    send: nothing is delivered. *)
Lemma negative_cap_delivers_nothing w config template loaded answer :
  (MAX_EMAILS_PER_RUN config < 0)%Z ->
  deliveries (effects (main w config template loaded answer)) = [].
Proof.
  intros Hcap.
  destruct (main_cases w config template loaded answer)
    as [-> | (_ & flow & st & L & -> & _)]; [reflexivity|].
  apply for_rows_within_cap in L; [|apply within_cap_initial].
  destruct L as [L1 L2].
  destruct (deliveries (trace st)); [reflexivity | simpl in L1; lia].
Qed.

(** C1: a row whose status is present and not blank when the table is
    loaded is never handed to the delivery channel, and its status and
    sent-timestamp cells in the table written back are the loaded ones. *)
Theorem already_sent_row_untouched :
  forall (w : World) (config : EmailConfig) (template : string)
         (loaded : DataFrame) (answer : string) (k : nat),
    has_column loaded (col_status (COLUMNS config)) = true ->
    has_column loaded (col_timestamp (COLUMNS config)) = true ->
    already_sent (status_of config loaded k) = true ->
    deliveries_for k (effects (main w config template loaded answer)) = []
    /\ forall written,
         saved (main w config template loaded answer) = Some written ->
         status_of config written k = status_of config loaded k
         /\ timestamp_of config written k = timestamp_of config loaded k.
Proof.
  intros w config template loaded answer k Hs Ht Hk.
  destruct (main_cases w config template loaded answer)
    as [-> | (Hc & flow & st & L & -> & S)].
  { split; [reflexivity | discriminate]. }
  destruct (prepared_keeps config loaded _ Hs) as [_ Ks].
  destruct (prepared_keeps config loaded _ Ht) as [Kt1 Kt].
  assert (P : passed_over (prepared config loaded) k st).
  { eapply for_rows_passed_over; [exact Hc | | apply passed_over_initial | exact L].
    unfold status_of. now rewrite Ks. }
  destruct P as [P1 P2]. split; [exact P1|].
  intros written E.
  destruct S as [[_ S] | [_ S]]; rewrite S in E; inversion E; subst.
  unfold status_of, timestamp_of.
  destruct (P2 _ Hc) as [_ ->]. destruct (P2 _ Kt1) as [_ ->].
  now rewrite Ks, Kt.
Qed.

Lemma already_sent_row_untouched_witness :
  deliveries_for 2 (effects (main world_ok default_config sample_template sample_table "yes")) = []
  /\ forall written,
       saved (main world_ok default_config sample_template sample_table "yes") = Some written ->
       status_of default_config written 2 = status_of default_config sample_table 2
       /\ timestamp_of default_config written 2 = timestamp_of default_config sample_table 2.
Proof.
  apply (already_sent_row_untouched world_ok default_config sample_template sample_table "yes" 2);
    reflexivity.
Defined.

(** ** A cap of one *)

Section CapOfOne.
Variables (w : World) (config : EmailConfig) (template : string).

(** When the send step returns, it went through the delivery channel
    once if the row has a valid TO address, and not at all if it has
    none. *)
Lemma send_delivery_count test_mode row clk0 result :
  fst (fst (send_personalized_email w config template test_mode row clk0)) = Return result ->
  List.length
    (filter is_delivery
       (snd (fst (send_personalized_email w config template test_mode row clk0))))
  = match to_emails_of config row with [] => 0 | _ :: _ => 1 end.
Proof.
  unfold send_personalized_email, to_emails_of.
  destruct (smtp_port w); [|discriminate].
  destruct (env_unset (EMAIL_SENDER w) || env_unset (EMAIL_PASSWORD w)); [discriminate|].
  destruct (fst (parse_email_list (series_get row (col_to (COLUMNS config)) (Str ""))));
    [reflexivity|].
  destruct (global_attachments w config); [|discriminate].
  destruct test_mode; [reflexivity|].
  case_smtp; reflexivity.
Qed.

Lemma process_row_next index row st st' :
  process_row w config template index row st = (Next, st') ->
  exists result,
    fst (fst (send_personalized_email w config template (TEST_MODE config) row (clk st)))
    = Return result.
Proof.
  unfold process_row.
  destruct (send_personalized_email w config template (TEST_MODE config) row (clk st))
    as [[[e|result] events] clk']; [discriminate | intros _; simpl; eauto].
Qed.

(** Once the cap is reached, the rows of a table with a status column
    cannot make the loop raise. *)
Lemma for_rows_capped_no_raise d (indices : list nat) st flow st' :
  has_column d (col_status (COLUMNS config)) = true ->
  (MAX_EMAILS_PER_RUN config <= Z.of_nat (emails_sent_this_run st))%Z ->
  for_rows w config template (map (fun k => (k, row_at d k)) indices) st = (flow, st') ->
  forall e, flow <> Raised e.
Proof.
  intros Hc Hcap. induction indices as [|k indices IH]; simpl.
  - intros E e; inversion E; discriminate.
  - rewrite (series_getitem_row_at d k _ Hc).
    destruct (already_sent (cells d k (col_status (COLUMNS config)))); [exact IH|].
    apply Z.leb_le in Hcap. rewrite Hcap.
    intros E e; inversion E; discriminate.
Qed.

(** With a cap of one, the loop ends right after the turn of the first
    row that is still to send. *)
Lemma for_rows_cap_of_one d i :
  MAX_EMAILS_PER_RUN config = 1%Z ->
  has_column d (col_status (COLUMNS config)) = true ->
  i < nrows d ->
  (forall k, k < i -> already_sent (status_of config d k) = true) ->
  already_sent (status_of config d i) = false ->
  forall flow st,
    for_rows w config template (iterrows d) (initial_state d) = (flow, st) ->
    exists flow1,
      process_row w config template i (row_at d i) (initial_state d) = (flow1, st)
      /\ ((exists e, flow1 = Raised e /\ flow = Raised e)
          \/ (flow1 = Next /\ forall e, flow <> Raised e)).
Proof.
  intros Hmax Hc Hi Hbefore Hpending flow st L.
  rewrite (iterrows_split d i Hi), for_rows_app in L.
  rewrite for_rows_already_sent in L; [|exact Hc|].
  2:{ intros k Hk. apply Hbefore. apply in_seq in Hk. lia. }
  cbn [for_rows] in L.
  destruct (loop_body_cases w config template i (row_at d i) (initial_state d))
    as [[G _] | [(v & G & A & _) | [(v & _ & _ & Hle & _) | (v & _ & _ & _ & B)]]].
  - rewrite (series_getitem_row_at d i _ Hc) in G. discriminate.
  - rewrite (series_getitem_row_at d i _ Hc) in G. inversion G; subst.
    unfold status_of in Hpending. congruence.
  - simpl in Hle. lia.
  - rewrite B in L.
    destruct (process_row w config template i (row_at d i) (initial_state d))
      as [flow1 st1] eqn:P.
    destruct (process_row_counters _ _ _ _ _ _ _ _ P)
      as [[-> S1] | [(e & -> & _) | (e & _ & _ & Hlt & _)]];
      [| | simpl in Hlt; lia].
    + assert (Hcap : (MAX_EMAILS_PER_RUN config <= Z.of_nat (emails_sent_this_run st1))%Z)
        by (rewrite S1, Hmax; simpl; lia).
      assert (st = st1) by (eapply for_rows_capped; [exact Hcap | exact L]).
      subst st1. exists Next. split; [reflexivity|]. right. split; [reflexivity|].
      eapply for_rows_capped_no_raise; [exact Hc | exact Hcap | exact L].
    + inversion L; subst. exists (Raised e). split; [reflexivity|]. left. eauto.
Qed.

End CapOfOne.

(** C4, as the code has it: with a cap of one, a first row [i] that is
    still to send and a later one [j], the run goes through the delivery
    channel at most once and never for row [j], and every cell that row
    [j] had when the table was loaded is the same in the table written
    back. When the table is written back, the channel was used exactly
    once if row [i] has a valid TO address and not at all if it has none
    (that row uses up the cap all the same). *)
Theorem cap_of_one_halts :
  forall (w : World) (config : EmailConfig) (template : string)
         (loaded : DataFrame) (answer : string) (i j : nat),
    MAX_EMAILS_PER_RUN config = 1%Z ->
    has_column loaded (col_status (COLUMNS config)) = true ->
    i < j -> j < nrows loaded ->
    (forall k, k < i -> already_sent (status_of config loaded k) = true) ->
    already_sent (status_of config loaded i) = false ->
    already_sent (status_of config loaded j) = false ->
    List.length (deliveries (effects (main w config template loaded answer))) <= 1
    /\ deliveries_for j (effects (main w config template loaded answer)) = []
    /\ forall written,
         saved (main w config template loaded answer) = Some written ->
         (forall c, has_column loaded c = true -> cells written j c = cells loaded j c)
         /\ List.length (deliveries (effects (main w config template loaded answer)))
            = match to_emails_of config (row_at (prepared config loaded) i) with
              | [] => 0
              | _ :: _ => 1
              end.
Proof.
  intros w config template loaded answer i j Hmax Hs Hij Hj Hbefore Hi _.
  destruct (main_cases w config template loaded answer)
    as [-> | (Hc & flow & st & L & -> & S)].
  { repeat split; simpl; try lia; discriminate. }
  destruct (prepared_keeps config loaded _ Hs) as [_ Ks].
  destruct (for_rows_cap_of_one w config template (prepared config loaded) i Hmax Hc)
    with (flow := flow) (st := st) as (flow1 & P & F); try exact L.
  { rewrite nrows_prepared. lia. }
  { intros k Hk. unfold status_of. rewrite Ks. now apply Hbefore. }
  { unfold status_of. rewrite Ks. exact Hi. }
  destruct (process_row_trace _ _ _ _ _ _ _ _ P) as (new & T & Tag & D & Dn).
  simpl in T. subst new. split; [exact D | split].
  - apply (deliveries_for_other j i); [exact Tag | lia].
  - intros written E.
    destruct S as [[_ S] | [N S]]; rewrite S in E; inversion E; subst. split.
    + intros c Hcol. destruct (prepared_keeps config loaded c Hcol) as [K1 K2].
      destruct (process_row_frame _ _ _ _ _ _ _ _ P c K1) as [_ R].
      rewrite R by lia. apply K2.
    + destruct F as [(e & _ & ->) | [-> _]]; [now contradiction (N e)|].
      destruct (process_row_next _ _ _ _ _ _ _ P) as (result & R).
      rewrite Dn. exact (send_delivery_count _ _ _ _ _ _ _ R).
Qed.

Lemma cap_of_one_halts_witness :
  List.length (deliveries (effects (main world_ok cap_of_one sample_template sample_table "yes"))) <= 1
  /\ deliveries_for 1 (effects (main world_ok cap_of_one sample_template sample_table "yes")) = []
  /\ forall written,
       saved (main world_ok cap_of_one sample_template sample_table "yes") = Some written ->
       (forall c, has_column sample_table c = true ->
                  cells written 1 c = cells sample_table 1 c)
       /\ List.length
            (deliveries (effects (main world_ok cap_of_one sample_template sample_table "yes")))
          = match to_emails_of cap_of_one (row_at (prepared cap_of_one sample_table) 0) with
            | [] => 0
            | _ :: _ => 1
            end.
Proof.
  apply (cap_of_one_halts world_ok cap_of_one sample_template sample_table "yes" 0 1);
    try reflexivity; try lia.
  simpl. lia.
Defined.

(** C4 as stated fails: the cap is one, both rows are still to send, the
    run writes the table back, and the delivery channel is not used at
    all, because the first row has no valid TO address and uses up the
    cap. *)
Lemma cap_of_one_without_recipient :
  MAX_EMAILS_PER_RUN cap_of_one = 1%Z
  /\ already_sent (status_of cap_of_one no_recipient_table 0) = false
  /\ already_sent (status_of cap_of_one no_recipient_table 1) = false
  /\ environment_ok world_ok = true
  /\ deliveries (effects (main world_ok cap_of_one sample_template no_recipient_table "yes")) = []
  /\ option_map (fun written => (status_of cap_of_one written 0, status_of cap_of_one written 1))
       (saved (main world_ok cap_of_one sample_template no_recipient_table "yes"))
     = Some (Str "No valid TO email addresses", NaN).
Proof. repeat split. Qed.

(** ** What a processed row records *)

(** C3, as the code has it: for a row that the loop processes, the text
    the send step reports is written to the status cell and is not empty.
    After a successful SMTP session the status is the sent indicator and
    the sent-timestamp cell holds a non-empty timestamp. When the send
    fails, and when it succeeds in test mode, the sent-timestamp cell is
    left as it was. *)
Theorem processed_row_record :
  forall (w : World) (config : EmailConfig) (template : string)
         (index : nat) (row : Series) (st : LoopState) (result : SendResult),
    col_status (COLUMNS config) <> col_timestamp (COLUMNS config) ->
    fst (fst (send_personalized_email w config template (TEST_MODE config) row (clk st)))
    = Return result ->
    let st' := snd (process_row w config template index row st) in
    let success := fst (fst (unpack result)) in
    let status_message := snd (fst (unpack result)) in
    status_of config (df st') index = Str status_message
    /\ status_message <> ""
    /\ (success = true -> TEST_MODE config = false ->
        status_message = "Sent successfully"
        /\ exists t, t <> "" /\ timestamp_of config (df st') index = Str t)
    /\ (success = true -> TEST_MODE config = true ->
        status_message = "Test mode - not sent"
        /\ timestamp_of config (df st') index = timestamp_of config (df st) index)
    /\ (success = false ->
        timestamp_of config (df st') index = timestamp_of config (df st) index).
Proof.
  intros w config template index row st result Hne.
  assert (Hts : forall d v, timestamp_of config
                  (at_set d index (col_status (COLUMNS config)) v) index
                = timestamp_of config d index).
  { intros d v. unfold timestamp_of. apply cells_at_set_other_column. congruence. }
  assert (Hst : forall d v t, status_of config
                  (at_set (at_set d index (col_status (COLUMNS config)) v) index
                     (col_timestamp (COLUMNS config)) t) index = v).
  { intros d v t. unfold status_of.
    rewrite cells_at_set_other_column by exact Hne. apply cells_at_set_same. }
  unfold process_row, send_personalized_email.
  destruct (smtp_port w); [|discriminate].
  destruct (env_unset (EMAIL_SENDER w) || env_unset (EMAIL_PASSWORD w)); [discriminate|].
  destruct (fst (parse_email_list (series_get row (col_to (COLUMNS config)) (Str "")))).
  { intros E; inversion E; subst. cbn [unpack PyStr.truthy]. case_delay.
    cbn [fst snd df].
    unfold status_of. rewrite cells_at_set_same, Hts.
    repeat split; discriminate. }
  destruct (global_attachments w config); [|discriminate].
  destruct (TEST_MODE config).
  { intros E; inversion E; subst. cbn [unpack PyStr.truthy]. case_delay.
    cbn [fst snd df].
    unfold status_of. rewrite cells_at_set_same, Hts.
    repeat split; discriminate. }
  case_smtp.
  - intros E; inversion E; subst. cbn [unpack PyStr.truthy]. case_delay.
    cbn [fst snd df].
    unfold status_of. rewrite cells_at_set_same, Hts.
    repeat split; discriminate.
  - intros E; inversion E; subst. cbn [unpack].
    rewrite timestamp_truthy. case_delay. cbn [fst snd df]. rewrite Hst.
    repeat split; try discriminate.
    eexists. split; [|unfold timestamp_of; apply cells_at_set_same].
    intros T. pose proof (timestamp_truthy (now w (clk st + 3))) as K.
    rewrite T in K. discriminate.
Qed.

Lemma processed_row_record_witness :
  let st := initial_state sample_table in
  let st' := snd (process_row world_ok default_config sample_template 0
                    (row_at sample_table 0) st) in
  status_of default_config (df st') 0 = Str "Sent successfully"
  /\ "Sent successfully" <> ""
  /\ (true = true -> TEST_MODE default_config = false ->
      "Sent successfully" = "Sent successfully"
      /\ exists t, t <> "" /\ timestamp_of default_config (df st') 0 = Str t)
  /\ (true = true -> TEST_MODE default_config = true ->
      "Sent successfully" = "Test mode - not sent"
      /\ timestamp_of default_config (df st') 0 = timestamp_of default_config (df st) 0)
  /\ (true = false ->
      timestamp_of default_config (df st') 0 = timestamp_of default_config (df st) 0).
Proof.
  apply (processed_row_record world_ok default_config sample_template 0
           (row_at sample_table 0) (initial_state sample_table)
           (Result3 true "Sent successfully" (strftime_timestamp may_14))).
  - simpl. discriminate.
  - reflexivity.
Defined.

(** C3 as stated fails in test mode: the send step reports success, the
    row is counted as successful, and its sent-timestamp cell is as empty
    as before. *)
Lemma test_mode_success_without_timestamp :
  let st := initial_state sample_table in
  let row := row_at sample_table 1 in
  fst (fst (send_personalized_email world_ok dry_run sample_template (TEST_MODE dry_run) row (clk st)))
  = Return (Result2 true "Test mode - not sent")
  /\ fst (process_row world_ok dry_run sample_template 1 row st) = Next
  /\ successful_emails (snd (process_row world_ok dry_run sample_template 1 row st)) = 1
  /\ timestamp_of dry_run (df st) 1 = Str ""
  /\ timestamp_of dry_run (df (snd (process_row world_ok dry_run sample_template 1 row st))) 1
     = Str "".
Proof. repeat split. Qed.

(** How the turn of a processed row ends, from how the delay after it
    goes. *)
Lemma delay_step_flow w config sent index d flow delay :
  delay_step w config sent index d = (flow, delay) ->
  (sleep_due config sent index d = false
   \/ time_sleep w (DELAY_BETWEEN_EMAILS config) = None -> flow = Next)
  /\ (forall e, sleep_due config sent index d = true ->
                time_sleep w (DELAY_BETWEEN_EMAILS config) = Some e -> flow = Raised e).
Proof.
  intros E.
  destruct (delay_step_cases w config _ _ _ _ _ E)
    as [(-> & _ & D) | [(-> & _ & D & T) | (e & -> & _ & D & T)]].
  - split; [reflexivity | congruence].
  - split; [reflexivity | congruence].
  - split; [intros [H | H]; congruence | intros e' _ H; congruence].
Qed.

(** C5, as the code has it: where the environment is in order (the port
    is a number, the credentials are set), a row that is still to send,
    is reached below the cap and has no valid TO address makes the send
    step return the failure "No valid TO email addresses" without any
    effect on the outside (no preview, no SMTP session); the loop writes
    that text to the status cell and counts the row as processed and
    failed, so that a later run passes it over. The turn then goes on to
    the next row, unless a sleep is due after the row and is refused, as
    one of negative length is: then the turn raises. *)
Theorem no_valid_recipient_fails_row :
  forall (w : World) (config : EmailConfig) (template : string)
         (index : nat) (row : Series) (st : LoopState) (current_status : cell),
    environment_ok w = true ->
    series_getitem row (col_status (COLUMNS config)) = Some current_status ->
    already_sent current_status = false ->
    (Z.of_nat (emails_sent_this_run st) < MAX_EMAILS_PER_RUN config)%Z ->
    to_emails_of config row = [] ->
    send_personalized_email w config template (TEST_MODE config) row (clk st)
    = (Return (Result2 false "No valid TO email addresses"), [], clk st)
    /\ exists flow st',
         loop_body w config template (index, row) st = (flow, st')
         /\ deliveries (trace st') = deliveries (trace st)
         /\ status_of config (df st') index = Str "No valid TO email addresses"
         /\ already_sent (status_of config (df st') index) = true
         /\ emails_sent_this_run st' = S (emails_sent_this_run st)
         /\ failed_emails st' = S (failed_emails st)
         /\ successful_emails st' = successful_emails st
         /\ (sleep_due config (S (emails_sent_this_run st)) index (df st) = false
             \/ time_sleep w (DELAY_BETWEEN_EMAILS config) = None -> flow = Next)
         /\ (forall e,
               sleep_due config (S (emails_sent_this_run st)) index (df st) = true ->
               time_sleep w (DELAY_BETWEEN_EMAILS config) = Some e -> flow = Raised e).
Proof.
  intros w config template index row st v Hcred G A Hlt Hto.
  pose proof (send_no_recipient w config template (TEST_MODE config) row (clk st) Hcred Hto)
    as S.
  split; [exact S|].
  unfold loop_body. rewrite G, A.
  apply Z.leb_gt in Hlt. rewrite Hlt.
  unfold process_row. rewrite S. cbn [unpack PyStr.truthy].
  case_delay.
  match goal with H : delay_step _ _ _ _ _ = (?f, ?d) |- _ =>
    destruct (delay_step_delay w config _ _ _ _ _ H) as [D _];
    destruct (delay_step_flow w config _ _ _ _ _ H) as [F1 F2]
  end.
  eexists. eexists. split; [reflexivity|].
  cbn [df trace emails_sent_this_run failed_emails successful_emails map].
  unfold status_of. rewrite cells_at_set_same.
  rewrite deliveries_app. cbn [app]. rewrite D, app_nil_r.
  unfold sleep_due in *. cbn [nrows at_set] in F1, F2.
  repeat split; assumption.
Qed.

Lemma no_valid_recipient_fails_row_witness :
  send_personalized_email world_ok cap_of_one sample_template (TEST_MODE cap_of_one)
    (row_at no_recipient_table 0) (clk (initial_state no_recipient_table))
  = (Return (Result2 false "No valid TO email addresses"), [],
     clk (initial_state no_recipient_table))
  /\ exists flow st',
       loop_body world_ok cap_of_one sample_template (0, row_at no_recipient_table 0)
         (initial_state no_recipient_table) = (flow, st')
       /\ deliveries (trace st') = deliveries (trace (initial_state no_recipient_table))
       /\ status_of cap_of_one (df st') 0 = Str "No valid TO email addresses"
       /\ already_sent (status_of cap_of_one (df st') 0) = true
       /\ emails_sent_this_run st' = S (emails_sent_this_run (initial_state no_recipient_table))
       /\ failed_emails st' = S (failed_emails (initial_state no_recipient_table))
       /\ successful_emails st' = successful_emails (initial_state no_recipient_table)
       /\ (sleep_due cap_of_one (S (emails_sent_this_run (initial_state no_recipient_table)))
             0 (df (initial_state no_recipient_table)) = false
           \/ time_sleep world_ok (DELAY_BETWEEN_EMAILS cap_of_one) = None -> flow = Next)
       /\ (forall e,
             sleep_due cap_of_one (S (emails_sent_this_run (initial_state no_recipient_table)))
               0 (df (initial_state no_recipient_table)) = true ->
             time_sleep world_ok (DELAY_BETWEEN_EMAILS cap_of_one) = Some e ->
             flow = Raised e).
Proof.
  apply (no_valid_recipient_fails_row world_ok cap_of_one sample_template 0
           (row_at no_recipient_table 0) (initial_state no_recipient_table) NaN);
    reflexivity.
Defined.

(** C5 as stated fails where a credential is not set: the row is still
    to send and has no valid TO address, and the send step raises before
    it looks at the row instead of returning the failure; the status cell
    is not written, and the run ends without writing the table back. *)
Lemma no_valid_recipient_without_password :
  already_sent (status_of cap_of_one no_recipient_table 0) = false
  /\ to_emails_of cap_of_one (row_at no_recipient_table 0) = []
  /\ send_personalized_email world_without_password cap_of_one sample_template
       (TEST_MODE cap_of_one) (row_at no_recipient_table 0)
       (clk (initial_state no_recipient_table))
     = (Raise "Email credentials not found. Please set EMAIL_SENDER and EMAIL_PASSWORD in .env file",
        [], clk (initial_state no_recipient_table))
  /\ status_of cap_of_one
       (df (snd (loop_body world_without_password cap_of_one sample_template
                   (0, row_at no_recipient_table 0) (initial_state no_recipient_table)))) 0
     = NaN
  /\ saved (main world_without_password cap_of_one sample_template no_recipient_table "yes")
     = None.
Proof. repeat split. Qed.

(** C10, as the code has it: in test mode, where the environment is in
    order and the attachments folder can be listed, a row that is still
    to send, is reached below the cap and has a valid TO address makes
    the send step report success with the text "Test mode - not sent" and
    no timestamp, after a preview and no SMTP session; the loop writes
    that text to the status cell, leaves the sent-timestamp cell as it
    was, and counts the row as successful. The turn then goes on to the
    next row, unless a sleep is due after the row and is refused: then the
    turn raises. *)
Theorem test_mode_row :
  forall (w : World) (config : EmailConfig) (template : string)
         (index : nat) (row : Series) (st : LoopState) (current_status : cell),
    TEST_MODE config = true ->
    environment_ok w = true ->
    folder_ok w config = true ->
    col_status (COLUMNS config) <> col_timestamp (COLUMNS config) ->
    series_getitem row (col_status (COLUMNS config)) = Some current_status ->
    already_sent current_status = false ->
    (Z.of_nat (emails_sent_this_run st) < MAX_EMAILS_PER_RUN config)%Z ->
    to_emails_of config row <> [] ->
    exists m flow st',
      send_personalized_email w config template (TEST_MODE config) row (clk st)
      = (Return (Result2 true "Test mode - not sent"), [Preview m], clk st + 2)
      /\ loop_body w config template (index, row) st = (flow, st')
      /\ filter (fun e => is_smtp (snd e)) (trace st')
         = filter (fun e => is_smtp (snd e)) (trace st)
      /\ status_of config (df st') index = Str "Test mode - not sent"
      /\ timestamp_of config (df st') index = timestamp_of config (df st) index
      /\ successful_emails st' = S (successful_emails st)
      /\ failed_emails st' = failed_emails st
      /\ (sleep_due config (S (emails_sent_this_run st)) index (df st) = false
          \/ time_sleep w (DELAY_BETWEEN_EMAILS config) = None -> flow = Next)
      /\ (forall e,
            sleep_due config (S (emails_sent_this_run st)) index (df st) = true ->
            time_sleep w (DELAY_BETWEEN_EMAILS config) = Some e -> flow = Raised e).
Proof.
  intros w config template index row st v Htest Henv Hdir Hne G A Hlt Hto.
  rewrite Htest.
  destruct (send_test_mode w config template row (clk st) Henv Hdir Hto) as (m & S).
  exists m. unfold loop_body. rewrite G, A.
  apply Z.leb_gt in Hlt. rewrite Hlt.
  unfold process_row. rewrite Htest, S. cbn [unpack PyStr.truthy].
  case_delay.
  match goal with H : delay_step _ _ _ _ _ = (?f, ?d) |- _ =>
    destruct (delay_step_cases w config _ _ _ _ _ H) as [(_ & Dl & _) | [(_ & Dl & _) | (e & _ & Dl & _)]];
    destruct (delay_step_flow w config _ _ _ _ _ H) as [F1 F2]
  end;
    (eexists; eexists; split; [reflexivity|]; split; [reflexivity|];
     cbn [df trace emails_sent_this_run failed_emails successful_emails map];
     unfold status_of, timestamp_of;
     rewrite cells_at_set_same, cells_at_set_other_column by congruence;
     rewrite !filter_app; subst; cbn [filter snd is_smtp app];
     rewrite app_nil_r;
     unfold sleep_due in *; cbn [nrows at_set] in F1, F2;
     repeat split; assumption).
Qed.

Lemma test_mode_row_witness :
  exists m flow st',
    send_personalized_email world_ok dry_run sample_template (TEST_MODE dry_run)
      (row_at sample_table 1) (clk (initial_state sample_table))
    = (Return (Result2 true "Test mode - not sent"), [Preview m],
       clk (initial_state sample_table) + 2)
    /\ loop_body world_ok dry_run sample_template (1, row_at sample_table 1)
         (initial_state sample_table) = (flow, st')
    /\ filter (fun e => is_smtp (snd e)) (trace st')
       = filter (fun e => is_smtp (snd e)) (trace (initial_state sample_table))
    /\ status_of dry_run (df st') 1 = Str "Test mode - not sent"
    /\ timestamp_of dry_run (df st') 1 = timestamp_of dry_run (df (initial_state sample_table)) 1
    /\ successful_emails st' = S (successful_emails (initial_state sample_table))
    /\ failed_emails st' = failed_emails (initial_state sample_table)
    /\ (sleep_due dry_run (S (emails_sent_this_run (initial_state sample_table))) 1
          (df (initial_state sample_table)) = false
        \/ time_sleep world_ok (DELAY_BETWEEN_EMAILS dry_run) = None -> flow = Next)
    /\ (forall e,
          sleep_due dry_run (S (emails_sent_this_run (initial_state sample_table))) 1
            (df (initial_state sample_table)) = true ->
          time_sleep world_ok (DELAY_BETWEEN_EMAILS dry_run) = Some e -> flow = Raised e).
Proof.
  apply (test_mode_row world_ok dry_run sample_template 1 (row_at sample_table 1)
           (initial_state sample_table) (Str ""));
    first [reflexivity | vm_compute; discriminate].
Defined.

(** C10 as stated fails where a credential is not set: in test mode, for
    a row that is still to send and has a valid TO address, the send step
    raises before it gets to the preview; the status cell is not written,
    and the run ends without writing the table back. *)
Lemma test_mode_without_password :
  TEST_MODE dry_run = true
  /\ already_sent (status_of dry_run sample_table 0) = false
  /\ to_emails_of dry_run (row_at sample_table 0) = ["ann@example.com"]
  /\ send_personalized_email world_without_password dry_run sample_template
       (TEST_MODE dry_run) (row_at sample_table 0) (clk (initial_state sample_table))
     = (Raise "Email credentials not found. Please set EMAIL_SENDER and EMAIL_PASSWORD in .env file",
        [], clk (initial_state sample_table))
  /\ status_of dry_run
       (df (snd (loop_body world_without_password dry_run sample_template
                   (0, row_at sample_table 0) (initial_state sample_table)))) 0
     = NaN
  /\ effects (main world_without_password dry_run sample_template sample_table "yes") = []
  /\ saved (main world_without_password dry_run sample_template sample_table "yes") = None.
Proof. repeat split. Qed.

(** ** The template engine *)

Section TemplateFacts.

Lemma lookup_app_some p v (r ext : Replacements) :
  lookup p r = Some v -> lookup p (r ++ ext)%list = Some v.
Proof.
  induction r as [|[k x] r IH]; simpl; [discriminate|].
  destruct (String.eqb k p); auto.
Qed.

Lemma lookup_add_column p v r item :
  lookup p r = Some v -> lookup p (add_column r item) = Some v.
Proof.
  destruct item as [key value]. unfold add_column. intros H.
  destruct (lookup (placeholder_of key) r); [exact H|].
  now apply lookup_app_some.
Qed.

(** A standard replacement is never overridden by a column. *)
Lemma lookup_fold_add_column p v (row : Series) : forall r,
  lookup p r = Some v -> lookup p (fold_left add_column row r) = Some v.
Proof.
  induction row as [|item row IH]; intros r H; simpl; [exact H|].
  apply IH. now apply lookup_add_column.
Qed.

(** The columns only append placeholders, each with its two opening
    braces. *)
Lemma fold_add_column_shape (row : Series) : forall r,
  exists ext,
    fold_left add_column row r = (r ++ ext)%list
    /\ Forall (fun item => exists key, fst item = placeholder_of key) ext.
Proof.
  induction row as [|[key value] row IH]; intros r; cbn [fold_left].
  - exists []. now rewrite app_nil_r.
  - destruct (IH (add_column r (key, value))) as (ext & E & F). rewrite E.
    unfold add_column. destruct (lookup (placeholder_of key) r).
    + eauto.
    + eexists. rewrite <- app_assoc. split; [reflexivity|].
      constructor; [simpl; eauto | exact F].
Qed.

Lemma replace_from_no_brace old new s :
  PyStr.mem "{" s = false ->
  PyStr.replace_from (String "{" old) new 0 s = s.
Proof.
  induction s as [|c s IH]; [reflexivity|]. intros H.
  cbn [PyStr.mem] in H. apply orb_false_iff in H as [Hc Hs].
  cbn [PyStr.replace_from prefix].
  destruct (ascii_dec "{" c) as [<-|_].
  - rewrite Ascii.eqb_refl in Hc. discriminate.
  - now rewrite (IH Hs).
Qed.

Lemma replace_placeholder_no_brace key new s :
  PyStr.mem "{" s = false -> PyStr.replace (placeholder_of key) new s = s.
Proof. intros H. unfold placeholder_of. simpl. now apply replace_from_no_brace. Qed.

Lemma fold_replace_no_brace (ext : Replacements) s :
  Forall (fun item => exists key, fst item = placeholder_of key) ext ->
  PyStr.mem "{" s = false ->
  fold_left replace_one ext s = s.
Proof.
  intros F H. induction F as [|[p v] ext (key & E) _ IH]; simpl; [reflexivity|].
  simpl in E. subst p. unfold replace_one at 2. simpl fst. simpl snd.
  rewrite (replace_placeholder_no_brace key v s H). exact IH.
Qed.

Lemma mem_append c a b : PyStr.mem c (a ++ b) = PyStr.mem c a || PyStr.mem c b.
Proof.
  induction a as [|x a IH]; cbn [append PyStr.mem]; [reflexivity|].
  now rewrite IH, orb_assoc.
Qed.

End TemplateFacts.

(** C6, at an input where the code departs from it: the name, company
    and address cells are missing, and the built-in placeholders render
    the token "nan", while the placeholders of the very same columns
    ([{{FIRST_NAME}}], [{{TO}}]) render the empty text. *)
Theorem absent_builtins_render_nan :
  personalize_content may_14
    "Dear {{NAME}} ({{FIRST_NAME}}) of {{COMPANY}}, {{EMAIL}} ({{TO}})" absent_row
  = "Dear nan () of nan, nan ()".
Proof. reflexivity. Qed.

(** C9, as the code has it: the rendering depends on the clock only
    through the calendar date; two renderings of a template with the same
    row values on the same day are identical. *)
Theorem personalize_content_same_day :
  forall (d1 d2 : datetime) (template : string) (row : Series),
    year d1 = year d2 -> month d1 = month d2 -> day d1 = day d2 ->
    personalize_content d1 template row = personalize_content d2 template row.
Proof.
  intros d1 d2 template row Hy Hm Hd.
  unfold personalize_content, replacements_of, standard_replacements, strftime_date.
  now rewrite Hy, Hm, Hd.
Qed.

Lemma personalize_content_same_day_witness :
  personalize_content may_14 sample_template (row_at sample_table 0)
  = personalize_content may_14_evening sample_template (row_at sample_table 0).
Proof.
  apply (personalize_content_same_day may_14 may_14_evening sample_template
           (row_at sample_table 0)); reflexivity.
Defined.

(** C9 as stated fails: the same template with the same row values,
    rendered just before and just after midnight, gives two different
    texts. *)
Lemma personalize_content_across_midnight :
  personalize_content may_14_evening "Sent on {{DATE}}" (row_at sample_table 0)
  = "Sent on May 14, 2024"
  /\ personalize_content may_15 "Sent on {{DATE}}" (row_at sample_table 0)
     = "Sent on May 15, 2024".
Proof. split; reflexivity. Qed.

(** ** More on a turn of the loop *)

Section TurnShape.
Variables (w : World) (config : EmailConfig) (template : string).

(** The ways a processed row ends, with everything the turn changed: the
  send step raised and nothing changed; or it returned, the table, the
  counters and the effects were updated, and the turn goes on to the next
  row unless the sleep after it was refused. *)
Lemma process_row_inv index row st flow st' :
process_row w config template index row st = (flow, st') ->
(exists e, flow = Raised e /\ df st' = df st /\ trace st' = trace st
           /\ emails_sent_this_run st' = emails_sent_this_run st)
\/ (exists result events clk' delay,
      (flow = Next
       \/ exists e, flow = Raised e /\ delay = []
                    /\ time_sleep w (DELAY_BETWEEN_EMAILS config) = Some e)
      /\ send_personalized_email w config template (TEST_MODE config) row (clk st)
         = (Return result, events, clk')
      /\ df st'
         = (if PyStr.truthy (snd (unpack result))
            then at_set
                   (at_set (df st) index (col_status (COLUMNS config))
                      (Str (snd (fst (unpack result)))))
                   index (col_timestamp (COLUMNS config)) (Str (snd (unpack result)))
            else at_set (df st) index (col_status (COLUMNS config))
                   (Str (snd (fst (unpack result)))))
      /\ trace st' = (trace st ++ map (pair index) events ++ delay)%list
      /\ (delay = []
          \/ delay = [(index, Sleep (DELAY_BETWEEN_EMAILS config))]
             /\ (Z.of_nat (S (emails_sent_this_run st)) < MAX_EMAILS_PER_RUN config)%Z
             /\ (Z.of_nat index < Z.of_nat (nrows (df st)) - 1)%Z
             /\ time_sleep w (DELAY_BETWEEN_EMAILS config) = None)
      /\ emails_sent_this_run st' = S (emails_sent_this_run st)).
Proof.
intros E. unfold process_row in E.
pose proof (send_case w config template (TEST_MODE config) row (clk st)) as C.
destruct (send_personalized_email w config template (TEST_MODE config) row (clk st))
  as [[[e|result] events] clk'].
- left. simpl in C. inversion C; subst. inversion E; subst; simpl.
  exists e. rewrite app_nil_r. auto.
- right. exists result, events, clk'.
  destruct (unpack result) as [[success status_message] timestamp].
  match type of E with context [delay_step ?a ?b ?c ?d ?e] =>
    destruct (delay_step a b c d e) as [flow0 delay] eqn:DS
  end.
  inversion E; subst; clear E. cbn [fst snd df trace emails_sent_this_run].
  exists delay.
  destruct (delay_step_cases _ _ _ _ _ _ _ DS)
    as [(-> & -> & _) | [(-> & -> & Due & Sl) | (e & -> & -> & _ & Sl)]].
  + repeat split; auto.
  + repeat split; auto. right. split; [reflexivity|].
    unfold sleep_due in Due. apply andb_true_iff in Due as [B1 B2].
    apply Z.ltb_lt in B1. apply Z.ltb_lt in B2.
    split; [exact B1|]. split; [|exact Sl].
    destruct (PyStr.truthy timestamp); exact B2.
  + repeat split; eauto.
Qed.

(** When the turn of a processed row goes on to the next row, no sleep
  was due after it, or the sleep went through. *)
Lemma process_row_next_delay index row st st' :
process_row w config template index row st = (Next, st') ->
sleep_due config (S (emails_sent_this_run st)) index (df st) = false
\/ time_sleep w (DELAY_BETWEEN_EMAILS config) = None.
Proof.
intros E. unfold process_row in E.
destruct (send_personalized_email w config template (TEST_MODE config) row (clk st))
  as [[[e|result] events] clk']; [discriminate|].
destruct (unpack result) as [[success status_message] timestamp].
match type of E with context [delay_step ?a ?b ?c ?d ?e] =>
  destruct (delay_step a b c d e) as [flow0 delay] eqn:DS
end.
inversion E; subst; clear E.
destruct (delay_step_cases _ _ _ _ _ _ _ DS)
  as [(_ & _ & Due) | [(_ & _ & _ & Sl) | (e & N & _)]];
  [left | now right | discriminate].
unfold sleep_due in *. destruct (PyStr.truthy timestamp); exact Due.
Qed.

Lemma with_column_ext d label :
exists ext, with_column d label = (columns d ++ ext)%list.
Proof.
unfold with_column. destruct (has_column d label).
- exists []. now rewrite app_nil_r.
- eauto.
Qed.

(** A processed row keeps the number of rows and only appends columns. *)
Lemma process_row_shape index row st flow st' :
process_row w config template index row st = (flow, st') ->
nrows (df st') = nrows (df st)
/\ exists ext, columns (df st') = (columns (df st) ++ ext)%list.
Proof.
intros E. destruct (process_row_inv _ _ _ _ _ E)
  as [(e & _ & -> & _) | (result & events & clk' & delay & _ & _ & -> & _)].
- split; [reflexivity|]. exists []. now rewrite app_nil_r.
- destruct (PyStr.truthy (snd (unpack result))); simpl.
  + split; [reflexivity|].
    destruct (with_column_ext
                (at_set (df st) index (col_status (COLUMNS config))
                   (Str (snd (fst (unpack result)))))
                (col_timestamp (COLUMNS config))) as (e2 & ->).
    simpl. destruct (with_column_ext (df st) (col_status (COLUMNS config))) as (e1 & ->).
    exists (e1 ++ e2)%list. now rewrite app_assoc.
  + split; [reflexivity|]. apply with_column_ext.
Qed.

(** A processed row writes to the status and timestamp columns only. *)
Lemma process_row_other_columns index row st flow st' k c :
process_row w config template index row st = (flow, st') ->
c <> col_status (COLUMNS config) -> c <> col_timestamp (COLUMNS config) ->
cells (df st') k c = cells (df st) k c.
Proof.
intros E Hs Ht. destruct (process_row_inv _ _ _ _ _ E)
  as [(e & _ & -> & _) | (result & events & clk' & delay & _ & _ & -> & _)];
  [reflexivity|].
destruct (PyStr.truthy (snd (unpack result)));
  now rewrite ?cells_at_set_other_column by assumption.
Qed.

(** What the send step reports is never blank. *)
Lemma strip_head_nonblank c s : PyStr.isspace c = false -> PyStr.strip (String c s) <> "".
Proof.
intros H. unfold PyStr.strip. cbn [PyStr.lstrip]. rewrite H.
rewrite (rstrip_keeps_head _ _ H). discriminate.
Qed.

Lemma already_sent_head c s : PyStr.isspace c = false -> already_sent (Str (String c s)) = true.
Proof.
intros H. unfold already_sent. cbn [isna negb str andb].
pose proof (strip_head_nonblank c s H) as N.
destruct (PyStr.strip (String c s)); [congruence | reflexivity].
Qed.

Lemma already_sent_timestamp d : already_sent (Str (strftime_timestamp d)) = true.
Proof.
unfold strftime_timestamp, decimal.
destruct (Nat.to_uint (year d)); cbn [NilEmpty.string_of_uint append];
  now apply already_sent_head.
Qed.

Lemma SendCase_already_sent out events result :
SendCase out events -> out = Return result ->
already_sent (Str (snd (fst (unpack result)))) = true
/\ (PyStr.truthy (snd (unpack result)) = true ->
    already_sent (Str (snd (unpack result))) = true).
Proof.
destruct 1; intros E; inversion E; subst; cbn [unpack fst snd];
  try (split; [reflexivity | discriminate]).
- split; [reflexivity | intros _; apply already_sent_timestamp].
- split; [now apply already_sent_head | discriminate].
Qed.

(** A processed row is passed over by every later run. *)
Lemma process_row_marks index row st st' :
process_row w config template index row st = (Next, st') ->
already_sent (status_of config (df st') index) = true.
Proof.
intros E. destruct (process_row_inv _ _ _ _ _ E)
  as [(e & D & _) | (result & events & clk' & delay & _ & S & -> & _)];
  [discriminate|].
pose proof (send_case w config template (TEST_MODE config) row (clk st)) as C.
rewrite S in C. cbn [fst snd] in C.
destruct (SendCase_already_sent _ _ _ C eq_refl) as [A1 A2].
unfold status_of.
destruct (PyStr.truthy (snd (unpack result))) eqn:T.
- destruct (String.eqb_spec (col_status (COLUMNS config)) (col_timestamp (COLUMNS config)))
    as [Q|Q].
  + rewrite <- Q. rewrite cells_at_set_same. now apply A2.
  + rewrite cells_at_set_other_column by exact Q. now rewrite cells_at_set_same.
- now rewrite cells_at_set_same.
Qed.

End TurnShape.

(** ** More on the loop and the run *)

Section RunShape.
Variables (w : World) (config : EmailConfig) (template : string).

Lemma smtp_sessions_app a b : smtp_sessions (a ++ b) = (smtp_sessions a ++ smtp_sessions b)%list.
Proof. apply filter_app. Qed.

Lemma sleeps_app a b : sleeps (a ++ b) = (sleeps a ++ sleeps b)%list.
Proof. apply filter_app. Qed.

(** In test mode the send step opens no SMTP session. *)
Lemma send_test_mode_no_session row clk0 :
filter is_smtp (snd (fst (send_personalized_email w config template true row clk0))) = [].
Proof.
unfold send_personalized_email.
destruct (smtp_port w); [|reflexivity].
destruct (env_unset (EMAIL_SENDER w) || env_unset (EMAIL_PASSWORD w)); [reflexivity|].
destruct (fst (parse_email_list (series_get row (col_to (COLUMNS config)) (Str ""))));
  [reflexivity|].
destruct (global_attachments w config); reflexivity.
Qed.

Lemma smtp_sessions_tagged index events :
filter is_smtp events = [] -> smtp_sessions (map (pair index) events) = [].
Proof.
unfold smtp_sessions. induction events as [|e events IH]; simpl; [reflexivity|].
destruct (is_smtp e); [discriminate | exact IH].
Qed.

Lemma loop_body_no_session item st flow st' :
TEST_MODE config = true ->
smtp_sessions (trace st) = [] ->
loop_body w config template item st = (flow, st') ->
smtp_sessions (trace st') = [].
Proof.
destruct item as [index row]. intros Ht H E.
destruct (loop_body_cases w config template index row st)
  as [[_ B] | [(v & _ & _ & B) | [(v & _ & _ & _ & B) | (v & _ & _ & _ & B)]]];
  rewrite B in E; try (inversion E; subst; exact H).
destruct (process_row_inv _ _ _ _ _ _ _ _ E)
  as [(e & _ & _ & -> & _) | (result & events & clk' & delay & _ & S & _ & -> & D & _)];
  [exact H|].
rewrite !smtp_sessions_app, H. simpl.
pose proof (send_test_mode_no_session row (clk st)) as N.
rewrite Ht in S. rewrite S in N. cbn [fst snd] in N.
rewrite (smtp_sessions_tagged index events N).
destruct D as [-> | [-> _]]; reflexivity.
Qed.

(** Every column of the loaded table is a column of the prepared one, in
  the same place. *)
Lemma columns_prepared loaded :
exists ext, columns (prepared config loaded) = (columns loaded ++ ext)%list.
Proof.
unfold prepared. generalize (optional_columns config). intros labels.
revert loaded. induction labels as [|l labels IH]; intros d; simpl.
- exists []. now rewrite app_nil_r.
- destruct (IH (add_optional_column d l)) as (e2 & ->).
  unfold add_optional_column. destruct (has_column d l) eqn:H; [eauto|].
  simpl. unfold with_column. rewrite H.
  exists ([l] ++ e2)%list. now rewrite app_assoc.
Qed.

(** The shape of the table in the loop state: as many rows as [d], and the
  columns of [d] first. *)
Lemma loop_body_shape d item st flow st' :
nrows (df st) = nrows d /\ (exists ext, columns (df st) = (columns d ++ ext)%list) ->
loop_body w config template item st = (flow, st') ->
nrows (df st') = nrows d /\ (exists ext, columns (df st') = (columns d ++ ext)%list).
Proof.
destruct item as [index row]. intros [H1 (e1 & H2)] E.
destruct (loop_body_cases w config template index row st)
  as [[_ B] | [(v & _ & _ & B) | [(v & _ & _ & _ & B) | (v & _ & _ & _ & B)]]];
  rewrite B in E; try (inversion E; subst; eauto).
destruct (process_row_shape _ _ _ _ _ _ _ _ E) as [S1 (e2 & S2)].
split; [congruence|]. rewrite S2, H2. exists (e1 ++ e2)%list. now rewrite app_assoc.
Qed.

Lemma loop_body_other_columns d c item st flow st' :
c <> col_status (COLUMNS config) -> c <> col_timestamp (COLUMNS config) ->
(forall k, cells (df st) k c = cells d k c) ->
loop_body w config template item st = (flow, st') ->
forall k, cells (df st') k c = cells d k c.
Proof.
destruct item as [index row]. intros Hs Ht H E.
destruct (loop_body_cases w config template index row st)
  as [[_ B] | [(v & _ & _ & B) | [(v & _ & _ & _ & B) | (v & _ & _ & _ & B)]]];
  rewrite B in E; try (inversion E; subst; exact H).
intros k. rewrite (process_row_other_columns _ _ _ _ _ _ _ _ k c E Hs Ht). apply H.
Qed.

End RunShape.

Section RunOrder.
Variables (w : World) (config : EmailConfig) (template : string).

Lemma sleeps_tagged index events out :
SendCase out events -> sleeps (map (pair index) events) = [].
Proof. destruct 1; reflexivity. Qed.

Lemma loop_body_sleeps d item st flow st' :
sleeps_in_order config d st ->
loop_body w config template item st = (flow, st') ->
sleeps_in_order config d st'.
Proof.
destruct item as [index row]. intros (H1 & H2 & H3 & H4) E.
destruct (loop_body_cases w config template index row st)
  as [[_ B] | [(v & _ & _ & B) | [(v & _ & _ & _ & B) | (v & _ & _ & _ & B)]]];
  rewrite B in E;
  try (inversion E; subst; exact (conj H1 (conj H2 (conj H3 H4)))).
destruct (process_row_shape _ _ _ _ _ _ _ _ E) as [N _].
destruct (process_row_inv _ _ _ _ _ _ _ _ E)
  as [(e & _ & _ & T & S) | (result & events & clk' & delay & _ & S & _ & T & D & S1)].
{ unfold sleeps_in_order. rewrite T, S, N. exact (conj H1 (conj H2 (conj H3 H4))). }
pose proof (send_case w config template (TEST_MODE config) row (clk st)) as C.
rewrite S in C. cbn [fst snd] in C.
pose proof (sleeps_tagged index events _ C) as Z0.
unfold sleeps_in_order. rewrite T, S1, N, !sleeps_app, Z0. cbn [app].
destruct D as [-> | (-> & D1 & D2)]; cbn [sleeps filter snd is_sleep].
- rewrite app_nil_r. exact (conj H1 (conj H2 (conj (Nat.le_trans _ _ _ H3 (Nat.le_succ_diag_r _)) H4))).
- split; [exact H1|]. split; [|split].
  + intros i e Hin. apply in_app_or in Hin as [Hin | [Hin | []]]; [now apply H2|].
    inversion Hin; subst. split; [reflexivity | lia].
  + rewrite length_app. simpl. lia.
  + right. rewrite length_app. simpl. lia.
Qed.

Lemma for_rows_sleeps d rows st flow st' :
sleeps_in_order config d st ->
for_rows w config template rows st = (flow, st') ->
sleeps_in_order config d st'.
Proof.
apply (for_rows_invariant w config template (sleeps_in_order config d)).
intros item s f s' _. apply loop_body_sleeps.
Qed.

Lemma pending_split d a k :
a < k ->
filter (to_send config d) (seq a (k - a))
= ((if to_send config d a then [a] else [])
     ++ filter (to_send config d) (seq (S a) (k - S a)))%list.
Proof.
intros H. replace (k - a) with (S (k - S a)) by lia. cbn [seq filter].
now destruct (to_send config d a).
Qed.

(** Which rows a loop that does not raise processes: those still to send
  that come while the cap is not reached. The others are left as they
  are. *)
Lemma for_rows_processed d :
has_column d (col_status (COLUMNS config)) = true ->
forall n a st flow st',
  for_rows w config template (map (fun k => (k, row_at d k)) (seq a n)) st = (flow, st') ->
  (forall e, flow <> Raised e) ->
  (forall c, has_column d c = true -> has_column (df st) c = true) ->
  (forall c, has_column d c = true -> has_column (df st') c = true)
  /\ forall k,
       (k < a \/ a + n <= k ->
        forall c, has_column d c = true -> cells (df st') k c = cells (df st) k c)
       /\ (a <= k < a + n -> to_send config d k = true ->
           (Z.of_nat (emails_sent_this_run st
                      + List.length (filter (to_send config d) (seq a (k - a))))
            < MAX_EMAILS_PER_RUN config)%Z ->
           already_sent (status_of config (df st') k) = true)
       /\ (a <= k < a + n ->
           to_send config d k = false
           \/ (MAX_EMAILS_PER_RUN config
               <= Z.of_nat (emails_sent_this_run st
                            + List.length (filter (to_send config d) (seq a (k - a)))))%Z ->
           forall c, has_column d c = true -> cells (df st') k c = cells (df st) k c).
Proof.
intros Hc. induction n as [|n IH]; intros a st flow st' E Hflow Hcols.
{ simpl in E. inversion E; subst. split; [exact Hcols|].
  intros k. repeat split; auto; lia. }
cbn [seq map for_rows] in E.
destruct (loop_body_cases w config template a (row_at d a) st)
  as [[G _] | [(v & G & A & B) | [(v & G & A & Hle & B) | (v & G & A & Hlt & B)]]];
  rewrite (series_getitem_row_at d a _ Hc) in G; try discriminate;
  inversion G; subst v; clear G.
- (* the row is passed over *)
  rewrite B in E. destruct (IH (S a) st flow st' E Hflow Hcols) as [I0 I].
  split; [exact I0|]. intros k. destruct (I k) as (I1 & I2 & I3).
  assert (Ta : to_send config d a = false) by (unfold to_send, status_of; now rewrite A).
  split; [|split].
  + intros Hk. apply I1. lia.
  + intros Hk Tk Hcap. destruct (Nat.eq_dec k a) as [->|Hne]; [congruence|].
    apply I2; [lia | exact Tk|].
    rewrite pending_split, Ta in Hcap by lia. exact Hcap.
  + intros Hk Hor. destruct (Nat.eq_dec k a) as [->|Hne]; [apply I1; lia|].
    apply I3; [lia|]. rewrite pending_split, Ta in Hor by lia. exact Hor.
- (* the cap is reached *)
  rewrite B in E. inversion E; subst. split; [exact Hcols|].
  intros k. repeat split; auto. intros Hk _ Hcap. lia.
- (* the row is processed *)
  rewrite B in E.
  destruct (process_row w config template a (row_at d a) st) as [f1 st1] eqn:P.
  destruct (process_row_counters _ _ _ _ _ _ _ _ P)
    as [[-> S1] | [(e & -> & _) | (e & -> & _)]].
  2,3: inversion E; subst; now contradiction (Hflow e).
  assert (Hcols1 : forall c, has_column d c = true -> has_column (df st1) c = true).
  { intros c H. apply (process_row_frame _ _ _ _ _ _ _ _ P c (Hcols c H)). }
  assert (Frame : forall k c, k <> a -> has_column d c = true ->
                              cells (df st1) k c = cells (df st) k c).
  { intros k c Hk H.
    destruct (process_row_frame _ _ _ _ _ _ _ _ P c (Hcols c H)) as [_ F]. now apply F. }
  destruct (IH (S a) st1 flow st' E Hflow Hcols1) as [I0 I].
  split; [exact I0|]. intros k. destruct (I k) as (I1 & I2 & I3).
  assert (Ta : to_send config d a = true) by (unfold to_send, status_of; now rewrite A).
  split; [|split].
  + intros Hk c H. rewrite I1 by (auto; lia). apply Frame; [lia | exact H].
  + intros Hk Tk Hcap. destruct (Nat.eq_dec k a) as [->|Hne].
    * unfold status_of. rewrite I1 by (auto; lia).
      exact (process_row_marks _ _ _ _ _ _ _ P).
    * apply I2; [lia | exact Tk|].
      rewrite pending_split, Ta in Hcap by lia. rewrite S1.
      rewrite length_app in Hcap. simpl in Hcap.
      replace (S (emails_sent_this_run st)
               + List.length (filter (to_send config d) (seq (S a) (k - S a))))
        with (emails_sent_this_run st
              + S (List.length (filter (to_send config d) (seq (S a) (k - S a)))))
        by lia.
      exact Hcap.
  + intros Hk Hor c H. destruct (Nat.eq_dec k a) as [->|Hne].
    * exfalso. destruct Hor as [Hor|Hor]; [congruence|].
      rewrite Nat.sub_diag in Hor. simpl in Hor. lia.
    * rewrite I3; [apply Frame; [exact Hne | exact H] | lia | | exact H].
      rewrite pending_split, Ta in Hor by lia. rewrite S1.
      rewrite length_app in Hor. simpl in Hor.
      destruct Hor as [Hor|Hor]; [now left | right]. lia.
Qed.

Lemma to_send_prepared loaded k :
has_column loaded (col_status (COLUMNS config)) = true ->
to_send config (prepared config loaded) k = to_send config loaded k.
Proof.
intros H. unfold to_send, status_of.
destruct (prepared_keeps config loaded _ H) as [_ K]. now rewrite K.
Qed.

Lemma pending_before_prepared loaded k :
has_column loaded (col_status (COLUMNS config)) = true ->
pending_before config (prepared config loaded) k = pending_before config loaded k.
Proof.
intros H. unfold pending_before. f_equal. apply filter_ext.
intros i. now apply to_send_prepared.
Qed.

(** The rows a run that writes the table back has processed. *)
Lemma run_processed loaded answer written :
has_column loaded (col_status (COLUMNS config)) = true ->
saved (main w config template loaded answer) = Some written ->
(forall c, has_column loaded c = true -> has_column written c = true)
/\ nrows written = nrows loaded
/\ forall k, k < nrows loaded ->
     (to_send config loaded k = true ->
      (Z.of_nat (pending_before config loaded k) < MAX_EMAILS_PER_RUN config)%Z ->
      already_sent (status_of config written k) = true)
     /\ (to_send config loaded k = false
         \/ (MAX_EMAILS_PER_RUN config <= Z.of_nat (pending_before config loaded k))%Z ->
         forall c, has_column loaded c = true -> cells written k c = cells loaded k c).
Proof.
intros Hs E.
destruct (main_cases w config template loaded answer)
  as [N | (Hc & flow & st & L & _ & S)]; [rewrite N in E; discriminate|].
destruct S as [[_ S] | [Hflow S]]; rewrite S in E; inversion E; subst; clear E.
set (d := prepared config loaded) in *.
assert (K : forall c, has_column loaded c = true ->
                      has_column d c = true /\ forall i, cells d i c = cells loaded i c)
  by (intros c; apply prepared_keeps).
pose proof L as L'. unfold iterrows in L'.
destruct (for_rows_processed d Hc _ 0 _ _ _ L' Hflow) as [I0 I]; [auto|].
split; [intros c H; apply I0; now apply K|]. split.
{ assert (Sh : nrows (df st) = nrows d
               /\ exists ext, columns (df st) = (columns d ++ ext)%list).
  { apply (for_rows_invariant w config template
             (fun s => nrows (df s) = nrows d
                       /\ exists ext, columns (df s) = (columns d ++ ext)%list)
             (iterrows d)) with (st := initial_state d) (flow := flow); [| |exact L].
    - intros item s f s' _. apply loop_body_shape.
    - split; [reflexivity|]. exists []. now rewrite app_nil_r. }
  destruct Sh as [-> _]. apply nrows_prepared. }
intros k Hk. destruct (I k) as (_ & I2 & I3).
assert (Hk' : 0 <= k < 0 + nrows d) by (unfold d; rewrite nrows_prepared; lia).
cbn [initial_state emails_sent_this_run plus] in I2, I3. rewrite Nat.sub_0_r in I2, I3.
fold (pending_before config d k) in I2, I3.
unfold d in I2, I3. rewrite pending_before_prepared, to_send_prepared in I2, I3 by exact Hs.
split.
- intros T Hcap. now apply I2.
- intros Hor c H. rewrite (I3 Hk' Hor c (proj1 (K c H))). simpl. apply K, H.
Qed.

End RunOrder.

(** ** Properties of a whole run *)

Section RunStart.
Variables (w : World) (config : EmailConfig) (template : string).

(** A row that [main] reports as pending is still to send for the loop. *)
Lemma pending_emails_to_send d :
pending_emails config d <> 0 ->
exists k, k < nrows d /\ to_send config d k = true.
Proof.
unfold pending_emails. intros H.
destruct (filter _ (seq 0 (nrows d))) as [|k l] eqn:F; [now contradiction H|].
assert (Hin : In k (k :: l)) by now left.
rewrite <- F in Hin. apply filter_In in Hin as [Hk P].
apply in_seq in Hk. exists k. split; [lia|].
unfold to_send, status_of.
destruct (cells d k (col_status (COLUMNS config))) as [|[|c s]]; try reflexivity.
discriminate.
Qed.

(** A run that gets to the loop has a row to send. *)
Lemma main_started loaded answer :
main w config template loaded answer = nothing_done
\/ (has_column (prepared config loaded) (col_status (COLUMNS config)) = true
    /\ (exists k, k < nrows (prepared config loaded)
                  /\ to_send config (prepared config loaded) k = true)
    /\ (TEST_MODE config = true \/ says_yes answer = true)).
Proof.
unfold main.
destruct (missing_columns config loaded); [|now left].
destruct (has_column (prepared config loaded) (col_status (COLUMNS config))) eqn:Hc;
  [|now left].
simpl negb. cbv iota.
destruct (pending_emails config (prepared config loaded) =? 0)%nat eqn:P; [now left|].
destruct (negb (TEST_MODE config) && negb (says_yes answer)) eqn:C; [now left|].
right. split; [reflexivity|]. split.
- apply pending_emails_to_send. now apply Nat.eqb_neq.
- destruct (TEST_MODE config); [now left|]. right.
  simpl in C. now apply negb_false_iff in C.
Qed.

(** Where the environment is not in order and the cap is positive, the
  loop goes over the rows already sent and raises at the first one that
  is still to send. *)
Lemma for_rows_bad_environment rows :
environment_ok w = false ->
(0 < MAX_EMAILS_PER_RUN config)%Z ->
forall st flow st',
  emails_sent_this_run st = 0 ->
  for_rows w config template rows st = (flow, st') ->
  trace st' = trace st
  /\ flow <> Break
  /\ (flow = Next ->
      forall index row, In (index, row) rows ->
        exists v, series_getitem row (col_status (COLUMNS config)) = Some v
                  /\ already_sent v = true).
Proof.
intros Henv Hcap. induction rows as [|[index row] rows IH]; intros st flow st' S E.
{ simpl in E. inversion E; subst.
  split; [reflexivity|]. split; [discriminate|]. intros _ i r []. }
cbn [for_rows] in E.
destruct (loop_body_cases w config template index row st)
  as [[_ B] | [(v & G & A & B) | [(v & _ & _ & Hle & _) | (v & _ & _ & _ & B)]]].
- rewrite B in E. inversion E; subst.
  split; [reflexivity|]. split; discriminate.
- rewrite B in E. destruct (IH _ _ _ S E) as (T & Nb & N).
  split; [exact T|]. split; [exact Nb|].
  intros F i r [Hin|Hin]; [inversion Hin; subst; eauto | exact (N F i r Hin)].
- rewrite S in Hle. simpl in Hle. lia.
- rewrite B in E. unfold process_row in E.
  destruct (send_without_environment w config template (TEST_MODE config) row (clk st) Henv)
    as (e & Q).
  rewrite Q in E. inversion E; subst. cbn [trace map]. rewrite app_nil_r.
  split; [reflexivity|]. split; discriminate.
Qed.

(** A table whose rows are all already sent has no pending row. *)
Lemma all_sent_nothing_done d answer :
has_column d (col_status (COLUMNS config)) = true ->
(forall k, k < nrows d -> already_sent (status_of config d k) = true) ->
main w config template d answer = nothing_done.
Proof.
intros Hs H. unfold main.
destruct (missing_columns config d); [|reflexivity].
destruct (prepared_keeps config d _ Hs) as [Hc K]. rewrite Hc. simpl negb. cbv iota.
assert (P : pending_emails config (prepared config d) = 0).
{ unfold pending_emails. rewrite nrows_prepared.
  destruct (filter _ (seq 0 (nrows d))) as [|k l] eqn:F; [reflexivity|].
  assert (Hin : In k (k :: l)) by now left.
  rewrite <- F in Hin. apply filter_In in Hin as [Hk Q].
  apply in_seq in Hk. rewrite K in Q.
  specialize (H k ltac:(lia)). unfold status_of in H.
  destruct (cells d k (col_status (COLUMNS config))) as [|[|c s]]; discriminate. }
now rewrite P.
Qed.

Lemma pending_before_lt loaded k n :
k < n -> to_send config loaded k = true ->
pending_before config loaded k < pending_before config loaded n.
Proof.
intros Hk T. unfold pending_before.
replace n with (k + S (n - S k)) by lia.
rewrite seq_app, filter_app, length_app. cbn [seq filter plus]. rewrite T. simpl. lia.
Qed.

End RunStart.

(** X1: in test mode a run opens no SMTP session, whatever the table, the
    environment and the answer of the operator. *)
Theorem test_mode_opens_no_session :
  forall (w : World) (config : EmailConfig) (template : string)
         (loaded : DataFrame) (answer : string),
    TEST_MODE config = true ->
    smtp_sessions (effects (main w config template loaded answer)) = [].
Proof.
  intros w config template loaded answer Ht.
  destruct (main_cases w config template loaded answer)
    as [-> | (_ & flow & st & L & -> & _)]; [reflexivity|].
  apply (for_rows_invariant w config template
           (fun s => smtp_sessions (trace s) = [])
           (iterrows (prepared config loaded)))
    with (st := initial_state (prepared config loaded)) (flow := flow);
    [| reflexivity | exact L].
  intros item s f s' _ H E. exact (loop_body_no_session w config template item s f s' Ht H E).
Qed.

Lemma test_mode_opens_no_session_witness :
  smtp_sessions (effects (main world_ok dry_run sample_template sample_table "")) = [].
Proof.
  apply (test_mode_opens_no_session world_ok dry_run sample_template sample_table "").
  reflexivity.
Defined.

(** X2: a run writes to the status and timestamp columns only: in the
    table written back, every cell of any other loaded column is the
    loaded one, in every row. *)
Theorem run_writes_status_and_timestamp_only :
  forall (w : World) (config : EmailConfig) (template : string)
         (loaded : DataFrame) (answer : string) (written : DataFrame)
         (k : nat) (c : string),
    saved (main w config template loaded answer) = Some written ->
    has_column loaded c = true ->
    c <> col_status (COLUMNS config) ->
    c <> col_timestamp (COLUMNS config) ->
    cells written k c = cells loaded k c.
Proof.
  intros w config template loaded answer written k c E Hc Hs Ht.
  destruct (main_cases w config template loaded answer)
    as [N | (_ & flow & st & L & _ & S)]; [rewrite N in E; discriminate|].
  destruct S as [[_ S] | [_ S]]; rewrite S in E; inversion E; subst; clear E.
  destruct (prepared_keeps config loaded c Hc) as [_ K]. rewrite <- K.
  revert k.
  apply (for_rows_invariant w config template
           (fun s => forall k, cells (df s) k c = cells (prepared config loaded) k c)
           (iterrows (prepared config loaded)))
    with (st := initial_state (prepared config loaded)) (flow := flow);
    [| reflexivity | exact L].
  intros item s f s' _ H B.
  exact (loop_body_other_columns w config template _ c item s f s' Hs Ht H B).
Qed.

Lemma run_writes_status_and_timestamp_only_witness :
  cells sample_written 1 "To" = cells sample_table 1 "To".
Proof.
  apply (run_writes_status_and_timestamp_only world_ok default_config sample_template
           sample_table "yes" sample_written 1 "To");
    first [reflexivity | vm_compute; discriminate].
Defined.

(** X3: the table written back has as many rows as the loaded one, and
    its columns are the loaded columns, in their order, followed by the
    columns the run added. *)
Theorem run_keeps_shape :
  forall (w : World) (config : EmailConfig) (template : string)
         (loaded : DataFrame) (answer : string) (written : DataFrame),
    saved (main w config template loaded answer) = Some written ->
    nrows written = nrows loaded
    /\ exists added, columns written = (columns loaded ++ added)%list.
Proof.
  intros w config template loaded answer written E.
  destruct (main_cases w config template loaded answer)
    as [N | (_ & flow & st & L & _ & S)]; [rewrite N in E; discriminate|].
  destruct S as [[_ S] | [_ S]]; rewrite S in E; inversion E; subst; clear E.
  assert (Sh : nrows (df st) = nrows (prepared config loaded)
               /\ exists ext, columns (df st) = (columns (prepared config loaded) ++ ext)%list).
  { apply (for_rows_invariant w config template
             (fun s => nrows (df s) = nrows (prepared config loaded)
                       /\ exists ext,
                            columns (df s) = (columns (prepared config loaded) ++ ext)%list)
             (iterrows (prepared config loaded)))
      with (st := initial_state (prepared config loaded)) (flow := flow); [| |exact L].
    - intros item s f s' _. apply loop_body_shape.
    - split; [reflexivity|]. exists []. now rewrite app_nil_r. }
  destruct Sh as [S1 (e2 & S2)]. split; [now rewrite S1, nrows_prepared|].
  destruct (columns_prepared config loaded) as (e1 & P).
  rewrite S2, P. exists (e1 ++ e2)%list. now rewrite app_assoc.
Qed.

Lemma run_keeps_shape_witness :
  nrows sample_written = nrows sample_table
  /\ exists added, columns sample_written = (columns sample_table ++ added)%list.
Proof.
  apply (run_keeps_shape world_ok default_config sample_template sample_table "yes"
           sample_written).
  reflexivity.
Defined.

(** X4: a run that writes the table back has processed exactly the rows
    still to send that have fewer rows still to send before them than the
    cap: each of these ends with a status that later runs pass over, and
    every other row has all its loaded cells unchanged. *)
Theorem run_processes_first_pending :
  forall (w : World) (config : EmailConfig) (template : string)
         (loaded : DataFrame) (answer : string) (written : DataFrame) (k : nat),
    has_column loaded (col_status (COLUMNS config)) = true ->
    saved (main w config template loaded answer) = Some written ->
    k < nrows loaded ->
    (to_send config loaded k = true ->
     (Z.of_nat (pending_before config loaded k) < MAX_EMAILS_PER_RUN config)%Z ->
     already_sent (status_of config written k) = true)
    /\ (to_send config loaded k = false
        \/ (MAX_EMAILS_PER_RUN config <= Z.of_nat (pending_before config loaded k))%Z ->
        forall c, has_column loaded c = true -> cells written k c = cells loaded k c).
Proof.
  intros w config template loaded answer written k Hs E Hk.
  destruct (run_processed w config template loaded answer written Hs E) as (_ & _ & R).
  now apply R.
Qed.

Lemma run_processes_first_pending_witness :
  (to_send cap_of_one sample_table 0 = true ->
   (Z.of_nat (pending_before cap_of_one sample_table 0) < MAX_EMAILS_PER_RUN cap_of_one)%Z ->
   already_sent
     (status_of cap_of_one
        (df (snd (for_rows world_ok cap_of_one sample_template
                    (iterrows (prepared cap_of_one sample_table))
                    (initial_state (prepared cap_of_one sample_table))))) 0) = true)
  /\ (to_send cap_of_one sample_table 0 = false
      \/ (MAX_EMAILS_PER_RUN cap_of_one <= Z.of_nat (pending_before cap_of_one sample_table 0))%Z ->
      forall c, has_column sample_table c = true ->
        cells (df (snd (for_rows world_ok cap_of_one sample_template
                          (iterrows (prepared cap_of_one sample_table))
                          (initial_state (prepared cap_of_one sample_table))))) 0 c
        = cells sample_table 0 c).
Proof.
  apply (run_processes_first_pending world_ok cap_of_one sample_template sample_table "yes");
    first [reflexivity | simpl; lia].
Defined.

(** X5: re-running is safe. After a run that wrote the table back and had
    a cap at least as large as the number of rows still to send, a second
    run over the written table, in any environment and with any template
    and answer, finds nothing to send and does nothing. *)
Theorem second_run_does_nothing :
  forall (w : World) (config : EmailConfig) (template : string)
         (loaded : DataFrame) (answer : string) (written : DataFrame),
    has_column loaded (col_status (COLUMNS config)) = true ->
    saved (main w config template loaded answer) = Some written ->
    (Z.of_nat (pending_before config loaded (nrows loaded)) <= MAX_EMAILS_PER_RUN config)%Z ->
    forall (w' : World) (template' answer' : string),
      main w' config template' written answer' = nothing_done.
Proof.
  intros w config template loaded answer written Hs E Hcap w' template' answer'.
  destruct (run_processed w config template loaded answer written Hs E) as (C & N & R).
  apply all_sent_nothing_done; [now apply C|].
  intros k Hk. rewrite N in Hk. destruct (R k Hk) as [R1 R2].
  destruct (to_send config loaded k) eqn:T.
  - apply R1; [reflexivity|].
    pose proof (pending_before_lt config loaded k (nrows loaded) Hk T). lia.
  - unfold status_of. rewrite (R2 (or_introl eq_refl) _ Hs).
    unfold to_send in T. now apply negb_false_iff in T.
Qed.

Lemma second_run_does_nothing_witness :
  main world_ok default_config sample_template sample_written "yes" = nothing_done.
Proof.
  apply (second_run_does_nothing world_ok default_config sample_template sample_table "yes"
           sample_written);
    first [reflexivity | simpl; lia].
Defined.

(** X6: where the environment is not in order (the port is not a number
    or a credential is not set) and the cap is positive, a run delivers
    nothing and does not write the table back. *)
Theorem bad_environment_aborts :
  forall (w : World) (config : EmailConfig) (template : string)
         (loaded : DataFrame) (answer : string),
    environment_ok w = false ->
    (0 < MAX_EMAILS_PER_RUN config)%Z ->
    saved (main w config template loaded answer) = None
    /\ effects (main w config template loaded answer) = [].
Proof.
  intros w config template loaded answer Henv Hcap.
  destruct (main_started w config template loaded answer)
    as [-> | (Hc & (k & Hk & T) & _)]; [now split|].
  destruct (main_cases w config template loaded answer)
    as [-> | (_ & flow & st & L & -> & S)]; [now split|].
  destruct (for_rows_bad_environment w config template _ Henv Hcap
              (initial_state (prepared config loaded)) flow st eq_refl L)
    as (Tr & Nb & Nx).
  split; [|exact Tr].
  destruct S as [[_ S] | [Hflow _]]; [exact S|]. exfalso.
  destruct flow as [| |e]; [| now apply Nb | now apply (Hflow e)].
  destruct (Nx eq_refl k (row_at (prepared config loaded) k)) as (v & G & A).
  { unfold iterrows. apply in_map_iff. exists k. split; [reflexivity|].
    apply in_seq. lia. }
  rewrite (series_getitem_row_at _ k _ Hc) in G. inversion G; subst.
  unfold to_send, status_of in T. rewrite A in T. discriminate.
Qed.

Lemma bad_environment_aborts_witness :
  saved (main world_without_password default_config sample_template sample_table "yes") = None
  /\ effects (main world_without_password default_config sample_template sample_table "yes") = [].
Proof.
  apply (bad_environment_aborts world_without_password default_config sample_template
           sample_table "yes"); reflexivity.
Defined.

(** X7: a run sleeps only after a row that is not the last of the table,
    each time for the configured delay, and, when it sleeps at all, fewer
    times than the cap. *)
Theorem sleeps_between_rows :
  forall (w : World) (config : EmailConfig) (template : string)
         (loaded : DataFrame) (answer : string),
    (forall i e, In (i, e) (sleeps (effects (main w config template loaded answer))) ->
       e = Sleep (DELAY_BETWEEN_EMAILS config) /\ i + 1 < nrows loaded)
    /\ (sleeps (effects (main w config template loaded answer)) = []
        \/ (Z.of_nat (List.length (sleeps (effects (main w config template loaded answer))))
            < MAX_EMAILS_PER_RUN config)%Z).
Proof.
  intros w config template loaded answer.
  destruct (main_cases w config template loaded answer)
    as [-> | (_ & flow & st & L & -> & _)].
  { split; [intros i e [] | now left]. }
  assert (I : sleeps_in_order config (prepared config loaded) st).
  { eapply for_rows_sleeps; [|exact L].
    unfold sleeps_in_order. simpl.
    split; [reflexivity|]. split; [intros i e []|]. split; [lia | now left]. }
  destruct I as (_ & I2 & _ & I4). rewrite nrows_prepared in I2. now split.
Qed.

(** X8: when the table lacks a column that the configuration names, other
    than one named BCC, Attachments or Custom Subject, the run does
    nothing: no effect on the outside, and the table is not written
    back. *)
Theorem missing_required_column :
  forall (w : World) (config : EmailConfig) (template : string)
         (loaded : DataFrame) (answer : string) (c : string),
    In c (column_values (COLUMNS config)) ->
    has_column loaded c = false ->
    c <> "BCC" -> c <> "Attachments" -> c <> "Custom Subject" ->
    main w config template loaded answer = nothing_done.
Proof.
  intros w config template loaded answer c Hin Hc H1 H2 H3.
  unfold main.
  destruct (missing_columns config loaded) as [|m l] eqn:M; [|reflexivity].
  exfalso.
  assert (F : In c (missing_columns config loaded)).
  { unfold missing_columns. apply filter_In. split; [exact Hin|].
    rewrite Hc. apply String.eqb_neq in H1, H2, H3. now rewrite H1, H2, H3. }
  rewrite M in F. exact F.
Qed.

Lemma missing_required_column_witness :
  main world_ok default_config sample_template table_without_status "yes" = nothing_done.
Proof.
  apply (missing_required_column world_ok default_config sample_template
           table_without_status "yes" "Email Status");
    first [reflexivity | vm_compute; discriminate | vm_compute; tauto].
Defined.

(** ** More on the address parser *)

Section AddressFacts.

Lemma all_impl (p q : ascii -> bool) s :
(forall c, p c = true -> q c = true) -> PyStr.all p s = true -> PyStr.all q s = true.
Proof.
intros H. induction s as [|c s IH]; simpl; [reflexivity|]. intros A.
apply andb_true_iff in A as [A1 A2]. now rewrite (H c A1), IH.
Qed.

Lemma rfc5322_light_chars e : rfc5322_light e -> PyStr.all address_char e = true.
Proof.
intros (loc & dom & tld & -> & _ & Hloc & _ & Hdom & _ & Htld).
rewrite all_append. cbn [append PyStr.all]. rewrite all_append. cbn [append PyStr.all].
rewrite (all_impl local_char address_char loc), (all_impl domain_char address_char dom),
  (all_impl letter address_char tld); try assumption; try reflexivity.
- intros c H. unfold address_char, local_char, alnum. now rewrite H.
- intros c H. unfold address_char. rewrite H. now rewrite orb_true_r.
- intros c H. unfold address_char. now rewrite H.
Qed.

Lemma all_address_no_comma e : PyStr.all address_char e = true -> PyStr.mem "," e = false.
Proof.
induction e as [|c e IH]; [reflexivity|]. cbn [PyStr.all PyStr.mem]. intros A.
apply andb_true_iff in A as [A1 A2]. rewrite (IH A2), orb_false_r.
destruct (Ascii.eqb_spec "," c) as [<-|]; [discriminate | reflexivity].
Qed.

(** What an address of the returned list is like. *)
Lemma parsed_address v e :
In e (fst (parse_email_list v)) ->
validate_email e = true /\ PyStr.strip e = e /\ PyStr.all address_char e = true.
Proof.
rewrite parse_email_list_valid. intros H. apply filter_In in H as [Hin V].
pose proof (In_entries_stripped v e Hin) as S. repeat split; try assumption.
apply rfc5322_light_chars. apply validate_email_spec in V. now rewrite S in V.
Qed.

Lemma split_nonempty sep s : PyStr.split sep s <> [].
Proof.
destruct s as [|c s]; cbn [PyStr.split]; [discriminate|].
destruct (Ascii.eqb c sep); [discriminate|]. now destruct (PyStr.split sep s).
Qed.

Lemma split_no_comma s : PyStr.mem "," s = false -> PyStr.split "," s = [s].
Proof.
induction s as [|c s IH]; [reflexivity|]. cbn [PyStr.split PyStr.mem]. intros H.
apply orb_false_iff in H as [Hc Hs]. rewrite Ascii.eqb_sym in Hc.
now rewrite Hc, (IH Hs).
Qed.

Lemma split_app_comma a rest :
PyStr.mem "," a = false ->
PyStr.split "," (a ++ String "," rest) = a :: PyStr.split "," rest.
Proof.
induction a as [|c a IH]; cbn [append PyStr.split PyStr.mem].
{ intros _. now rewrite Ascii.eqb_refl. }
intros H.
apply orb_false_iff in H as [Hc Hs]. rewrite Ascii.eqb_sym in Hc.
now rewrite Hc, (IH Hs).
Qed.

Lemma strip_split_space x :
map PyStr.strip (PyStr.split "," (String " " x)) = map PyStr.strip (PyStr.split "," x).
Proof.
cbn [PyStr.split]. change (Ascii.eqb " " ",") with false. cbv iota.
destruct (PyStr.split "," x) as [|w ws] eqn:E; [now apply split_nonempty in E|].
reflexivity.
Qed.

(** Joining trimmed, comma-free texts with [", "] and taking the trimmed
  entries of the result gives the texts back. *)
Lemma entries_of_join l :
l <> [] ->
Forall (fun e => PyStr.strip e = e /\ PyStr.mem "," e = false) l ->
entries_of (Str (PyStr.join ", " l)) = l.
Proof.
unfold entries_of, PyStr.join. cbn [str]. intros Hne F.
induction F as [|e l [He Hc] F IH]; [congruence|]. clear Hne.
destruct l as [|e' l].
- cbn [String.concat]. rewrite (split_no_comma e Hc). simpl. now rewrite He.
- cbn [String.concat]. cbn [String.concat] in IH.
  change (e ++ ", " ++ ?x) with (e ++ String "," (String " " x)).
  rewrite (split_app_comma e _ Hc). cbn [map]. rewrite He, strip_split_space.
  f_equal. apply IH. discriminate.
Qed.

Lemma filter_all (A : Type) (f : A -> bool) l :
Forall (fun x => f x = true) l -> filter f l = l.
Proof. induction 1 as [|x l H _ IH]; simpl; [reflexivity|]. now rewrite H, IH. Qed.

Lemma filter_none (A : Type) (f : A -> bool) l :
Forall (fun x => f x = false) l -> filter f l = [].
Proof. induction 1 as [|x l H _ IH]; simpl; [reflexivity|]. now rewrite H, IH. Qed.

Lemma filter_partition_length (A : Type) (f g : A -> bool) l :
(forall x, f x = true -> g x = true) ->
List.length (filter f l) + List.length (filter (fun x => g x && negb (f x)) l)
= List.length (filter g l).
Proof.
intros H. induction l as [|x l IH]; simpl; [reflexivity|].
destruct (f x) eqn:F.
- rewrite (H x F). simpl. now rewrite IH.
- rewrite andb_true_r. destruct (g x); simpl; rewrite <- IH; lia.
Qed.

End AddressFacts.

(** X9: every address that [parse_email_list] returns is made of letters,
    digits and the characters [. _ % + - @] only; in particular it holds
    no blank, no comma and no line break. *)
Theorem parsed_addresses_are_clean :
  forall email_string : cell,
    forallb (PyStr.all address_char) (fst (parse_email_list email_string)) = true
    /\ forallb (fun e => negb (PyStr.mem "," e) && negb (PyStr.mem " " e)
                         && negb (PyStr.mem "010" e) && negb (PyStr.mem "013" e))
         (fst (parse_email_list email_string)) = true.
Proof.
  intros v. split; apply forallb_forall; intros e H;
    destruct (parsed_address v e H) as (_ & _ & A); [exact A|].
  clear H. induction e as [|c e IH]; [reflexivity|].
  cbn [PyStr.all] in A. apply andb_true_iff in A as [A1 A2].
  specialize (IH A2). cbn [PyStr.mem].
  apply andb_true_iff in IH as [IH I4]. apply andb_true_iff in IH as [IH I3].
  apply andb_true_iff in IH as [I1 I2].
  apply negb_true_iff in I1, I2, I3, I4. rewrite I1, I2, I3, I4, !orb_false_r.
  destruct (Ascii.eqb_spec "," c) as [<-|]; [discriminate|].
  destruct (Ascii.eqb_spec " " c) as [<-|]; [discriminate|].
  destruct (Ascii.eqb_spec "010" c) as [<-|]; [discriminate|].
  destruct (Ascii.eqb_spec "013" c) as [<-|]; [discriminate|].
  reflexivity.
Qed.

(** X10: parsing round-trips through the header text. The returned list,
    joined with [", "] as the To and Cc headers are, parses to the same
    list with nothing to warn about. *)
Theorem parse_email_list_round_trip :
  forall email_string : cell,
    parse_email_list (Str (PyStr.join ", " (fst (parse_email_list email_string))))
    = (fst (parse_email_list email_string), []).
Proof.
  intros v. generalize (parsed_address v). generalize (fst (parse_email_list v)).
  intros l0 PA.
  assert (G : Forall (fun e => validate_email e = true /\ PyStr.strip e = e
                                /\ PyStr.all address_char e = true) l0).
  { apply Forall_forall. intros e H. now apply PA. }
  clear PA. destruct l0 as [|e l]; [reflexivity|].
  assert (En : entries_of (Str (PyStr.join ", " (e :: l))) = e :: l).
  { apply entries_of_join; [discriminate|].
    eapply Forall_impl; [|exact G]. intros x (_ & S & A).
    split; [exact S | now apply all_address_no_comma]. }
  assert (P : isna (Str (PyStr.join ", " (e :: l)))
              || negb (PyStr.truthy (PyStr.strip (str (Str (PyStr.join ", " (e :: l))))))
              = false).
  { cbn [isna str orb]. apply negb_false_iff.
    destruct (PyStr.strip (PyStr.join ", " (e :: l))) eqn:B; [|reflexivity].
    exfalso. unfold entries_of in En. cbn [str] in En.
    rewrite (split_blank _ (strip_nil_all _ B)) in En. cbn [map] in En.
    rewrite B in En. inversion En; subst.
    inversion G as [|? ? (V & _) _]. discriminate. }
  rewrite (parse_email_list_present _ P), En.
  rewrite filter_all, filter_none; [reflexivity | |].
  - eapply Forall_impl; [|exact G]. intros x (V & _). now rewrite V, andb_false_r.
  - eapply Forall_impl; [|exact G]. now intros x (V & _).
Qed.

(** X11: no entry is dropped in silence. For a text that is present and
    not blank, the returned addresses and the addresses named in the
    warning are, together, as many as the entries that are not blank, and
    each address named in the warning is a non-blank entry that
    [validate_email] rejects. *)
Theorem parse_email_list_accounts_for_entries :
  forall email_string : cell,
    isna email_string || negb (PyStr.truthy (PyStr.strip (str email_string))) = false ->
    List.length (fst (parse_email_list email_string))
    + List.length (snd (parse_email_list email_string))
    = List.length (filter PyStr.truthy (entries_of email_string))
    /\ forall e, In e (snd (parse_email_list email_string)) ->
         In e (entries_of email_string) /\ e <> "" /\ validate_email e = false.
Proof.
  intros v H. rewrite (parse_email_list_present v H). cbn [fst snd]. split.
  - apply filter_partition_length. apply validate_email_truthy.
  - intros e Hin. apply filter_In in Hin as [Hin P].
    apply andb_true_iff in P as [P1 P2]. apply negb_true_iff in P2.
    repeat split; try assumption. intros ->. discriminate.
Qed.

Lemma parse_email_list_accounts_for_entries_witness :
  List.length (fst (parse_email_list (Str "jane@x.com, bad-email,,bob@y.org")))
  + List.length (snd (parse_email_list (Str "jane@x.com, bad-email,,bob@y.org")))
  = List.length (filter PyStr.truthy (entries_of (Str "jane@x.com, bad-email,,bob@y.org")))
  /\ forall e, In e (snd (parse_email_list (Str "jane@x.com, bad-email,,bob@y.org"))) ->
       In e (entries_of (Str "jane@x.com, bad-email,,bob@y.org"))
       /\ e <> "" /\ validate_email e = false.
Proof.
  apply (parse_email_list_accounts_for_entries (Str "jane@x.com, bad-email,,bob@y.org")).
  reflexivity.
Defined.

(** ** More on the template engine *)

Section PlaceholderFacts.

Lemma standard_placeholders today row :
Forall (fun item => exists key, fst item = placeholder_of key)
  (standard_replacements today row).
Proof.
unfold standard_replacements. repeat constructor; cbn [fst].
- now exists "NAME".
- now exists "DATE".
- now exists "COMPANY".
- now exists "EMAIL".
Qed.

Lemma replacements_placeholders today row :
Forall (fun item => exists key, fst item = placeholder_of key)
  (replacements_of today row).
Proof.
unfold replacements_of.
destruct (fold_add_column_shape row (standard_replacements today row)) as (ext & -> & F).
apply Forall_app. split; [apply standard_placeholders | exact F].
Qed.

Lemma lookup_app_none p (r ext : Replacements) :
lookup p r = None -> lookup p (r ++ ext)%list = lookup p ext.
Proof.
induction r as [|[k x] r IH]; simpl; [reflexivity|].
destruct (String.eqb k p); [discriminate | exact IH].
Qed.

(** The replacement of a placeholder after the columns of a row have been
  added: the one that was there, or else the rendering of the first
  column with that placeholder. *)
Lemma lookup_fold_add_column_first p (row : Series) : forall r,
lookup p (fold_left add_column row r)
= match lookup p r with
  | Some v => Some v
  | None => option_map render_value (first_column p row)
  end.
Proof.
induction row as [|[key value] row IH]; intros r; cbn [fold_left first_column].
{ now destruct (lookup p r). }
rewrite IH. unfold add_column.
destruct (lookup (placeholder_of key) r) as [x|] eqn:K.
- destruct (lookup p r) as [v|] eqn:P; [reflexivity|].
  destruct (String.eqb_spec (placeholder_of key) p) as [Q|Q]; [congruence | reflexivity].
- destruct (lookup p r) as [v|] eqn:P.
  + now rewrite (lookup_app_some p v r _ P).
  + rewrite (lookup_app_none p r _ P). cbn [lookup].
    destruct (String.eqb (placeholder_of key) p); reflexivity.
Qed.

Lemma prefix_nil s : prefix "" s = true.
Proof. now destruct s. Qed.

Lemma upper_char_not_lower c : lower_letter (PyStr.upper_char c) = false.
Proof. destruct c as [[] [] [] [] [] [] [] []]; reflexivity. Qed.

Lemma upper_not_lower s : PyStr.all (fun c => negb (lower_letter c)) (PyStr.upper s) = true.
Proof.
induction s as [|c s IH]; cbn [PyStr.upper PyStr.all]; [reflexivity|].
now rewrite upper_char_not_lower, IH.
Qed.

(** Replacing the blanks by underscores leaves no blank, and no
  lower-case letter that was not there. *)
Lemma replace_blank s :
PyStr.mem " " (PyStr.replace " " "_" s) = false
/\ (PyStr.all (fun c => negb (lower_letter c)) s = true ->
    PyStr.all (fun c => negb (lower_letter c)) (PyStr.replace " " "_" s) = true).
Proof.
unfold PyStr.replace.
induction s as [|c s [IH1 IH2]]; [now split|].
cbn [PyStr.replace_from prefix String.length Nat.sub].
destruct (ascii_dec " " c) as [<-|N].
- rewrite prefix_nil. cbn [append PyStr.mem PyStr.all]. split.
  + exact IH1.
  + intros A. apply andb_true_iff in A as [_ A]. now rewrite (IH2 A).
- cbn [PyStr.mem PyStr.all]. split.
  + rewrite IH1, orb_false_r. now apply Ascii.eqb_neq.
  + intros A. apply andb_true_iff in A as [A1 A2]. now rewrite A1, (IH2 A2).
Qed.

End PlaceholderFacts.

(** X12: a template without an opening brace is rendered as it is, for
    every row and every date. *)
Theorem plain_template_unchanged :
  forall (today : datetime) (template : string) (row : Series),
    PyStr.mem "{" template = false ->
    personalize_content today template row = template.
Proof.
  intros today template row H. unfold personalize_content.
  apply fold_replace_no_brace; [apply replacements_placeholders | exact H].
Qed.

Lemma plain_template_unchanged_witness :
  personalize_content may_14 "<p>Hello, see you soon.</p>" crowded_row
  = "<p>Hello, see you soon.</p>".
Proof.
  apply (plain_template_unchanged may_14 "<p>Hello, see you soon.</p>" crowded_row).
  reflexivity.
Defined.

(** X13: no column of the row can override a built-in placeholder:
    [{{NAME}}] always stands for the text of the [First Name] cell,
    [{{COMPANY}}] for that of the [Company] cell and [{{DATE}}] for the
    date of the day, also when the row has columns named Name, Company or
    Date. *)
Theorem builtin_placeholders_win :
  forall (today : datetime) (row : Series),
    lookup "{{NAME}}" (replacements_of today row)
    = Some (str (series_get row "First Name" (Str "")))
    /\ lookup "{{DATE}}" (replacements_of today row) = Some (strftime_date today)
    /\ lookup "{{COMPANY}}" (replacements_of today row)
       = Some (str (series_get row "Company" (Str ""))).
Proof.
  intros today row. unfold replacements_of.
  repeat split; now apply lookup_fold_add_column.
Qed.

(** X14: a placeholder that is not built in stands for the value of the
    first column, in column order, whose name gives that placeholder, a
    missing value counting as the empty text; it has no replacement when
    no column gives it. *)
Theorem column_placeholder_is_first_column :
  forall (today : datetime) (row : Series) (p : string),
    lookup p (standard_replacements today row) = None ->
    lookup p (replacements_of today row) = option_map render_value (first_column p row).
Proof.
  intros today row p H. unfold replacements_of.
  now rewrite lookup_fold_add_column_first, H.
Qed.

Lemma column_placeholder_is_first_column_witness :
  lookup "{{ORDER_ID}}" (replacements_of may_14 crowded_row)
  = option_map render_value (first_column "{{ORDER_ID}}" crowded_row).
Proof.
  apply (column_placeholder_is_first_column may_14 crowded_row "{{ORDER_ID}}").
  reflexivity.
Defined.

(** X15: the placeholder of a column name holds no blank and no
    lower-case letter, so that a template has to spell it in upper case
    with underscores. *)
Theorem placeholder_is_upper_case :
  forall key : string,
    PyStr.mem " " (placeholder_of key) = false
    /\ PyStr.all (fun c => negb (lower_letter c)) (placeholder_of key) = true.
Proof.
  intros key. unfold placeholder_of.
  destruct (replace_blank (PyStr.upper key)) as [R1 R2].
  specialize (R2 (upper_not_lower key)).
  cbn [append]. cbn [PyStr.mem PyStr.all]. rewrite mem_append, all_append, R1, R2.
  split; reflexivity.
Qed.

(** ** More on what a run sends *)

Section EnvelopeFacts.
Variables (w : World) (config : EmailConfig) (template : string).

Lemma address_char_one_line e : PyStr.all address_char e = true -> one_line e = true.
Proof.
unfold one_line. induction e as [|c e IH]; [reflexivity|].
cbn [PyStr.all PyStr.mem]. intros A. apply andb_true_iff in A as [A1 A2].
specialize (IH A2). apply andb_true_iff in IH as [I1 I2].
apply negb_true_iff in I1, I2. rewrite I1, I2, !orb_false_r.
destruct (Ascii.eqb_spec "010" c) as [<-|]; [discriminate|].
destruct (Ascii.eqb_spec "013" c) as [<-|]; [discriminate|]. reflexivity.
Qed.

Lemma one_line_append a b : one_line (a ++ b) = one_line a && one_line b.
Proof.
unfold one_line. rewrite !mem_append, !negb_orb.
destruct (PyStr.mem "010" a), (PyStr.mem "013" a), (PyStr.mem "010" b),
  (PyStr.mem "013" b); reflexivity.
Qed.

Lemma one_line_join l :
Forall (fun e => PyStr.all address_char e = true) l ->
one_line (PyStr.join ", " l) = true.
Proof.
unfold PyStr.join. induction 1 as [|e l He F IH]; [reflexivity|].
destruct l as [|e' l]; cbn [String.concat]; [now apply address_char_one_line|].
rewrite !one_line_append, (address_char_one_line e He). cbn [String.concat] in IH.
now rewrite IH.
Qed.

Lemma parsed_clean v :
Forall (fun e => PyStr.all address_char e = true) (fst (parse_email_list v)).
Proof. apply Forall_forall. intros e H. now apply (parsed_address v e). Qed.

(** The effects of the send step have clean headers and a valid
  envelope. *)
Lemma send_effects_clean test_mode row clk0 :
forallb (fun e => headers_on_one_line e && envelope_is_valid e)
  (snd (fst (send_personalized_email w config template test_mode row clk0))) = true.
Proof.
unfold send_personalized_email.
destruct (smtp_port w); [|reflexivity].
destruct (env_unset (EMAIL_SENDER w) || env_unset (EMAIL_PASSWORD w)); [reflexivity|].
pose proof (parsed_clean (series_get row (col_to (COLUMNS config)) (Str ""))) as Cto.
pose proof (parsed_clean (series_get row (col_cc (COLUMNS config)) (Str ""))) as Ccc.
pose proof (parsed_clean (series_get row (col_bcc (COLUMNS config)) (Str ""))) as Cbcc.
destruct (fst (parse_email_list (series_get row (col_to (COLUMNS config)) (Str ""))))
  as [|t ts] eqn:T; [reflexivity|].
destruct (global_attachments w config); [|reflexivity].
assert (H : headers_on_one_line
              (Preview
                 (build_message w config template row (t :: ts)
                    (fst (parse_email_list (series_get row (col_cc (COLUMNS config)) (Str ""))))
                    clk0 l)) = true).
{ cbn [headers_on_one_line build_message msg_to msg_cc].
  rewrite (one_line_join _ Cto).
  destruct (fst (parse_email_list (series_get row (col_cc (COLUMNS config)) (Str ""))));
    [reflexivity | now rewrite (one_line_join _ Ccc)]. }
assert (V : forallb (PyStr.all address_char)
              ((t :: ts)
                 ++ fst (parse_email_list (series_get row (col_cc (COLUMNS config)) (Str "")))
                 ++ fst (parse_email_list (series_get row (col_bcc (COLUMNS config)) (Str ""))))
            = true).
{ apply forallb_forall. apply Forall_forall.
  apply Forall_app. split; [exact Cto|]. apply Forall_app. now split. }
destruct test_mode.
- cbn [snd fst forallb envelope_is_valid]. now rewrite H.
- case_smtp; cbn [snd fst forallb]; cbn [headers_on_one_line] in H |- *;
    rewrite H; cbn [envelope_is_valid app]; cbn [app] in V; now rewrite V.
Qed.

Lemma forallb_tagged (f : Event -> bool) index events :
forallb (fun x : nat * Event => f (snd x)) (map (pair index) events) = forallb f events.
Proof. induction events as [|e events IH]; simpl; [reflexivity | now rewrite IH]. Qed.

Lemma process_row_clean index row st flow st' :
forallb (fun x => headers_on_one_line (snd x) && envelope_is_valid (snd x)) (trace st) = true ->
process_row w config template index row st = (flow, st') ->
forallb (fun x => headers_on_one_line (snd x) && envelope_is_valid (snd x)) (trace st') = true.
Proof.
intros H E.
destruct (process_row_inv _ _ _ _ _ _ _ _ E)
  as [(e & _ & _ & -> & _) | (result & events & clk' & delay & _ & S & _ & -> & D & _)];
  [exact H|].
rewrite !forallb_app, H. cbn [andb].
pose proof (send_effects_clean (TEST_MODE config) row (clk st)) as C.
rewrite S in C. cbn [fst snd] in C.
rewrite (forallb_tagged (fun e => headers_on_one_line e && envelope_is_valid e)), C.
destruct D as [-> | [-> _]]; reflexivity.
Qed.

Lemma for_rows_clean rows st flow st' :
forallb (fun x => headers_on_one_line (snd x) && envelope_is_valid (snd x)) (trace st) = true ->
for_rows w config template rows st = (flow, st') ->
forallb (fun x => headers_on_one_line (snd x) && envelope_is_valid (snd x)) (trace st') = true.
Proof.
apply (for_rows_invariant w config template
         (fun s => forallb (fun x => headers_on_one_line (snd x) && envelope_is_valid (snd x))
                     (trace s) = true)).
intros [index row] s f s' _ H E.
destruct (loop_body_cases w config template index row s)
  as [[_ B] | [(v & _ & _ & B) | [(v & _ & _ & _ & B) | (v & _ & _ & _ & B)]]];
  rewrite B in E; try (inversion E; subst; exact H).
exact (process_row_clean _ _ _ _ _ H E).
Qed.

(** The deliveries of a loop over the rows from position [a] on come in
  the order of the rows, each row at most once. *)
Lemma for_rows_in_order d : forall n a st flow st',
for_rows w config template (map (fun k => (k, row_at d k)) (seq a n)) st = (flow, st') ->
exists new,
  trace st' = (trace st ++ new)%list
  /\ Forall (fun x => a <= fst x) new
  /\ StronglySorted lt (map fst (deliveries new)).
Proof.
induction n as [|n IH]; intros a st flow st' E.
{ simpl in E. inversion E; subst. exists []. rewrite app_nil_r.
  repeat constructor. }
cbn [seq map for_rows] in E.
assert (Z0 : exists new, trace st = (trace st ++ new)%list
                         /\ Forall (fun x => a <= fst x) new
                         /\ StronglySorted lt (map fst (deliveries new))).
{ exists []. rewrite app_nil_r. repeat constructor. }
destruct (loop_body_cases w config template a (row_at d a) st)
  as [[_ B] | [(v & _ & _ & B) | [(v & _ & _ & _ & B) | (v & _ & _ & _ & B)]]];
  rewrite B in E.
- inversion E; subst. exact Z0.
- destruct (IH (S a) _ _ _ E) as (new & T & F & So). exists new.
  split; [exact T|]. split; [|exact So].
  eapply Forall_impl; [|exact F]. intros x Hx. simpl in Hx. lia.
- inversion E; subst. exact Z0.
- destruct (process_row w config template a (row_at d a) st) as [f1 st1] eqn:P.
  destruct (process_row_trace _ _ _ _ _ _ _ _ P) as (n1 & T1 & F1 & D1 & _).
  assert (G1 : Forall (fun x => a <= fst x) n1)
    by (eapply Forall_impl; [|exact F1]; intros x Hx; simpl in Hx; lia).
  assert (S1 : forall l, Forall (fun x => S a <= fst x) l ->
                 StronglySorted lt (map fst (deliveries l)) ->
                 StronglySorted lt (map fst (deliveries (n1 ++ l)))).
  { intros l Fl Sl. rewrite deliveries_app, map_app.
    assert (Fd : Forall (fun x => fst x = a) (deliveries n1)).
    { unfold deliveries. apply Forall_forall. intros x Hx.
      apply filter_In in Hx as [Hx _]. revert x Hx. now apply Forall_forall. }
    destruct (deliveries n1) as [|x [|y r]]; [exact Sl | | simpl in D1; lia].
    cbn [map app]. constructor; [exact Sl|].
    apply Forall_inv in Fd. rewrite Fd.
    apply Forall_forall. intros i Hi. apply in_map_iff in Hi as (z & <- & Hz).
    unfold deliveries in Hz. apply filter_In in Hz as [Hz _].
    assert (Q := proj1 (Forall_forall _ _) Fl z Hz). simpl in Q. lia. }
  destruct f1 as [| |e].
  + destruct (IH (S a) _ _ _ E) as (new & T & F & So).
    exists (n1 ++ new)%list. rewrite T, T1, app_assoc. split; [reflexivity|].
    split; [|now apply S1].
    apply Forall_app. split; [exact G1|].
    eapply Forall_impl; [|exact F]. intros x Hx. simpl in Hx. lia.
  + inversion E; subst. exists n1. split; [exact T1|]. split; [exact G1|].
    rewrite <- (app_nil_r n1). apply S1; constructor.
  + inversion E; subst. exists n1. split; [exact T1|]. split; [exact G1|].
    rewrite <- (app_nil_r n1). apply S1; constructor.
Qed.

End EnvelopeFacts.

(** X16: the deliveries of a run come in the order of the rows of the
    table, and no row is delivered twice: the row positions of the
    deliveries are strictly increasing. *)
Theorem deliveries_in_table_order :
  forall (w : World) (config : EmailConfig) (template : string)
         (loaded : DataFrame) (answer : string),
    StronglySorted lt (map fst (deliveries (effects (main w config template loaded answer)))).
Proof.
  intros w config template loaded answer.
  destruct (main_cases w config template loaded answer)
    as [-> | (_ & flow & st & L & -> & _)]; [constructor|].
  unfold iterrows in L.
  destruct (for_rows_in_order w config template _ _ _ _ _ _ L) as (new & T & _ & So).
  simpl in T. now subst new.
Qed.

(** X17: whatever the cells of the table hold, the To and Cc headers of
    every message that a run previews or sends hold no line break. *)
Theorem recipient_headers_on_one_line :
  forall (w : World) (config : EmailConfig) (template : string)
         (loaded : DataFrame) (answer : string),
    forallb (fun x => headers_on_one_line (snd x))
      (effects (main w config template loaded answer)) = true.
Proof.
  intros w config template loaded answer.
  destruct (main_cases w config template loaded answer)
    as [-> | (_ & flow & st & L & -> & _)]; [reflexivity|].
  pose proof (for_rows_clean w config template _
                (initial_state (prepared config loaded)) flow st eq_refl L) as C.
  apply forallb_forall. intros x Hx.
  apply (proj1 (forallb_forall _ _) C) in Hx. now apply andb_true_iff in Hx as [Hx _].
Qed.

(** X18: every SMTP session that a run opens has at least one recipient
    in its envelope, and every recipient of the envelope (TO, CC and BCC)
    is made of the characters of the address pattern only. *)
Theorem smtp_envelopes_are_valid :
  forall (w : World) (config : EmailConfig) (template : string)
         (loaded : DataFrame) (answer : string),
    forallb (fun x => envelope_is_valid (snd x))
      (effects (main w config template loaded answer)) = true.
Proof.
  intros w config template loaded answer.
  destruct (main_cases w config template loaded answer)
    as [-> | (_ & flow & st & L & -> & _)]; [reflexivity|].
  pose proof (for_rows_clean w config template _
                (initial_state (prepared config loaded)) flow st eq_refl L) as C.
  apply forallb_forall. intros x Hx.
  apply (proj1 (forallb_forall _ _) C) in Hx. now apply andb_true_iff in Hx as [_ Hx].
Qed.

(** ** The files of the working directory *)

Section FileFacts.

Lemma write_file_same fs path content : write_file fs path content path = Some (File content).
Proof. unfold write_file. now rewrite String.eqb_refl. Qed.

Lemma write_file_other fs path content q :
q <> path -> write_file fs path content q = fs q.
Proof. intros H. unfold write_file. apply String.eqb_neq in H. now rewrite H. Qed.

Lemma exists_on_write_file fs path content q :
exists_on fs q = true -> exists_on (write_file fs path content) q = true.
Proof. unfold exists_on, write_file. now destruct (String.eqb q path). Qed.

Lemma exists_on_makedirs fs path q :
exists_on fs q = true -> exists_on (makedirs fs path) q = true.
Proof. unfold exists_on, makedirs. now destruct (String.eqb q path). Qed.

(** Once the three sample paths exist, [create_sample_files] changes
  nothing. *)
Lemma create_sample_files_settled fs :
exists_on fs ".env" = true -> exists_on fs "email_config.json" = true ->
exists_on fs "attachments" = true ->
create_sample_files fs = fs.
Proof.
intros H1 H2 H3. unfold create_sample_files.
rewrite H1. cbn [negb]. rewrite H2. cbn [negb]. now rewrite H3.
Qed.

Lemma create_sample_files_exist fs :
exists_on (create_sample_files fs) ".env" = true
/\ exists_on (create_sample_files fs) "email_config.json" = true
/\ exists_on (create_sample_files fs) "attachments" = true.
Proof.
unfold create_sample_files.
set (fs1 := if negb (exists_on fs ".env") then write_file fs ".env" sample_env else fs).
assert (E1 : exists_on fs1 ".env" = true).
{ unfold fs1. destruct (exists_on fs ".env") eqn:E; [exact E | reflexivity]. }
set (fs2 := if negb (exists_on fs1 "email_config.json")
            then write_file fs1 "email_config.json" sample_config_json else fs1).
assert (E2 : exists_on fs2 ".env" = true /\ exists_on fs2 "email_config.json" = true).
{ unfold fs2. destruct (exists_on fs1 "email_config.json") eqn:E; cbn [negb];
    [now split | split; [now apply exists_on_write_file | reflexivity]]. }
destruct E2 as [E2 E3].
destruct (exists_on fs2 "attachments") eqn:E; cbn [negb]; [now repeat split|].
repeat split.
- now apply exists_on_write_file, exists_on_makedirs.
- now apply exists_on_write_file, exists_on_makedirs.
Qed.

Lemma universal_newlines_no_cr s : PyStr.mem "013" (universal_newlines s) = false.
Proof.
induction s as [|c s IH]; [reflexivity|]. cbn [universal_newlines].
destruct (Ascii.eqb_spec c "013") as [->|N].
- destruct s as [|d s]; [reflexivity|].
  destruct (Ascii.eqb_spec d "010") as [->|Nd].
  + exact IH.
  + assert (E : match d with
                | "010"%char => universal_newlines (String d s)
                | _ => String "010" (universal_newlines (String d s))
                end = String "010" (universal_newlines (String d s))).
    { destruct d as [[] [] [] [] [] [] [] []]; try reflexivity. now contradiction Nd. }
    rewrite E. cbn [PyStr.mem]. rewrite IH. reflexivity.
- cbn [PyStr.mem]. rewrite IH, orb_false_r. apply Ascii.eqb_neq. congruence.
Qed.

Lemma universal_newlines_plain s :
PyStr.mem "013" s = false -> universal_newlines s = s.
Proof.
induction s as [|c s IH]; [reflexivity|]. cbn [PyStr.mem universal_newlines]. intros H.
apply orb_false_iff in H as [Hc Hs]. rewrite Ascii.eqb_sym in Hc.
now rewrite Hc, (IH Hs).
Qed.

Lemma default_template_plain : PyStr.mem "013" default_template = false.
Proof. vm_compute. reflexivity. Qed.

Lemma folder_missing fs path :
folder_of path <> "" -> exists_on fs (folder_of path) = false -> can_create fs path = false.
Proof.
unfold can_create, exists_on. intros N E.
destruct (folder_of path) as [|c f]; [congruence|].
destruct (fs (String c f)); [discriminate|]. apply andb_false_r.
Qed.

End FileFacts.

(** X19: [read_email_template] touches no other path, never changes the
    file when the path names one, and leaves the working directory as it
    is when it raises. The template it returns holds no carriage return,
    and once it has returned a template the file holds it: reading again
    returns the same template and changes nothing. Where neither the
    file nor its folder exists, it raises instead of creating the default
    template. *)
Theorem read_email_template_settles :
  forall (template_path : string) (fs : FileSystem),
    (forall q, q <> template_path -> snd (read_email_template template_path fs) q = fs q)
    /\ (exists_on fs template_path = true ->
        snd (read_email_template template_path fs) = fs)
    /\ (fst (read_email_template template_path fs) = None ->
        snd (read_email_template template_path fs) = fs)
    /\ (forall template,
          fst (read_email_template template_path fs) = Some template ->
          PyStr.mem "013" template = false
          /\ read_email_template template_path (snd (read_email_template template_path fs))
             = (Some template, snd (read_email_template template_path fs)))
    /\ (exists_on fs template_path = false ->
        folder_of template_path <> "" ->
        exists_on fs (folder_of template_path) = false ->
        read_email_template template_path fs = (None, fs)).
Proof.
  intros path fs. split; [|split; [|split; [|split]]].
  - intros q Hq. unfold read_email_template.
    destruct (fs path) as [[c| |]|]; cbn [snd]; try reflexivity.
    destruct (can_create fs path); cbn [snd]; [|reflexivity].
    now apply write_file_other.
  - unfold read_email_template, exists_on.
    destruct (fs path) as [[c| |]|]; cbn [snd]; try reflexivity. discriminate.
  - unfold read_email_template.
    destruct (fs path) as [[c| |]|]; cbn [fst snd]; try reflexivity.
    destruct (can_create fs path); cbn [fst snd]; [discriminate | reflexivity].
  - intros template. unfold read_email_template.
    destruct (fs path) as [[c| |]|] eqn:E; cbn [fst snd]; try discriminate.
    + intros H; inversion H; subst. split; [apply universal_newlines_no_cr|].
      now rewrite E.
    + destruct (can_create fs path); cbn [fst snd]; [|discriminate].
      intros H; inversion H; subst. split; [exact default_template_plain|].
      rewrite write_file_same.
      now rewrite (universal_newlines_plain _ default_template_plain).
  - intros E N F. unfold read_email_template. unfold exists_on in E.
    destruct (fs path); [discriminate|].
    now rewrite (folder_missing fs path N F).
Qed.

(** X20: [create_sample_files] never overwrites or removes what is in the
    working directory (given that a [README.txt] inside [attachments] can
    only be there when [attachments] is); after it the [.env] file, the
    configuration file and the attachments folder exist; and running it a
    second time changes nothing. *)
Theorem create_sample_files_is_safe :
  forall fs : FileSystem,
    (exists_on fs "attachments/README.txt" = true -> exists_on fs "attachments" = true) ->
    (forall p, exists_on fs p = true -> create_sample_files fs p = fs p)
    /\ exists_on (create_sample_files fs) ".env" = true
    /\ exists_on (create_sample_files fs) "email_config.json" = true
    /\ exists_on (create_sample_files fs) "attachments" = true
    /\ create_sample_files (create_sample_files fs) = create_sample_files fs.
Proof.
  intros fs Tree.
  destruct (create_sample_files_exist fs) as (E1 & E2 & E3).
  split; [|split; [exact E1 | split; [exact E2 | split; [exact E3|]]]].
  2:{ now apply create_sample_files_settled. }
  intros p Hp. unfold create_sample_files.
  assert (K1 : forall q, exists_on fs q = true ->
                 (if negb (exists_on fs ".env") then write_file fs ".env" sample_env else fs) q
                 = fs q).
  { intros q Hq. destruct (exists_on fs ".env") eqn:E; [reflexivity|]. cbn [negb].
    apply write_file_other. intros ->. congruence. }
  set (fs1 := if negb (exists_on fs ".env") then write_file fs ".env" sample_env else fs) in *.
  assert (X1 : forall q, exists_on fs q = true -> exists_on fs1 q = true).
  { intros q Hq. unfold exists_on in *. now rewrite (K1 q Hq). }
  assert (K2 : forall q, exists_on fs q = true ->
                 (if negb (exists_on fs1 "email_config.json")
                  then write_file fs1 "email_config.json" sample_config_json else fs1) q
                 = fs q).
  { intros q Hq. destruct (exists_on fs1 "email_config.json") eqn:E; cbn [negb];
      [now apply K1|].
    rewrite write_file_other; [now apply K1|]. intros ->.
    rewrite (X1 _ Hq) in E. discriminate. }
  set (fs2 := if negb (exists_on fs1 "email_config.json")
              then write_file fs1 "email_config.json" sample_config_json else fs1) in *.
  assert (X2 : forall q, exists_on fs q = true -> exists_on fs2 q = true).
  { intros q Hq. unfold exists_on in *. now rewrite (K2 q Hq). }
  destruct (exists_on fs2 "attachments") eqn:E; cbn [negb]; [now apply K2|].
  assert (Na : exists_on fs "attachments" = false).
  { destruct (exists_on fs "attachments") eqn:A; [|reflexivity].
    rewrite (X2 _ A) in E. discriminate. }
  rewrite write_file_other.
  - unfold makedirs. destruct (String.eqb_spec p "attachments") as [->|]; [congruence|].
    now apply K2.
  - intros ->. rewrite (Tree Hp) in Na. discriminate.
Qed.

Lemma create_sample_files_is_safe_witness :
  (forall p, exists_on directory_with_template p = true ->
             create_sample_files directory_with_template p = directory_with_template p)
  /\ exists_on (create_sample_files directory_with_template) ".env" = true
  /\ exists_on (create_sample_files directory_with_template) "email_config.json" = true
  /\ exists_on (create_sample_files directory_with_template) "attachments" = true
  /\ create_sample_files (create_sample_files directory_with_template)
     = create_sample_files directory_with_template.
Proof.
  apply (create_sample_files_is_safe directory_with_template).
  vm_compute. discriminate.
Defined.

(** ** The earlier script *)

Section LegacyFacts.
Variables (w : World) (template : string).

Lemma cells_at_set_elsewhere d i label v j c :
j <> i -> has_column d label = true ->
cells (at_set d i label v) j c = cells d j c.
Proof.
intros Hj Hl. simpl. destruct (String.eqb c label); [|reflexivity].
apply Nat.eqb_neq in Hj. now rewrite Hj, Hl.
Qed.

(** The two ways the send step of the earlier script ends. *)
Lemma legacy_send_cases recipient_email cc_email recipient_name subject clk0 :
(exists e,
   Legacy.send_personalized_email w recipient_email cc_email recipient_name subject
     template clk0 = (Raise e, [], clk0))
\/ (exists success status_message sender recipients m clk',
      Legacy.send_personalized_email w recipient_email cc_email recipient_name subject
        template clk0
      = (Return (Result2 success status_message), [SmtpSession sender recipients m], clk')
      /\ already_sent (Str status_message) = true
      /\ isna recipient_name = false).
Proof.
unfold Legacy.send_personalized_email.
destruct (smtp_port w); [|left; eauto].
destruct (env_unset (EMAIL_PASSWORD w)); [left; eauto|].
destruct recipient_name as [|name]; [left; eauto|].
right. case_smtp.
- do 6 eexists. split; [reflexivity|]. split; [now apply already_sent_head | reflexivity].
- do 6 eexists. split; [reflexivity|]. split; [now apply already_sent_head | reflexivity].
Qed.

Lemma legacy_well_formed d :
Legacy.well_formed d = true ->
has_column d "First Name" = true /\ has_column d "Recipient" = true
/\ has_column d "CC" = true /\ has_column d "Email Sent status" = true.
Proof.
unfold Legacy.well_formed, Legacy.required_columns. cbn [forallb]. intros H.
apply andb_true_iff in H as [H1 H]. apply andb_true_iff in H as [H2 H].
apply andb_true_iff in H as [H3 H]. apply andb_true_iff in H as [H4 _]. auto.
Qed.

(** What a turn of the loop of the earlier script does. *)
Lemma legacy_loop_body_cases d index st :
Legacy.well_formed d = true ->
(Legacy.due d index = false
 /\ Legacy.loop_body w template (index, row_at d index) st = (Next, st))
\/ (Legacy.due d index = true
    /\ exists e st',
         Legacy.loop_body w template (index, row_at d index) st = (Raised e, st')
         /\ Legacy.df st' = Legacy.df st /\ Legacy.trace st' = Legacy.trace st)
\/ (Legacy.due d index = true
    /\ isna (cells d index "First Name") = false
    /\ exists status_message sender recipients m st',
         Legacy.loop_body w template (index, row_at d index) st = (Next, st')
         /\ Legacy.df st'
            = at_set (Legacy.df st) index "Email Sent status" (Str status_message)
         /\ already_sent (Str status_message) = true
         /\ Legacy.trace st'
            = (Legacy.trace st
                 ++ [(index, SmtpSession sender recipients m); (index, Sleep 2)])%list).
Proof.
intros W. destruct (legacy_well_formed d W) as (H1 & H2 & H3 & H4).
unfold Legacy.loop_body, Legacy.due.
rewrite (series_getitem_row_at d index _ H1), (series_getitem_row_at d index _ H2),
  (series_getitem_row_at d index _ H3), (series_getitem_row_at d index _ H4).
destruct (Legacy.no_recipient (cells d index "Recipient")); [now left|].
destruct (already_sent (cells d index "Email Sent status")); [now left|].
right. cbn [negb andb].
destruct (legacy_send_cases (cells d index "Recipient") (cells d index "CC")
            (cells d index "First Name") Legacy.email_subject (Legacy.clk st))
  as [(e & ->) | (success & msg & s & r & m & clk' & -> & A & N)].
- left. split; [reflexivity|]. do 2 eexists. split; [reflexivity|].
  cbn [Legacy.df Legacy.trace map]. now rewrite app_nil_r.
- right. split; [reflexivity|]. split; [exact N|]. cbn [unpack].
  do 5 eexists. split; [reflexivity|]. cbn [Legacy.df Legacy.trace map app].
  repeat split. exact A.
Qed.

Lemma legacy_for_rows_done d :
Legacy.well_formed d = true ->
forall n a st flow st',
  has_column (Legacy.df st) "Email Sent status" = true ->
  Legacy.for_rows w template (map (fun k => (k, row_at d k)) (seq a n)) st = (flow, st') ->
  Legacy.loop_done d a n st flow st'.
Proof.
intros W. induction n as [|n IH]; intros a st flow st' Hc E.
{ simpl in E. inversion E; subst. unfold Legacy.loop_done.
  split; [exact Hc|]. split.
  { exists []. rewrite app_nil_r. repeat split; auto. }
  repeat split; auto; try lia. discriminate. }
cbn [seq map Legacy.for_rows] in E.
destruct (legacy_loop_body_cases d a st W)
  as [[D B] | [(D & e & st1 & B & Df & Tr)
              | (D & Nm & msg & s & r & m & st1 & B & Df & A & Tr)]];
  rewrite B in E.
- (* the row is not due *)
  destruct (IH (S a) st flow st' Hc E) as (I0 & (new & T & F & L1 & L2) & I2 & I3 & I4 & I5).
  unfold Legacy.loop_done. cbn [seq filter]. rewrite D.
  split; [exact I0|]. split.
  { exists new. split; [exact T|]. split; [|split; [exact L1 | exact L2]].
    eapply Forall_impl; [|exact F]. intros x [Hx Dx]. split; [lia | exact Dx]. }
  split; [|split; [exact I3 | split; [|exact I5]]].
  + intros k c Hk. apply I2. destruct Hk as [Hk | [Hk | Hk]]; auto; try (right; lia).
  + intros Fl k Hk Dk. destruct (Nat.eq_dec k a) as [->|Hne]; [congruence|].
    apply I4; [exact Fl | lia | exact Dk].
- (* the send step raises *)
  inversion E; subst. unfold Legacy.loop_done. rewrite Df, Tr.
  split; [exact Hc|]. split.
  { exists []. rewrite app_nil_r. split; [reflexivity|]. split; [constructor|].
    split; [simpl; lia | discriminate]. }
  repeat split; auto; discriminate.
- (* the row is sent to *)
  assert (Hc1 : has_column (Legacy.df st1) "Email Sent status" = true)
    by (rewrite Df; now apply has_column_at_set).
  destruct (IH (S a) st1 flow st' Hc1 E)
    as (I0 & (new & T & F & L1 & L2) & I2 & I3 & I4 & I5).
  unfold Legacy.loop_done. cbn [seq filter]. rewrite D.
  split; [exact I0|]. split.
  { exists ([(a, SmtpSession s r m); (a, Sleep 2)] ++ new)%list.
    rewrite T, Tr, <- app_assoc. split; [reflexivity|]. split; [|split].
    - apply Forall_app. split.
      + repeat constructor; cbn [fst]; try lia; exact D.
      + eapply Forall_impl; [|exact F]. intros x [Hx Dx]. split; [lia | exact Dx].
    - rewrite smtp_sessions_app. cbn [smtp_sessions filter snd is_smtp].
      rewrite length_app. simpl. lia.
    - intros Fl. destruct (L2 Fl) as [L3 L4].
      rewrite smtp_sessions_app, sleeps_app, !length_app. simpl. lia. }
  split; [|split; [|split; [|exact I5]]].
  + intros k c Hk. rewrite I2 by (destruct Hk as [Hk | [Hk | Hk]]; auto; right; lia).
    rewrite Df. assert (k <> a) by (intros ->; destruct Hk as [Hk | [Hk | Hk]];
                                      [congruence | lia | lia]).
    apply cells_at_set_elsewhere; [assumption | exact Hc].
  + intros k c Hne. rewrite (I3 k c Hne), Df. now apply cells_at_set_other_column.
  + intros Fl k Hk Dk. destruct (Nat.eq_dec k a) as [->|Hne].
    * rewrite I2 by (right; left; lia). rewrite Df, cells_at_set_same. now split.
    * apply I4; [exact Fl | lia | exact Dk].
Qed.

(** The effects of a loop that ends without raising: for each due row,
  in the order of the table, an SMTP session followed by the sleep. *)
Lemma legacy_for_rows_sessions d :
Legacy.well_formed d = true ->
forall n a st st',
  Legacy.for_rows w template (map (fun k => (k, row_at d k)) (seq a n)) st = (Next, st') ->
  exists sessions,
    map fst sessions = filter (Legacy.due d) (seq a n)
    /\ forallb (fun x => is_smtp (snd x)) sessions = true
    /\ Legacy.trace st' = (Legacy.trace st ++ Legacy.with_sleeps sessions)%list.
Proof.
intros W. induction n as [|n IH]; intros a st st' E.
{ simpl in E. inversion E; subst. exists []. cbn. now rewrite app_nil_r. }
cbn [seq map Legacy.for_rows] in E.
destruct (legacy_loop_body_cases d a st W)
  as [[D B] | [(D & e & st1 & B & Df & Tr)
              | (D & Nm & msg & s & r & m & st1 & B & Df & A & Tr)]];
  rewrite B in E.
- destruct (IH (S a) st st' E) as (sessions & M & F & T).
  exists sessions. cbn [seq filter]. rewrite D. auto.
- discriminate.
- destruct (IH (S a) st1 st' E) as (sessions & M & F & T).
  exists ((a, SmtpSession s r m) :: sessions). cbn [seq filter]. rewrite D.
  cbn [map fst forallb snd is_smtp andb]. split; [now rewrite M|]. split; [exact F|].
  rewrite T, Tr, <- app_assoc. reflexivity.
Qed.

(** A run of the earlier script either stops at the check of the columns
  and does nothing, or goes through the loop. *)
Lemma legacy_main_cases loaded :
Legacy.main w template loaded = nothing_done
\/ (Legacy.well_formed loaded = true
    /\ exists flow st,
         Legacy.for_rows w template (iterrows loaded) (Legacy.initial_state loaded)
         = (flow, st)
         /\ Legacy.loop_done loaded 0 (nrows loaded) (Legacy.initial_state loaded) flow st
         /\ effects (Legacy.main w template loaded) = Legacy.trace st
         /\ (flow = Next /\ saved (Legacy.main w template loaded) = Some (Legacy.df st)
             \/ (exists e, flow = Raised e)
                /\ saved (Legacy.main w template loaded) = None)).
Proof.
unfold Legacy.main.
destruct (filter (fun col => negb (has_column loaded col)) Legacy.required_columns)
  as [|c l] eqn:M; [|now left].
right.
assert (W : Legacy.well_formed loaded = true).
{ unfold Legacy.well_formed. apply forallb_forall. intros c Hc.
  destruct (has_column loaded c) eqn:H; [reflexivity|]. exfalso.
  assert (In c []) as []. rewrite <- M. apply filter_In. now rewrite H. }
split; [exact W|].
destruct (Legacy.for_rows w template (iterrows loaded) (Legacy.initial_state loaded))
  as [flow st] eqn:L.
exists flow, st. split; [reflexivity|].
assert (D : Legacy.loop_done loaded 0 (nrows loaded) (Legacy.initial_state loaded) flow st).
{ apply legacy_for_rows_done; [exact W | apply (legacy_well_formed loaded W) | exact L]. }
split; [exact D|].
destruct D as (_ & _ & _ & _ & _ & Nb).
destruct flow as [| |e]; [| now contradiction Nb |].
- split; [reflexivity|]. now left.
- split; [reflexivity|]. right. eauto.
Qed.

End LegacyFacts.

Section LegacyRun.
Variables (w : World) (template : string).

Lemma legacy_for_rows_nrows d :
Legacy.well_formed d = true ->
forall n a st flow st',
  Legacy.for_rows w template (map (fun k => (k, row_at d k)) (seq a n)) st = (flow, st') ->
  nrows (Legacy.df st') = nrows (Legacy.df st).
Proof.
intros W. induction n as [|n IH]; intros a st flow st' E.
{ simpl in E. now inversion E. }
cbn [seq map Legacy.for_rows] in E.
destruct (legacy_loop_body_cases w template d a st W)
  as [[D B] | [(D & e & st1 & B & Df & Tr)
              | (D & Nm & msg & s & r & m & st1 & B & Df & A & Tr)]];
  rewrite B in E.
- now apply IH in E.
- inversion E; subst. now rewrite Df.
- apply IH in E. now rewrite E, Df.
Qed.

(** After a run of the earlier script that wrote the table back, no row
  of the written table is due. *)
Lemma legacy_written_not_due loaded written k :
saved (Legacy.main w template loaded) = Some written ->
k < nrows written -> Legacy.due written k = false.
Proof.
intros E Hk.
destruct (legacy_main_cases w template loaded)
  as [N | (W & flow & st & L & D & _ & [[-> S] | [_ S]])];
  [rewrite N in E; discriminate | | rewrite S in E; discriminate].
rewrite S in E. inversion E; subst. clear E S.
destruct D as (_ & _ & I2 & _ & I4 & _).
destruct (Legacy.due loaded k) eqn:Dk.
- assert (Hn : nrows (Legacy.df st) = nrows loaded)
    by (unfold iterrows in L; exact (legacy_for_rows_nrows loaded W _ _ _ _ _ L)).
  destruct (I4 eq_refl k ltac:(lia) Dk) as [A _].
  unfold Legacy.due. rewrite A. apply andb_false_r.
- assert (C : forall c, cells (Legacy.df st) k c = cells loaded k c)
    by (intros c; apply I2; now left).
  unfold Legacy.due in *. now rewrite !C.
Qed.

End LegacyRun.

(** X21: in the earlier script, a row without a recipient (the cell is
    missing or blank) or with a status already is skipped: the run has no
    effect for it, and all its cells in the table written back are the
    loaded ones. *)
Theorem legacy_skipped_row_untouched :
  forall (w : World) (template : string) (loaded : DataFrame) (k : nat),
    Legacy.due loaded k = false ->
    filter (fun x => (fst x =? k)%nat) (effects (Legacy.main w template loaded)) = []
    /\ forall written,
         saved (Legacy.main w template loaded) = Some written ->
         forall c, cells written k c = cells loaded k c.
Proof.
  intros w template loaded k Dk.
  destruct (legacy_main_cases w template loaded)
    as [-> | (W & flow & st & L & D & -> & S)]; [split; [reflexivity | discriminate]|].
  destruct D as (_ & (new & T & F & _) & I2 & _).
  simpl in T. subst new. split.
  - induction F as [|x l [_ Dx] _ IH]; [reflexivity|]. cbn [filter].
    destruct (Nat.eqb_spec (fst x) k) as [Q|_]; [congruence | exact IH].
  - intros written E c. destruct S as [[_ S] | [_ S]]; rewrite S in E; inversion E; subst.
    apply (I2 k c). now left.
Qed.

Lemma legacy_skipped_row_untouched_witness :
  filter (fun x => (fst x =? 1)%nat)
    (effects (Legacy.main world_ok "<p>Dear {{NAME}},</p>" Legacy.sample_table)) = []
  /\ forall written,
       saved (Legacy.main world_ok "<p>Dear {{NAME}},</p>" Legacy.sample_table) = Some written ->
       forall c, cells written 1 c = cells Legacy.sample_table 1 c.
Proof.
  apply (legacy_skipped_row_untouched world_ok "<p>Dear {{NAME}},</p>" Legacy.sample_table 1).
  reflexivity.
Defined.

(** X22: the earlier script writes to the [Email Sent status] column
    only: every other cell of the table written back is the loaded
    one. *)
Theorem legacy_writes_status_only :
  forall (w : World) (template : string) (loaded written : DataFrame)
         (k : nat) (c : string),
    saved (Legacy.main w template loaded) = Some written ->
    c <> "Email Sent status" ->
    cells written k c = cells loaded k c.
Proof.
  intros w template loaded written k c E Hc.
  destruct (legacy_main_cases w template loaded)
    as [N | (W & flow & st & L & D & _ & S)]; [rewrite N in E; discriminate|].
  destruct S as [[_ S] | [_ S]]; rewrite S in E; inversion E; subst.
  destruct D as (_ & _ & _ & I3 & _). now apply I3.
Qed.

Lemma legacy_writes_status_only_witness :
  cells Legacy.sample_written 0 "Recipient" = cells Legacy.sample_table 0 "Recipient".
Proof.
  apply (legacy_writes_status_only world_ok "<p>Dear {{NAME}},</p>" Legacy.sample_table
           Legacy.sample_written 0 "Recipient");
    first [reflexivity | vm_compute; discriminate].
Defined.

(** X23: in the earlier script, a due row whose first name is missing
    makes the run end without writing the table back, whatever was sent
    before it: the name is handed to [template.replace] outside the [try]
    block of the send step. *)
Theorem legacy_missing_name_loses_run :
  forall (w : World) (template : string) (loaded : DataFrame) (k : nat),
    k < nrows loaded ->
    Legacy.due loaded k = true ->
    isna (cells loaded k "First Name") = true ->
    saved (Legacy.main w template loaded) = None.
Proof.
  intros w template loaded k Hk Dk Nk.
  destruct (legacy_main_cases w template loaded)
    as [-> | (W & flow & st & L & D & _ & [[-> S] | [_ S]])]; [reflexivity | | exact S].
  destruct D as (_ & _ & _ & _ & I4 & _).
  destruct (I4 eq_refl k ltac:(lia) Dk) as [_ N]. congruence.
Qed.

Lemma legacy_missing_name_loses_run_witness :
  saved (Legacy.main world_ok "<p>Dear {{NAME}},</p>" Legacy.nameless_table) = None.
Proof.
  apply (legacy_missing_name_loses_run world_ok "<p>Dear {{NAME}},</p>"
           Legacy.nameless_table 1);
    first [reflexivity | simpl; lia].
Defined.

(** X24: the earlier script has no cap. The effects of a run that writes
    the table back are, for each due row in the order of the table and
    for no other row, one SMTP session for that row followed by the sleep
    of two seconds; and each due row has a status that later runs pass
    over. *)
Theorem legacy_sends_every_due_row :
  forall (w : World) (template : string) (loaded written : DataFrame),
    saved (Legacy.main w template loaded) = Some written ->
    (exists sessions,
       map fst sessions = filter (Legacy.due loaded) (seq 0 (nrows loaded))
       /\ forallb (fun x => is_smtp (snd x)) sessions = true
       /\ effects (Legacy.main w template loaded) = Legacy.with_sleeps sessions)
    /\ forall k, k < nrows loaded -> Legacy.due loaded k = true ->
         already_sent (cells written k "Email Sent status") = true.
Proof.
  intros w template loaded written E.
  destruct (legacy_main_cases w template loaded)
    as [N | (W & flow & st & L & D & -> & [[-> S] | [_ S]])];
    [rewrite N in E; discriminate | | rewrite S in E; discriminate].
  rewrite S in E. inversion E; subst.
  destruct D as (_ & _ & _ & _ & I4 & _).
  split.
  - unfold iterrows in L.
    destruct (legacy_for_rows_sessions w template loaded W _ _ _ _ L)
      as (sessions & M & F & T).
    exists sessions. split; [exact M|]. split; [exact F|]. exact T.
  - intros k Hk Dk. now apply (I4 eq_refl k ltac:(lia) Dk).
Qed.

Lemma legacy_sends_every_due_row_witness :
  (exists sessions,
     map fst sessions
     = filter (Legacy.due Legacy.sample_table) (seq 0 (nrows Legacy.sample_table))
     /\ forallb (fun x => is_smtp (snd x)) sessions = true
     /\ effects (Legacy.main world_ok "<p>Dear {{NAME}},</p>" Legacy.sample_table)
        = Legacy.with_sleeps sessions)
  /\ forall k, k < nrows Legacy.sample_table -> Legacy.due Legacy.sample_table k = true ->
       already_sent (cells Legacy.sample_written k "Email Sent status") = true.
Proof.
  apply (legacy_sends_every_due_row world_ok "<p>Dear {{NAME}},</p>" Legacy.sample_table
           Legacy.sample_written).
  reflexivity.
Defined.

(** X25: re-running the earlier script is safe once a run has written
    the table back: a second run over the written table, in any
    environment and with any template, has no effect on the outside. *)
Theorem legacy_second_run_sends_nothing :
  forall (w : World) (template : string) (loaded written : DataFrame),
    saved (Legacy.main w template loaded) = Some written ->
    forall (w' : World) (template' : string),
      effects (Legacy.main w' template' written) = [].
Proof.
  intros w template loaded written E w' template'.
  destruct (legacy_main_cases w' template' written)
    as [-> | (W & flow & st & L & D & -> & _)]; [reflexivity|].
  destruct D as (_ & (new & T & F & _) & _).
  simpl in T. subst new.
  destruct (Legacy.trace st) as [|x l]; [reflexivity|]. exfalso.
  apply Forall_inv in F. destruct F as [Hx Dx].
  rewrite (legacy_written_not_due w template loaded written (fst x) E) in Dx;
    [discriminate | lia].
Qed.

Lemma legacy_second_run_sends_nothing_witness :
  effects (Legacy.main world_ok "<p>Dear {{NAME}},</p>" Legacy.sample_written) = [].
Proof.
  apply (legacy_second_run_sends_nothing world_ok "<p>Dear {{NAME}},</p>"
           Legacy.sample_table Legacy.sample_written).
  reflexivity.
Defined.

(** ** The address parser, against the text of the cell *)

Section EntryFacts.
Import PyStr.

Lemma blank_no_comma s : all isspace s = true -> mem "," s = false.
Proof.
induction s as [|c s IH]; [reflexivity|]. cbn [all mem]. intros A.
apply andb_true_iff in A as [A1 A2]. rewrite (IH A2), orb_false_r.
destruct (Ascii.eqb_spec "," c) as [<-|]; [discriminate | reflexivity].
Qed.

Lemma lstrip_blank s : all isspace s = true -> lstrip s = "".
Proof.
induction s as [|c s IH]; [reflexivity|]. cbn [all lstrip]. intros A.
apply andb_true_iff in A as [A1 A2]. now rewrite A1, IH.
Qed.

Lemma lstrip_app_blank b s : all isspace b = true -> lstrip (b ++ s) = lstrip s.
Proof.
induction b as [|c b IH]; [reflexivity|]. cbn [all append lstrip]. intros A.
apply andb_true_iff in A as [A1 A2]. now rewrite A1, IH.
Qed.

Lemma rstrip_blank s : all isspace s = true -> rstrip s = "".
Proof.
induction s as [|c s IH]; [reflexivity|]. cbn [all rstrip]. intros A.
apply andb_true_iff in A as [A1 A2]. now rewrite (IH A2), A1.
Qed.

Lemma rstrip_app_blank t a : all isspace a = true -> rstrip (t ++ a) = rstrip t.
Proof.
intros A. induction t as [|c t IH]; cbn [append rstrip].
- now apply rstrip_blank.
- now rewrite IH.
Qed.

Lemma rstrip_plain t : ends_blank t = false -> rstrip t = t.
Proof.
induction t as [|c t IH]; [reflexivity|]. cbn [ends_blank rstrip].
destruct t as [|d t].
- intros H. cbn [rstrip]. now rewrite H.
- intros H. rewrite (IH H). reflexivity.
Qed.

Lemma ends_blank_rstrip s : ends_blank (rstrip s) = false.
Proof.
induction s as [|c s IH]; [reflexivity|]. cbn [rstrip].
destruct (rstrip s) as [|d t].
- destruct (isspace c) eqn:Hc; [reflexivity | exact Hc].
- exact IH.
Qed.

Lemma strip_blank s : all isspace s = true -> strip s = "".
Proof. intros A. unfold strip. now rewrite (lstrip_blank s A). Qed.

(** Trimming an entry as it is written gives its text. *)
Lemma strip_entry e : entry_ok e = true -> strip (entry_source e) = entry_text e.
Proof.
unfold entry_ok, entry_source. intros H.
apply andb_true_iff in H as [H E]. apply andb_true_iff in H as [H S].
apply andb_true_iff in H as [H _]. apply andb_true_iff in H as [B A].
apply negb_true_iff in E, S.
unfold strip. rewrite (lstrip_app_blank _ _ B).
destruct (entry_text e) as [|c t] eqn:T.
- cbn [append]. now rewrite (lstrip_blank _ A).
- cbn [starts_blank] in S. cbn [append lstrip]. rewrite S.
  change (String c (t ++ blanks_after e)) with (String c t ++ blanks_after e).
  rewrite (rstrip_app_blank _ _ A). now apply rstrip_plain.
Qed.

Lemma entry_source_no_comma e : entry_ok e = true -> mem "," (entry_source e) = false.
Proof.
unfold entry_ok, entry_source. intros H.
apply andb_true_iff in H as [H _]. apply andb_true_iff in H as [H _].
apply andb_true_iff in H as [H C]. apply andb_true_iff in H as [B A].
apply negb_true_iff in C.
now rewrite !mem_append, (blank_no_comma _ B), (blank_no_comma _ A), C.
Qed.

(** Splitting at the commas undoes joining with commas. *)
Lemma split_concat l :
l <> [] -> Forall (fun s => mem "," s = false) l ->
split "," (String.concat "," l) = l.
Proof.
intros Hne F. induction F as [|e l He F IH]; [congruence|]. clear Hne.
destruct l as [|e' l].
- cbn [String.concat]. now apply split_no_comma.
- cbn [String.concat]. cbn [String.concat] in IH.
  change (e ++ "," ++ ?x) with (e ++ String "," x).
  rewrite (split_app_comma e _ He). f_equal. apply IH. discriminate.
Qed.

Lemma concat_split s : String.concat "," (split "," s) = s.
Proof.
induction s as [|c s IH]; [reflexivity|]. cbn [split].
destruct (Ascii.eqb_spec c ",") as [->|N].
- destruct (split "," s) as [|w ws] eqn:E; [now apply split_nonempty in E|].
  rewrite <- IH. reflexivity.
- destruct (split "," s) as [|w ws] eqn:E; [now apply split_nonempty in E|].
  rewrite <- IH. destruct ws; reflexivity.
Qed.

Lemma split_pieces s : Forall (fun e => mem "," e = false) (split "," s).
Proof.
induction s as [|c s IH]; [repeat constructor|]. cbn [split].
destruct (Ascii.eqb_spec c ",") as [->|N].
- constructor; [reflexivity | exact IH].
- destruct (split "," s) as [|w ws]; [repeat constructor|].
  + cbn [mem]. rewrite orb_false_r. apply Ascii.eqb_neq. congruence.
  + inversion IH as [|? ? Hw Hws]; subst. constructor; [|exact Hws].
    cbn [mem]. rewrite Hw, orb_false_r. apply Ascii.eqb_neq. congruence.
Qed.

Lemma lstrip_decompose s : exists b, s = b ++ lstrip s /\ all isspace b = true.
Proof.
induction s as [|c s (b & E & B)]; [now exists ""|]. cbn [lstrip].
destruct (isspace c) eqn:Hc.
- exists (String c b). cbn [append all]. rewrite Hc, B. split; [now f_equal | reflexivity].
- now exists "".
Qed.

Lemma rstrip_decompose s : exists a, s = rstrip s ++ a /\ all isspace a = true.
Proof.
induction s as [|c s (a & E & A)]; [now exists ""|]. cbn [rstrip].
destruct (rstrip s) as [|d t].
- cbn [append] in E. subst a. destruct (isspace c) eqn:Hc.
  + exists (String c s). cbn [append all]. now rewrite Hc, A.
  + exists s. now split.
- exists a. cbn [append]. split; [now f_equal | exact A].
Qed.

(** Every text without comma is an entry as it is written. *)
Lemma piece_entry s :
mem "," s = false -> exists e, entry_ok e = true /\ entry_source e = s.
Proof.
intros C.
destruct (lstrip_decompose s) as (b & Eb & B).
destruct (rstrip_decompose (lstrip s)) as (a & Ea & A).
fold (strip s) in Ea.
exists {| blanks_before := b; entry_text := strip s; blanks_after := a |}.
unfold entry_ok, entry_source. cbn [blanks_before entry_text blanks_after].
split; [|now rewrite <- Ea].
rewrite B, A. cbn [andb].
assert (Cs : mem "," (strip s) = false).
{ rewrite Eb, Ea, !mem_append in C.
  apply orb_false_iff in C as [_ C]. now apply orb_false_iff in C as [C _]. }
rewrite Cs. cbn [negb andb].
assert (Sb : starts_blank (strip s) = false).
{ unfold strip. destruct (lstrip_head s) as [-> | (c & t & -> & Hc)]; [reflexivity|].
  rewrite (rstrip_keeps_head _ _ Hc). exact Hc. }
rewrite Sb. cbn [negb andb].
unfold strip. now rewrite ends_blank_rstrip.
Qed.

Lemma pieces_entries l :
Forall (fun s => mem "," s = false) l ->
exists entries, forallb entry_ok entries = true /\ map entry_source entries = l.
Proof.
induction 1 as [|s l Hs _ (entries & O & E)]; [now exists []|].
destruct (piece_entry s Hs) as (e & Oe & Ee).
exists (e :: entries). cbn [forallb map]. now rewrite Oe, O, Ee, E.
Qed.

(** The trimmed entries of a cell are the texts of the entries it is made
  of. *)
Lemma entries_of_cell entries :
entries <> [] -> forallb entry_ok entries = true ->
entries_of (Str (cell_of_entries entries)) = map entry_text entries.
Proof.
intros Hne O. unfold entries_of, cell_of_entries. cbn [str].
rewrite split_concat.
- rewrite map_map. apply map_ext_in. intros e He. apply strip_entry.
  now apply (proj1 (forallb_forall _ _) O).
- destruct entries; [congruence | discriminate].
- apply Forall_forall. intros s Hs. apply in_map_iff in Hs as (e & <- & He).
  apply entry_source_no_comma. now apply (proj1 (forallb_forall _ _) O).
Qed.

(** What [parse_email_list] makes of a text, blank or not. *)
Lemma parse_email_list_text s :
parse_email_list (Str s)
= (filter validate_email (entries_of (Str s)),
   filter (fun e => truthy e && negb (validate_email e)) (entries_of (Str s))).
Proof.
destruct (isna (Str s) || negb (truthy (strip (str (Str s))))) eqn:H.
- destruct (parse_email_list_absent (Str s) H) as [-> _].
  cbn [isna str orb] in H. apply negb_true_iff in H.
  destruct (strip s) as [|c t] eqn:E; [|discriminate].
  unfold entries_of. cbn [str].
  rewrite (split_blank s (strip_nil_all s E)). cbn [map]. now rewrite E.
- now apply parse_email_list_present.
Qed.

Lemma filter_Kept (P : string -> Prop) (f : string -> bool) l :
(forall e, In e l -> (f e = true <-> P e)) -> Kept P l (filter f l).
Proof.
induction l as [|e l IH]; intros H; cbn [filter]; [constructor|].
assert (K : Kept P l (filter f l)) by (apply IH; intros x Hx; apply H; now right).
destruct (f e) eqn:F.
- constructor; [now apply (H e (or_introl eq_refl)) | exact K].
- apply Kept_drop; [|exact K]. intros Pe.
  apply (H e (or_introl eq_refl)) in Pe. congruence.
Qed.

Lemma address_char_not_blank c : address_char c = true -> isspace c = false.
Proof. destruct c as [[] [] [] [] [] [] [] []]; first [reflexivity | discriminate]. Qed.

Lemma ends_blank_address s : all address_char s = true -> ends_blank s = false.
Proof.
induction s as [|c s IH]; [reflexivity|]. cbn [all ends_blank]. intros A.
apply andb_true_iff in A as [A1 A2].
destruct s; [now apply address_char_not_blank | now apply IH].
Qed.

(** An address of the format of the specification stands for itself as a
  cell: it is its own single entry. *)
Lemma parse_single_address a :
rfc5322_light a -> parse_email_list (Str a) = ([a], []).
Proof.
intros R. pose proof (rfc5322_light_chars a R) as A.
assert (S : strip a = a).
{ unfold strip. destruct a as [|c t]; [reflexivity|].
  cbn [all] in A. apply andb_true_iff in A as [A1 A2].
  cbn [lstrip]. rewrite (address_char_not_blank c A1).
  apply rstrip_plain, ends_blank_address. cbn [all]. now rewrite A1, A2. }
assert (V : validate_email a = true) by (apply validate_email_spec; now rewrite S).
rewrite parse_email_list_text. unfold entries_of. cbn [str].
rewrite (split_no_comma a (all_address_no_comma a A)). cbn [map filter].
now rewrite S, V, andb_false_r.
Qed.

(** The first returned address is the text of the cell only when the
  cell holds that address and nothing else. *)
Lemma first_address_is_cell v first rest :
fst (parse_email_list v) = first :: rest -> str v = first ->
v = Str first /\ rest = [] /\ rfc5322_light first.
Proof.
intros E T.
destruct (parsed_address v first) as (V & S & A); [rewrite E; now left|].
assert (R : rfc5322_light first) by (apply validate_email_spec in V; now rewrite S in V).
destruct v as [|s]; [discriminate|]. cbn [str] in T. subst s.
rewrite (parse_single_address first R) in E. cbn [fst] in E.
inversion E; subst. auto.
Qed.

End EntryFacts.

(** C8, as the code has it. Every text is made of entries with a comma
    between any two, each entry a text without comma between blanks; for
    the cell made of given entries, [parse_email_list] returns exactly the
    texts of the entries that have the format of the specification (local
    part over [[A-Za-z0-9._%+-]], an [@], a domain with a dot, a top-level
    domain of at least two letters of either case), in their order, and
    names in its warning exactly the other texts that are not empty: an
    entry that is blank is left out without a warning. A missing value and
    a blank text give the empty list and no warning; the function is
    total, so no entry makes it fail. *)
Theorem parse_email_list_spec :
  parse_email_list NaN = ([], [])
  /\ (forall s, PyStr.all PyStr.isspace s = true -> parse_email_list (Str s) = ([], []))
  /\ (forall s, exists entries,
        forallb entry_ok entries = true /\ cell_of_entries entries = s)
  /\ (forall entries,
        forallb entry_ok entries = true ->
        Kept rfc5322_light (map entry_text entries)
          (fst (parse_email_list (Str (cell_of_entries entries))))
        /\ Kept (fun e => e <> "" /\ ~ rfc5322_light e) (map entry_text entries)
             (snd (parse_email_list (Str (cell_of_entries entries))))).
Proof.
  split; [reflexivity|]. split; [|split].
  - intros s B. unfold parse_email_list. cbn [isna str orb].
    now rewrite (strip_blank s B).
  - intros s. destruct (pieces_entries _ (split_pieces s)) as (entries & O & E).
    exists entries. split; [exact O|]. unfold cell_of_entries.
    rewrite E. apply concat_split.
  - intros entries O. destruct entries as [|e0 entries0] eqn:En.
    { cbn. split; constructor. }
    rewrite <- En in *. assert (Hne : entries <> []) by (rewrite En; discriminate).
    clear En. rewrite parse_email_list_text, (entries_of_cell entries Hne O). cbn [fst snd].
    assert (St : forall e, In e (map entry_text entries) -> PyStr.strip e = e).
    { intros e He. rewrite <- (entries_of_cell entries Hne O) in He.
      now apply (In_entries_stripped _ e He). }
    split; apply filter_Kept; intros e He.
    + rewrite validate_email_spec, (St e He). reflexivity.
    + rewrite andb_true_iff, negb_true_iff. split.
      * intros [T V]. split; [intros ->; discriminate|].
        intros R. rewrite <- (St e He) in R. apply validate_email_spec in R. congruence.
      * intros [N R]. split; [destruct e; [congruence | reflexivity]|].
        destruct (validate_email e) eqn:V; [|reflexivity].
        apply validate_email_spec in V. rewrite (St e He) in V. now contradiction R.
Qed.

(** C8 as stated fails for blank entries: the cell holds a valid address
    and two entries that do not have the format (a blank and the empty
    text); both are left out, and the warning names neither. *)
Lemma blank_entries_dropped_silently :
  cell_of_entries
    [ {| blanks_before := ""; entry_text := "ann@example.com"; blanks_after := "" |};
      {| blanks_before := " "; entry_text := ""; blanks_after := "" |};
      {| blanks_before := ""; entry_text := ""; blanks_after := "" |} ]
  = "ann@example.com, ,"
  /\ entries_of (Str "ann@example.com, ,") = ["ann@example.com"; ""; ""]
  /\ validate_email "" = false
  /\ parse_email_list (Str "ann@example.com, ,") = (["ann@example.com"], []).
Proof. repeat split. Qed.

(** ** The address placeholder *)

Section EmailPlaceholderFacts.

Lemma replace_from_plain_prefix old new a s :
PyStr.mem "{" a = false ->
PyStr.replace_from (String "{" old) new 0 (a ++ s)
= a ++ PyStr.replace_from (String "{" old) new 0 s.
Proof.
induction a as [|c a IH]; [reflexivity|]. intros H.
cbn [PyStr.mem] in H. apply orb_false_iff in H as [Hc Hs].
cbn [append PyStr.replace_from prefix].
destruct (ascii_dec "{" c) as [<-|_].
- rewrite Ascii.eqb_refl in Hc. discriminate.
- now rewrite (IH Hs).
Qed.

Lemma prefix_app a s : prefix a (a ++ s) = true.
Proof.
induction a as [|c a IH]; [apply prefix_nil|]. cbn [append prefix].
destruct (ascii_dec c c) as [_|N]; [exact IH | now contradiction N].
Qed.

Lemma replace_from_skip old new a s :
PyStr.replace_from old new (String.length a) (a ++ s) = PyStr.replace_from old new 0 s.
Proof.
induction a as [|c a IH]; [reflexivity|]. cbn [append String.length PyStr.replace_from].
exact IH.
Qed.

(** A text that starts with the placeholder: the placeholder is replaced,
  and the scan goes on behind it. *)
Lemma replace_from_match c old new s :
PyStr.replace_from (String c old) new 0 (String c old ++ s)
= new ++ PyStr.replace_from (String c old) new 0 s.
Proof.
cbn [append PyStr.replace_from].
change (String c (old ++ s)) with (String c old ++ s).
rewrite prefix_app.
replace (String.length (String c old) - 1) with (String.length old)
  by (cbn [String.length]; lia).
now rewrite replace_from_skip.
Qed.

(** Replacing a placeholder in a text made of parts without opening
  brace, with [{{EMAIL}}] between any two: [out] is what each
  [{{EMAIL}}] becomes. *)
Lemma replace_from_parts old new out parts :
(forall s, PyStr.replace_from (String "{" old) new 0 ("{{EMAIL}}" ++ s)
           = out ++ PyStr.replace_from (String "{" old) new 0 s) ->
forallb (fun p => negb (PyStr.mem "{" p)) parts = true ->
PyStr.replace_from (String "{" old) new 0 (String.concat "{{EMAIL}}" parts)
= String.concat out parts.
Proof.
intros Tok. induction parts as [|p parts IH]; [reflexivity|].
cbn [forallb]. intros H. apply andb_true_iff in H as [Hp Hr].
apply negb_true_iff in Hp. specialize (IH Hr).
destruct parts as [|q parts].
- cbn [String.concat]. now apply replace_from_no_brace.
- cbn [String.concat]. cbn [String.concat] in IH.
  rewrite (replace_from_plain_prefix old new p _ Hp), Tok. now rewrite IH.
Qed.

Lemma mem_concat c sep parts :
PyStr.mem c sep = false ->
forallb (fun p => negb (PyStr.mem c p)) parts = true ->
PyStr.mem c (String.concat sep parts) = false.
Proof.
intros Hs. induction parts as [|p parts IH]; [reflexivity|].
cbn [forallb]. intros H. apply andb_true_iff in H as [Hp Hr].
apply negb_true_iff in Hp. specialize (IH Hr).
destruct parts as [|q parts]; [exact Hp|].
cbn [String.concat]. cbn [String.concat] in IH. now rewrite !mem_append, Hp, Hs, IH.
Qed.

(** The four standard replacements on such a text: the address
  placeholder becomes the address text, nothing else changes. *)
Lemma standard_on_email_parts n d c e parts :
forallb (fun p => negb (PyStr.mem "{" p)) parts = true ->
fold_left replace_one
  [("{{NAME}}", n); ("{{DATE}}", d); ("{{COMPANY}}", c); ("{{EMAIL}}", e)]
  (String.concat "{{EMAIL}}" parts)
= String.concat e parts.
Proof.
intros H. cbn [fold_left replace_one fst snd PyStr.replace].
rewrite (replace_from_parts "{NAME}}" n "{{EMAIL}}" parts) by (try exact H; reflexivity).
rewrite (replace_from_parts "{DATE}}" d "{{EMAIL}}" parts) by (try exact H; reflexivity).
rewrite (replace_from_parts "{COMPANY}}" c "{{EMAIL}}" parts) by (try exact H; reflexivity).
apply replace_from_parts; [|exact H].
intros s. apply replace_from_match.
Qed.

End EmailPlaceholderFacts.

(** C7, as the code has it: the template engine resolves [{{EMAIL}}] to
    the text of the row's [To] cell as it stands, whole and unvalidated,
    and no column can override it. In a template that holds no other
    opening brace, every [{{EMAIL}}] is rendered as that text, given that
    the text holds no opening brace either. That text is the first
    validated address of the cell only when the cell holds exactly that
    one address and nothing else, and it is whenever the cell does. *)
Theorem email_placeholder_is_to_cell :
  forall (today : datetime) (row : Series),
    lookup "{{EMAIL}}" (replacements_of today row)
    = Some (str (series_get row "To" (Str "")))
    /\ (forall parts : list string,
          PyStr.mem "{" (str (series_get row "To" (Str ""))) = false ->
          forallb (fun p => negb (PyStr.mem "{" p)) parts = true ->
          personalize_content today (PyStr.join "{{EMAIL}}" parts) row
          = PyStr.join (str (series_get row "To" (Str ""))) parts)
    /\ (forall first rest,
          fst (parse_email_list (series_get row "To" (Str ""))) = first :: rest ->
          str (series_get row "To" (Str "")) = first ->
          series_get row "To" (Str "") = Str first /\ rest = [] /\ rfc5322_light first)
    /\ (forall address,
          rfc5322_light address ->
          series_get row "To" (Str "") = Str address ->
          fst (parse_email_list (series_get row "To" (Str ""))) = [address]
          /\ personalize_content today "{{EMAIL}}" row = address).
Proof.
  intros today row.
  assert (L : lookup "{{EMAIL}}" (replacements_of today row)
              = Some (str (series_get row "To" (Str "")))).
  { unfold replacements_of. now apply lookup_fold_add_column. }
  assert (R : forall parts : list string,
            PyStr.mem "{" (str (series_get row "To" (Str ""))) = false ->
            forallb (fun p => negb (PyStr.mem "{" p)) parts = true ->
            personalize_content today (PyStr.join "{{EMAIL}}" parts) row
            = PyStr.join (str (series_get row "To" (Str ""))) parts).
  { intros parts Ht Hp. unfold personalize_content, replacements_of, PyStr.join.
    destruct (fold_add_column_shape row (standard_replacements today row)) as (ext & -> & F).
    rewrite fold_left_app. unfold standard_replacements.
    rewrite (standard_on_email_parts _ _ _ _ parts Hp).
    apply fold_replace_no_brace; [exact F|].
    now apply mem_concat. }
  split; [exact L|]. split; [exact R|]. split.
  - intros first rest. apply first_address_is_cell.
  - intros address A E. split.
    + rewrite E. now rewrite (parse_single_address address A).
    + change "{{EMAIL}}" with (PyStr.join "{{EMAIL}}" [""; ""]).
      rewrite R; [| |reflexivity].
      * rewrite E. cbn. apply append_nil_r.
      * rewrite E. cbn [str].
        pose proof (rfc5322_light_chars address A) as C.
        clear - C. induction address as [|c s IH]; [reflexivity|].
        cbn [PyStr.all] in C. apply andb_true_iff in C as [C1 C2].
        cbn [PyStr.mem]. rewrite (IH C2), orb_false_r.
        destruct (Ascii.eqb_spec "{" c) as [<-|]; [discriminate | reflexivity].
Qed.

(** C7 as stated fails: the TO cell holds two valid addresses, the first
    validated one is the first of them, and [{{EMAIL}}] renders as the
    whole cell. *)
Lemma email_placeholder_not_first_address :
  to_emails_of default_config two_recipients_row = ["jane@example.com"; "jane2@example.com"]
  /\ personalize_content may_14 "{{EMAIL}}" two_recipients_row
     = "jane@example.com,jane2@example.com"
  /\ lookup "{{EMAIL}}" (replacements_of may_14 two_recipients_row)
     = Some "jane@example.com,jane2@example.com".
Proof. repeat split. Qed.

(** ** A delay that cannot be slept *)

Section RefusedSleep.
Variables (w : World) (config : EmailConfig) (template : string) (refusal : string).
Hypothesis Refused : time_sleep w (DELAY_BETWEEN_EMAILS config) = Some refusal.

Lemma loop_body_no_sleep item st flow st' :
sleeps (trace st) = [] ->
loop_body w config template item st = (flow, st') ->
sleeps (trace st') = [].
Proof.
destruct item as [index row]. intros H E.
destruct (loop_body_cases w config template index row st)
  as [[_ B] | [(v & _ & _ & B) | [(v & _ & _ & _ & B) | (v & _ & _ & _ & B)]]];
  rewrite B in E; try (inversion E; subst; exact H).
destruct (process_row_inv _ _ _ _ _ _ _ _ E)
  as [(e & _ & _ & -> & _) | (result & events & clk' & delay & _ & S & _ & -> & D & _)];
  [exact H|].
pose proof (send_case w config template (TEST_MODE config) row (clk st)) as C.
rewrite S in C. cbn [fst snd] in C.
rewrite !sleeps_app, H, (sleeps_tagged index events _ C).
destruct D as [-> | (_ & _ & _ & N)]; [reflexivity | congruence].
Qed.

(** The loop processes one row at most: after the first one the cap is
  reached, or the table is at its end, or the sleep is refused. *)
Lemma for_rows_refused d :
forall n a st flow st',
  for_rows w config template (map (fun k => (k, row_at d k)) (seq a n)) st = (flow, st') ->
  nrows (df st) = a + n ->
  emails_sent_this_run st = 0 ->
  emails_sent_this_run st' <= 1.
Proof.
induction n as [|n IH]; intros a st flow st' E Hn H0.
{ simpl in E. inversion E; subst. lia. }
cbn [seq map for_rows] in E.
destruct (loop_body_cases w config template a (row_at d a) st)
  as [[_ B] | [(v & _ & _ & B) | [(v & _ & _ & _ & B) | (v & _ & _ & _ & B)]]];
  rewrite B in E.
- inversion E; subst. lia.
- apply (IH (S a) st flow st' E); lia.
- inversion E; subst. lia.
- destruct (process_row w config template a (row_at d a) st) as [f1 st1] eqn:P.
  destruct (process_row_counters _ _ _ _ _ _ _ _ P)
    as [[-> S1] | [(e & -> & S1 & _) | (e & -> & S1 & _)]].
  + destruct (process_row_next_delay _ _ _ _ _ _ _ P) as [Due | N]; [|congruence].
    unfold sleep_due in Due. apply andb_false_iff in Due as [Due | Due];
      apply Z.ltb_ge in Due.
    * assert (st' = st1) by (eapply for_rows_capped; [|exact E]; lia).
      subst. lia.
    * destruct n; [simpl in E; inversion E; subst; lia | lia].
  + inversion E; subst. lia.
  + inversion E; subst. lia.
Qed.

(** With a cap above one, a row still to send that is not the last of
  the table makes the loop raise. *)
Lemma for_rows_refused_raises d :
has_column d (col_status (COLUMNS config)) = true ->
(1 < MAX_EMAILS_PER_RUN config)%Z ->
forall n a st flow st',
  for_rows w config template (map (fun k => (k, row_at d k)) (seq a n)) st = (flow, st') ->
  nrows (df st) = nrows d ->
  emails_sent_this_run st = 0 ->
  forall j, a <= j < a + n -> j + 1 < nrows d -> to_send config d j = true ->
  exists e, flow = Raised e.
Proof.
intros Hc Hmax. induction n as [|n IH]; intros a st flow st' E Hn H0 j Hj Hlast Tj; [lia|].
cbn [seq map for_rows] in E.
destruct (loop_body_cases w config template a (row_at d a) st)
  as [[_ B] | [(v & G & A & B) | [(v & _ & _ & Hle & B) | (v & _ & _ & _ & B)]]];
  rewrite B in E.
- inversion E; subst. eauto.
- rewrite (series_getitem_row_at d a _ Hc) in G. inversion G; subst v.
  assert (a <> j).
  { intros ->. unfold to_send, status_of in Tj. rewrite A in Tj. discriminate. }
  apply (IH (S a) st flow st' E Hn H0 j); [lia | exact Hlast | exact Tj].
- lia.
- destruct (process_row w config template a (row_at d a) st) as [f1 st1] eqn:P.
  destruct (process_row_counters _ _ _ _ _ _ _ _ P)
    as [[-> S1] | [(e & -> & S1 & _) | (e & -> & S1 & _)]].
  + exfalso.
    destruct (process_row_next_delay _ _ _ _ _ _ _ P) as [Due | N]; [|congruence].
    unfold sleep_due in Due. apply andb_false_iff in Due as [Due | Due];
      apply Z.ltb_ge in Due; lia.
  + inversion E; subst. eauto.
  + inversion E; subst. eauto.
Qed.

End RefusedSleep.

(** X26: where the configured delay cannot be slept, as a negative one
    cannot, a run never sleeps and goes through the delivery channel once
    at most, whatever the cap; and with a cap above one, a row still to
    send that is not the last of the table makes the run end without
    writing the table back, so that what it recorded for the row it
    processed is lost. *)
Theorem refused_sleep_stops_run :
  forall (w : World) (config : EmailConfig) (template : string)
         (loaded : DataFrame) (answer refusal : string),
    time_sleep w (DELAY_BETWEEN_EMAILS config) = Some refusal ->
    sleeps (effects (main w config template loaded answer)) = []
    /\ List.length (deliveries (effects (main w config template loaded answer))) <= 1
    /\ (forall j,
          (1 < MAX_EMAILS_PER_RUN config)%Z ->
          has_column loaded (col_status (COLUMNS config)) = true ->
          j + 1 < nrows loaded ->
          to_send config loaded j = true ->
          saved (main w config template loaded answer) = None).
Proof.
  intros w config template loaded answer refusal Refused.
  destruct (main_cases w config template loaded answer)
    as [-> | (Hc & flow & st & L & -> & S)].
  { split; [reflexivity|]. split; [simpl; lia | reflexivity]. }
  split; [|split].
  - apply (for_rows_invariant w config template (fun s => sleeps (trace s) = [])
             (iterrows (prepared config loaded)))
      with (st := initial_state (prepared config loaded)) (flow := flow);
      [| reflexivity | exact L].
    intros item s f s' _. now apply (loop_body_no_sleep w config template refusal).
  - pose proof (for_rows_within_cap w config template _ _ _ _
                  (within_cap_initial config (prepared config loaded)) L) as [W1 _].
    pose proof (for_rows_refused w config template refusal Refused
                  (prepared config loaded) _ 0 _ _ _ L eq_refl eq_refl) as W2.
    lia.
  - intros j Hmax Hs Hlast Tj.
    destruct (for_rows_refused_raises w config template refusal Refused
                (prepared config loaded) Hc Hmax _ 0 _ _ _ L eq_refl eq_refl j)
      as (e & ->).
    + rewrite nrows_prepared. lia.
    + rewrite nrows_prepared. exact Hlast.
    + now rewrite to_send_prepared.
    + destruct S as [[_ S] | [N _]]; [exact S | now contradiction (N e)].
Qed.

Lemma refused_sleep_stops_run_witness :
  sleeps (effects (main world_ok negative_delay sample_template sample_table "yes")) = []
  /\ List.length
       (deliveries (effects (main world_ok negative_delay sample_template sample_table "yes")))
     <= 1
  /\ (forall j,
        (1 < MAX_EMAILS_PER_RUN negative_delay)%Z ->
        has_column sample_table (col_status (COLUMNS negative_delay)) = true ->
        j + 1 < nrows sample_table ->
        to_send negative_delay sample_table j = true ->
        saved (main world_ok negative_delay sample_template sample_table "yes") = None).
Proof.
  apply (refused_sleep_stops_run world_ok negative_delay sample_template sample_table "yes"
           "sleep length must be non-negative").
  reflexivity.
Defined.
